(** * SaveMe: the ownership-scoped vault, its upload filter and its
      best-effort blob deletion

    A shallow embedding of the Express/Mongoose back end:
    - [backend/utils/cloudinary.js]  (upload filter, [deleteFromCloudinary],
      [extractPublicId]),
    - [backend/routes/passwords.js]  (password entry CRUD),
    - [backend/routes/documents.js]  (document get / download / delete),
    - [backend/routes/user.js]       (avatar upload / delete),
    - [backend/models/Password.js]   (the schema whose validators the
      routes rely on).

    JavaScript strings are sequences of code units; the development keeps
    to code units below 256 (Latin-1), so that one [ascii] is one code unit
    and [trim] / [toLowerCase] are exact on every string of the model. *)

From Stdlib Require Import String Ascii List Bool Arith NArith Lia Sorted.
From stdpp Require Import base option list strings gmap pretty.

Local Open Scope string_scope.

(** ** JavaScript string and array primitives used by the source *)
Module Js.

(** A string in a condition: the empty string is falsy, every other
    string truthy. *)
Definition truthy (s : string) : bool := negb (String.eqb s EmptyString).

(** An optional property in a condition: [undefined] is falsy. *)
Definition truthy_opt (o : option string) : bool :=
  match o with
  | Some s => truthy s
  | None => false
  end.

(** [s.startsWith(p)] *)
Definition startsWith (s p : string) : bool := String.prefix p s.

(** [s.slice(n)] for [0 <= n] *)
Fixpoint slice_from (n : nat) (s : string) : string :=
  match n, s with
  | O, _ => s
  | S n', String _ s' => slice_from n' s'
  | S _, EmptyString => EmptyString
  end.

(** [s.endsWith(p)] *)
Definition endsWith (s p : string) : bool :=
  (String.length p <=? String.length s)%nat
  && String.eqb (slice_from (String.length s - String.length p) s) p.

(** [s.indexOf(p)]; [None] stands for [-1]. *)
Fixpoint indexOf (s p : string) : option nat :=
  if String.prefix p s then Some O
  else match s with
       | EmptyString => None
       | String _ s' => S <$> indexOf s' p
       end.

(** [s.includes(p)] *)
Definition includes (s p : string) : bool :=
  match indexOf s p with
  | Some _ => true
  | None => false
  end.

(** [s.replace(p, r)] with a string pattern [p]: only the first
    occurrence is replaced ([r] holds no [$] pattern in the source). *)
Fixpoint replace (s p r : string) : string :=
  if String.prefix p s then r +:+ slice_from (String.length p) s
  else match s with
       | EmptyString => EmptyString
       | String c s' => String c (replace s' p r)
       end.

(** [s.split(sep)] for a one-character separator. *)
Fixpoint split (s : string) (sep : ascii) : list string :=
  match s with
  | EmptyString => [EmptyString]
  | String c s' =>
      if Ascii.eqb c sep then EmptyString :: split s' sep
      else match split s' sep with
           | x :: xs => String c x :: xs
           | [] => [String c EmptyString]
           end
  end.

(** [parts.join(sep)] *)
Definition join (parts : list string) (sep : string) : string :=
  String.concat sep parts.

(** [parts.indexOf(x)]; [None] stands for [-1]. *)
Fixpoint arr_indexOf (parts : list string) (x : string) : option nat :=
  match parts with
  | [] => None
  | y :: ys => if String.eqb y x then Some O else S <$> arr_indexOf ys x
  end.

(** [s.lastIndexOf(c)] for a one-character needle. *)
Fixpoint lastIndexOf (s : string) (c : ascii) : option nat :=
  match s with
  | EmptyString => None
  | String a s' =>
      match lastIndexOf s' c with
      | Some i => Some (S i)
      | None => if Ascii.eqb a c then Some O else None
      end
  end.

(** [s.substring(0, k)] *)
Definition substring0 (k : nat) (s : string) : string := String.substring 0 k s.

(** White space of [String.prototype.trim] among the code units below
    256: TAB, LF, VT, FF, CR, SPACE and NBSP. *)
Definition is_white_space (c : ascii) : bool :=
  let n := nat_of_ascii c in
  ((9 <=? n) && (n <=? 13) || (n =? 32) || (n =? 160))%nat.

Fixpoint trimStart (s : string) : string :=
  match s with
  | EmptyString => EmptyString
  | String c s' => if is_white_space c then trimStart s' else s
  end.

(** [s.trim()] *)
Definition trim (s : string) : string :=
  String.rev (trimStart (String.rev (trimStart s))).

Definition lower_char (c : ascii) : ascii :=
  let n := nat_of_ascii c in
  if ((65 <=? n) && (n <=? 90)
      || (192 <=? n) && (n <=? 222) && negb (n =? 215))%nat
  then ascii_of_nat (n + 32) else c.

(** [s.toLowerCase()] *)
Fixpoint toLowerCase (s : string) : string :=
  match s with
  | EmptyString => EmptyString
  | String c s' => String (lower_char c) (toLowerCase s')
  end.

Definition is_digit (c : ascii) : bool :=
  let n := nat_of_ascii c in ((48 <=? n) && (n <=? 57))%nat.

Fixpoint all_chars (f : ascii -> bool) (s : string) : bool :=
  match s with
  | EmptyString => true
  | String c s' => f c && all_chars f s'
  end.

(** [/^v\d+$/.test(s)] *)
Definition version_test (s : string) : bool :=
  match s with
  | String "v"%char ds => truthy ds && all_chars is_digit ds
  | _ => false
  end.

(** The longest prefix free of the characters [stop] accepts. *)
Fixpoint take_until (stop : ascii -> bool) (s : string) : string :=
  match s with
  | EmptyString => EmptyString
  | String c s' => if stop c then EmptyString else String c (take_until stop s')
  end.

(** [n.toString()] / string concatenation of a non-negative integer. *)
Definition num_to_string (n : N) : string := pretty n.

End Js.

(** ** Node's [path] module (POSIX flavour), as far as the source uses it *)
Module Path.

Definition slash : ascii := "/"%char.
Definition dot : ascii := "."%char.

(** The right-most non-empty component: trailing separators are ignored. *)
Definition base (p : string) : string :=
  List.last (List.filter Js.truthy (Js.split p slash)) EmptyString.

Fixpoint leading_slashes (s : string) : string :=
  match s with
  | String c s' =>
      if Ascii.eqb c slash then String c (leading_slashes s')
      else EmptyString
  | EmptyString => EmptyString
  end.

Definition trailing_slashes (p : string) : string :=
  leading_slashes (String.rev p).

(** [path.extname(p)]: from the last dot of the last component; empty
    when there is no dot, when the dot opens the component, or for [..]. *)
Definition extname (p : string) : string :=
  let b := base p in
  match Js.lastIndexOf b dot with
  | None => EmptyString
  | Some O => EmptyString
  | Some i => if String.eqb b ".." then EmptyString else Js.slice_from i b
  end.

(** [path.basename(p, ext)] *)
Definition basename (p ext : string) : string :=
  let b := base p in
  if Js.truthy ext && (String.length ext <=? String.length p)%nat then
    if String.eqb ext p then EmptyString
    else if Js.endsWith b ext then
      if String.eqb b ext then b
      else Js.substring0 (String.length b - String.length ext) b
    else if Js.endsWith ext b then b +:+ trailing_slashes p
    else b
  else b.

(** Segment stack of [normalizeString] for an absolute path. *)
Fixpoint normalize_segments (segs acc : list string) : list string :=
  match segs with
  | [] => List.rev acc
  | s :: rest =>
      if String.eqb s EmptyString || String.eqb s "."
      then normalize_segments rest acc
      else if String.eqb s ".." then normalize_segments rest (List.tl acc)
      else normalize_segments rest (s :: acc)
  end.

(** [path.normalize(p)] for an absolute [p]. *)
Definition normalize (p : string) : string :=
  let segs := normalize_segments (Js.split p slash) [] in
  match segs with
  | [] => "/"
  | _ => "/" +:+ Js.join segs "/"
           +:+ (if Js.endsWith p "/" then "/" else EmptyString)
  end.

(** [path.join(a, b, ...)] with an absolute first argument. *)
Definition join (parts : list string) : string :=
  normalize (Js.join (List.filter Js.truthy parts) "/").

End Path.

(** ** Data model *)

(** A MongoDB ObjectId in its canonical string form. *)
Definition ObjectId := string.

Module PasswordDoc.
(** [backend/models/Password.js] with [timestamps: true]. *)
Record t := mk {
  _id : ObjectId;
  userId : ObjectId;
  title : string;
  username : option string;
  password : string;
  website : option string;
  category : string;
  notes : option string;
  createdAt : N;
  updatedAt : N
}.
End PasswordDoc.

Module DocumentDoc.
(** Modelled from the spec: [backend/models/Document.js] is not part of
    the sources; the fields are those of the spec's Document (id, ownerId,
    storedName, originalName, locator, contentType, sizeBytes, createdAt)
    under the names the upload route gives them. *)
Record t := mk {
  _id : ObjectId;
  userId : ObjectId;
  filename : string;
  originalName : string;
  filePath : string;
  fileType : string;
  fileSize : N;
  createdAt : N
}.
End DocumentDoc.

Module UserDoc.
(** Modelled from the spec: [backend/models/User.js] is not part of the
    sources; a user is referenced by id and holds an optional avatar
    locator ([None] is JavaScript's [null]).  The profile fields that no
    route below touches are left out. *)
Record t := mk {
  _id : ObjectId;
  avatar : option string
}.
End UserDoc.

(** An entry of the local file system: [unlinkSync] removes a removable
    file and throws on a protected file or on a directory. *)
Inductive FsNode :=
| File (data : string) (removable : bool)
| Directory.

(** What a route writes to [console.error] or does to the stores, in
    program order (oldest first). *)
Inductive Event :=
| ConsoleError (what : string)
| BlobWritten (path : string)
| BlobDeleteCalled (publicId : string)
| Unlinked (path : string)
| PasswordInserted (id : ObjectId)
| PasswordUpdated (id : ObjectId)
| PasswordDeleted (id : ObjectId)
| DocumentDeleted (id : ObjectId)
| UserSaved (id : ObjectId) (avatar : option string).

Record World := mkWorld {
  passwords : list PasswordDoc.t;
  documents : list DocumentDoc.t;
  users : list UserDoc.t;
  disk : gmap string FsNode;
  trace : list Event
}.

(** What the process depends on and the sources do not fix: the directory
    of [utils/cloudinary.js] (an absolute path), the WHATWG URL parser
    ([None] when [new URL(u)] throws, otherwise its [pathname]) and
    Mongoose's cast of a request parameter to an ObjectId ([None] when it
    raises a CastError). *)
Class Env := {
  dirname : string;
  url_pathname : string -> option string;
  castObjectId : string -> option ObjectId
}.

(** ** Computations: state passing with JavaScript exceptions *)

Inductive Exn :=
| TypeError (what : string)
| FsError (path : string)
| CastError (value : string)
| ValidationError (path : string)
| DuplicateKey (id : ObjectId).

Inductive Outcome (A : Type) :=
| Normal (a : A)
| Thrown (e : Exn).
Arguments Normal {A} a.
Arguments Thrown {A} e.

Definition M (A : Type) : Type := World -> Outcome A * World.

Definition ret {A} (a : A) : M A := fun w => (Normal a, w).

Definition bind {A B} (m : M A) (k : A -> M B) : M B :=
  fun w => match m w with
           | (Normal a, w') => k a w'
           | (Thrown e, w') => (Thrown e, w')
           end.

Definition throw {A} (e : Exn) : M A := fun w => (Thrown e, w).

(** [try { m } catch (e) { h e }] *)
Definition try_catch {A} (m : M A) (h : Exn -> M A) : M A :=
  fun w => match m w with
           | (Normal a, w') => (Normal a, w')
           | (Thrown e, w') => h e w'
           end.

Definition get_world : M World := fun w => (Normal w, w).

#[global] Instance M_ret : MRet M := @ret.
#[global] Instance M_bind : MBind M := fun A B k m => bind m k.

Definition emit (e : Event) : M unit :=
  fun w => (Normal tt,
            mkWorld (passwords w) (documents w) (users w) (disk w)
                    (trace w ++ [e])).

Definition set_disk (d : gmap string FsNode) : M unit :=
  fun w => (Normal tt,
            mkWorld (passwords w) (documents w) (users w) d (trace w)).

Definition set_passwords (l : list PasswordDoc.t) : M unit :=
  fun w => (Normal tt,
            mkWorld l (documents w) (users w) (disk w) (trace w)).

Definition set_documents (l : list DocumentDoc.t) : M unit :=
  fun w => (Normal tt,
            mkWorld (passwords w) l (users w) (disk w) (trace w)).

Definition set_users (l : list UserDoc.t) : M unit :=
  fun w => (Normal tt,
            mkWorld (passwords w) (documents w) l (disk w) (trace w)).

(** [console.error(...)] *)
Definition console_error (what : string) : M unit := emit (ConsoleError what).

(** ** Node's [fs] *)
Module Fs.

(** [fs.existsSync(p)] *)
Definition existsSync (p : string) : M bool :=
  w ← get_world;
  ret (match disk w !! p with Some _ => true | None => false end).

(** [fs.unlinkSync(p)] *)
Definition unlinkSync (p : string) : M unit :=
  w ← get_world;
  match disk w !! p with
  | Some (File _ true) => set_disk (delete p (disk w));; emit (Unlinked p)
  | _ => throw (FsError p)
  end.

End Fs.

(** ** multer: one multipart file per request *)
Module Multer.

(** The file part of the incoming multipart request. *)
Record Part := mkPart {
  fieldname : string;
  originalname : string;
  mimetype : string;
  size : N;
  data : string
}.

(** [req.file] once the disk storage has written the part. *)
Record StoredFile := mkStored {
  file_originalname : string;
  file_mimetype : string;
  filename : string;
  path : string;
  file_size : N
}.

Inductive Error :=
| LIMIT_FILE_SIZE
| LIMIT_UNEXPECTED_FILE
| FilterError (message : string).

(** [multer.MulterError] or a plain [Error] from the file filter. *)
Definition is_MulterError (e : Error) : bool :=
  match e with
  | FilterError _ => false
  | _ => true
  end.

Definition message (e : Error) : string :=
  match e with
  | LIMIT_FILE_SIZE => "File too large"
  | LIMIT_UNEXPECTED_FILE => "Unexpected field"
  | FilterError m => m
  end.

Record Options := mkOptions {
  destination : string;
  make_filename : Part -> string;
  fileSize : N;
  fileFilter : Part -> option string
}.

(** [multer(opts).single(field)(req, res, cb)]: [inl e] is [cb(e)];
    [inr f] is [cb()] with [req.file = f].  A part without file name is
    skipped before anything else looks at it; then come the field name and
    the filter, and only then the storage engine is handed the part.  The
    stream signals the limit as soon as the bytes read reach [fileSize]
    (busboy 1.x, under multer 1.4.5-lts and later): a part of that size or
    more is cut there, written, and removed again when the request is
    aborted. *)
Definition single (opts : Options) (field : string) (part : option Part)
  : M (Error + option StoredFile) :=
  match part with
  | None => ret (inr None)
  | Some file =>
      if negb (Js.truthy (originalname file)) then ret (inr None)
      else if negb (String.eqb (fieldname file) field) then
        ret (inl LIMIT_UNEXPECTED_FILE)
      else match fileFilter opts file with
           | Some msg => ret (inl (FilterError msg))
           | None =>
               let name := make_filename opts file in
               let target := Path.join [destination opts; name] in
               w ← get_world;
               set_disk (<[target := File (data file) true]> (disk w));;
               emit (BlobWritten target);;
               if (fileSize opts <=? size file)%N then
                 w ← get_world;
                 set_disk (delete target (disk w));;
                 emit (Unlinked target);;
                 ret (inl LIMIT_FILE_SIZE)
               else
                 ret (inr (Some (mkStored (originalname file) (mimetype file)
                                          name target (size file))))
           end
  end.

End Multer.

(** ** [backend/utils/cloudinary.js] *)
Module Cloudinary.

(** [/jpeg|jpg|png|gif|webp/.test(s)]: an unanchored search. *)
Definition allowedTypes_test (s : string) : bool :=
  existsb (Js.includes s) ["jpeg"; "jpg"; "png"; "gif"; "webp"].

(** [uploadAvatar]'s [fileFilter]: [None] is [cb(null, true)], [Some m]
    is [cb(new Error(m))]. *)
Definition fileFilter (file : Multer.Part) : option string :=
  let extname := allowedTypes_test (Js.toLowerCase (Multer.originalname file)) in
  let mimetype := allowedTypes_test (Multer.mimetype file) in
  if mimetype && extname then None
  else Some "Only image files are allowed".

(** The value of [{ result: 'ok' }]. *)
Record DeleteResult := mkResult { result : string }.
Definition ok : DeleteResult := mkResult "ok".

Section WithEnv.
Context `{Env}.

Definition avatarsDir : string :=
  Path.join [dirname; ".."; "uploads"; "avatars"].

Definition documentsDir : string :=
  Path.join [dirname; ".."; "uploads"; "documents"].

(** [Date.now() + '-' + Math.round(Math.random() * 1E9)] *)
Definition uniqueSuffix (now rnd : N) : string :=
  Js.num_to_string now +:+ "-" +:+ Js.num_to_string rnd.

Definition localAvatarStorage_filename (userId : ObjectId) (now rnd : N)
    (file : Multer.Part) : string :=
  (if Js.truthy userId then userId else "user") +:+ "-"
    +:+ uniqueSuffix now rnd +:+ Path.extname (Multer.originalname file).

Definition localDocumentStorage_filename (now rnd : N)
    (file : Multer.Part) : string :=
  uniqueSuffix now rnd +:+ Path.extname (Multer.originalname file).

Definition uploadAvatar (userId : ObjectId) (now rnd : N) : Multer.Options :=
  Multer.mkOptions avatarsDir (localAvatarStorage_filename userId now rnd)
                   (5 * 1024 * 1024) fileFilter.

Definition uploadDocument (now rnd : N) : Multer.Options :=
  Multer.mkOptions documentsDir (localDocumentStorage_filename now rnd)
                   (50 * 1024 * 1024) (fun _ => None).

(** [deleteFromCloudinary]: the helper that deletes a file from local
    storage.  [None] for the path is the early [return { result: 'ok' }]. *)
Definition deleteFromCloudinary (publicId : string) : M DeleteResult :=
  emit (BlobDeleteCalled publicId);;
  try_catch
    (filePath ←
       (if Js.startsWith publicId "uploads/" then
          ret (Some (Path.join [dirname; ".."; publicId]))
        else if Js.includes publicId "/" then
          ret (Some (Path.join [dirname; ".."; "uploads"; publicId]))
        else
          let avatarPath := Path.join [avatarsDir; publicId] in
          let docPath := Path.join [documentsDir; publicId] in
          a ← Fs.existsSync avatarPath;
          if a : bool then ret (Some avatarPath)
          else d ← Fs.existsSync docPath;
               if d : bool then ret (Some docPath) else ret None);
     match filePath with
     | None => ret ok
     | Some filePath =>
         e ← Fs.existsSync filePath;
         (if e : bool then Fs.unlinkSync filePath else ret tt);;
         ret ok
     end)
    (fun error => console_error "Error deleting local file:";; ret ok).

(** [new URL(url).pathname] *)
Definition URL_pathname (url : string) : M string :=
  match url_pathname url with
  | Some p => ret p
  | None => throw (TypeError "Invalid URL")
  end.

(** The body of [extractPublicId]'s [try] block once the URL is parsed:
    everything after the [upload] segment, an optional version segment
    skipped, joined again and cut at the last dot. *)
Definition publicId_of_pathname (pathname : string) : option string :=
  let pathParts := Js.split pathname Path.slash in
  match Js.arr_indexOf pathParts "upload" with
  | None => None
  | Some uploadIndex =>
      let publicIdParts := drop (uploadIndex + 1) pathParts in
      let publicIdParts :=
        match publicIdParts with
        | p0 :: rest =>
            if Js.truthy p0 && Js.version_test p0 then rest
            else publicIdParts
        | [] => publicIdParts
        end in
      let publicId := Js.join publicIdParts "/" in
      Some (match Js.lastIndexOf publicId Path.dot with
            | Some lastDot => Js.substring0 lastDot publicId
            | None => publicId
            end)
  end.

(** [extractPublicId]; the argument is [None] for [null] / [undefined]. *)
Definition extractPublicId (url : option string) : M (option string) :=
  match url with
  | None => ret None
  | Some url =>
      if negb (Js.truthy url) then ret None
      else if negb (Js.startsWith url "http") then
        ret (Some (Path.basename url (Path.extname url)))
      else
        try_catch
          (pathname ← URL_pathname url;
           ret (publicId_of_pathname pathname))
          (fun error => console_error "Error extracting public_id:";; ret None)
  end.

End WithEnv.
End Cloudinary.

(** ** Mongoose models over the in-memory collections *)

Definition cast_id `{Env} (id : string) : M ObjectId :=
  match castObjectId id with
  | Some oid => ret oid
  | None => throw (CastError id)
  end.

(** Replace, respectively remove, the first element a query matches
    (MongoDB touches one document per [findOneAnd...] call). *)
Fixpoint replace_first {A} (f : A -> bool) (y : A) (l : list A) : list A :=
  match l with
  | [] => []
  | x :: l' => if f x then y :: l' else x :: replace_first f y l'
  end.

Fixpoint remove_first {A} (f : A -> bool) (l : list A) : list A :=
  match l with
  | [] => []
  | x :: l' => if f x then l' else x :: remove_first f l'
  end.

Module Password.

(** [enum: ['social', 'email', 'banking', 'shopping', 'work', 'other']] *)
Definition category_enum : list string :=
  ["social"; "email"; "banking"; "shopping"; "work"; "other"].

Definition in_enum (c : string) : bool := existsb (String.eqb c) category_enum.

(** The query [{ _id: id, userId: uid }]. *)
Definition by_id_and_owner (id uid : ObjectId) (p : PasswordDoc.t) : bool :=
  String.eqb (PasswordDoc._id p) id && String.eqb (PasswordDoc.userId p) uid.

(** [new Password({...})]: the [trim: true] setters run on assignment. *)
Definition new_Password (oid uid : ObjectId) (title : string)
    (username : option string) (password : string) (website : option string)
    (category : string) (notes : option string) (now : N) : PasswordDoc.t :=
  PasswordDoc.mk oid uid (Js.trim title) (Js.trim <$> username) password
                 (Js.trim <$> website) (Js.trim category) (Js.trim <$> notes)
                 now now.

(** The paths of a document that fail their validators: [required] on
    [title] and [password], [enum] on [category]. *)
Definition validate (p : PasswordDoc.t) : list string :=
  (if Js.truthy (PasswordDoc.title p) then [] else ["title"])
  ++ (if Js.truthy (PasswordDoc.password p) then [] else ["password"])
  ++ (if in_enum (PasswordDoc.category p) then [] else ["category"]).

(** The update document of the PUT route; a key whose value is
    [undefined] is left out of the [$set] Mongoose sends. *)
Record Update := mkUpdate {
  set_title : option string;
  set_username : option string;
  set_password : option string;
  set_website : option string;
  set_category : option string;
  set_notes : option string
}.

(** Casting the update runs the [trim] setters of the schema. *)
Definition cast_update (u : Update) : Update :=
  mkUpdate (Js.trim <$> set_title u) (Js.trim <$> set_username u)
           (set_password u) (Js.trim <$> set_website u)
           (Js.trim <$> set_category u) (Js.trim <$> set_notes u).

(** [runValidators: true]: the validators of the paths the update sets. *)
Definition validate_update (u : Update) : list string :=
  (match set_title u with
   | Some t => if Js.truthy t then [] else ["title"]
   | None => []
   end)
  ++ (match set_password u with
      | Some p => if Js.truthy p then [] else ["password"]
      | None => []
      end)
  ++ (match set_category u with
      | Some c => if in_enum c then [] else ["category"]
      | None => []
      end).

Definition or_keep {A} (new : option A) (old : option A) : option A :=
  match new with
  | Some v => Some v
  | None => old
  end.

(** The document after [$set]; [timestamps] refreshes [updatedAt]. *)
Definition apply_update (u : Update) (now : N) (p : PasswordDoc.t)
  : PasswordDoc.t :=
  PasswordDoc.mk (PasswordDoc._id p) (PasswordDoc.userId p)
    (default (PasswordDoc.title p) (set_title u))
    (or_keep (set_username u) (PasswordDoc.username p))
    (default (PasswordDoc.password p) (set_password u))
    (or_keep (set_website u) (PasswordDoc.website p))
    (default (PasswordDoc.category p) (set_category u))
    (or_keep (set_notes u) (PasswordDoc.notes p))
    (PasswordDoc.createdAt p) now.

Section WithEnv.
Context `{Env}.

(** [Password.findOne({ _id: id, userId: uid })] *)
Definition findOne (id : string) (uid : ObjectId) : M (option PasswordDoc.t) :=
  oid ← cast_id id;
  w ← get_world;
  ret (List.find (by_id_and_owner oid uid) (passwords w)).

(** [doc.save()] of a new document. *)
Definition save (p : PasswordDoc.t) : M unit :=
  match validate p with
  | (_ :: _) as errs => throw (ValidationError (Js.join errs ", "))
  | [] =>
      w ← get_world;
      if existsb (fun q => String.eqb (PasswordDoc._id q) (PasswordDoc._id p))
                 (passwords w)
      then throw (DuplicateKey (PasswordDoc._id p))
      else set_passwords (passwords w ++ [p]);;
           emit (PasswordInserted (PasswordDoc._id p))
  end.

(** [Password.findOneAndUpdate({ _id: id, userId: uid }, u,
    { new: true, runValidators: true })]: the update is cast and validated
    before the query is sent; the post-update document is returned. *)
Definition findOneAndUpdate (id : string) (uid : ObjectId) (u : Update)
    (now : N) : M (option PasswordDoc.t) :=
  oid ← cast_id id;
  let u' := cast_update u in
  match validate_update u' with
  | (_ :: _) as errs => throw (ValidationError (Js.join errs ", "))
  | [] =>
      w ← get_world;
      match List.find (by_id_and_owner oid uid) (passwords w) with
      | None => ret None
      | Some p =>
          let p' := apply_update u' now p in
          set_passwords (replace_first (by_id_and_owner oid uid) p' (passwords w));;
          emit (PasswordUpdated (PasswordDoc._id p));;
          ret (Some p')
      end
  end.

(** [Password.findOneAndDelete({ _id: id, userId: uid })] *)
Definition findOneAndDelete (id : string) (uid : ObjectId)
  : M (option PasswordDoc.t) :=
  oid ← cast_id id;
  w ← get_world;
  match List.find (by_id_and_owner oid uid) (passwords w) with
  | None => ret None
  | Some p =>
      set_passwords (remove_first (by_id_and_owner oid uid) (passwords w));;
      emit (PasswordDeleted (PasswordDoc._id p));;
      ret (Some p)
  end.

End WithEnv.
End Password.

Module Document.

(** The query [{ _id: id, userId: uid }]. *)
Definition by_id_and_owner (id uid : ObjectId) (d : DocumentDoc.t) : bool :=
  String.eqb (DocumentDoc._id d) id && String.eqb (DocumentDoc.userId d) uid.

Section WithEnv.
Context `{Env}.

(** [Document.findOne({ _id: id, userId: uid })] *)
Definition findOne (id : string) (uid : ObjectId) : M (option DocumentDoc.t) :=
  oid ← cast_id id;
  w ← get_world;
  ret (List.find (by_id_and_owner oid uid) (documents w)).

(** [Document.findByIdAndDelete(oid)] *)
Definition findByIdAndDelete (oid : ObjectId) : M unit :=
  w ← get_world;
  let by_id := fun d => String.eqb (DocumentDoc._id d) oid in
  match List.find by_id (documents w) with
  | None => ret tt
  | Some d =>
      set_documents (remove_first by_id (documents w));;
      emit (DocumentDeleted oid)
  end.

End WithEnv.
End Document.

Module User.

(** [User.findById(uid)] *)
Definition findById (uid : ObjectId) : M (option UserDoc.t) :=
  w ← get_world;
  ret (List.find (fun u => String.eqb (UserDoc._id u) uid) (users w)).

(** [user.save()] of a fetched user. *)
Definition save (u : UserDoc.t) : M unit :=
  w ← get_world;
  set_users (replace_first
               (fun v => String.eqb (UserDoc._id v) (UserDoc._id u)) u (users w));;
  emit (UserSaved (UserDoc._id u) (UserDoc.avatar u)).

End User.

(** ** HTTP responses *)

Inductive Body :=
| ErrorBody (error : string)
| ExnBody (error : Exn)
| MessageBody (message : string)
| PasswordBody (p : PasswordDoc.t)
| DocumentBody (d : DocumentDoc.t)
| AvatarBody (message : string) (avatar : string).

Inductive Response :=
| Json (status : nat) (body : Body)
| Redirect (url : string).

(** [try { handler } catch (error) { res.status(500).json({ error:
    error.message }) }] *)
Definition route (handler : M Response) : World -> Response * World :=
  fun w => match handler w with
           | (Normal r, w') => (r, w')
           | (Thrown e, w') => (Json 500 (ExnBody e), w')
           end.

(** The pair (id, owner) of a password entry. *)
Definition owner_of (p : PasswordDoc.t) : ObjectId * ObjectId :=
  (PasswordDoc._id p, PasswordDoc.userId p).

(** The collections as the queries of one owner can see them. *)
Definition owned_by (uid : ObjectId) (w : World) : World :=
  mkWorld
    (List.filter (fun p => String.eqb (PasswordDoc.userId p) uid) (passwords w))
    (List.filter (fun d => String.eqb (DocumentDoc.userId d) uid) (documents w))
    (users w) (disk w) (trace w).

(** The events a best-effort blob removal may leave in the trace. *)
Definition cleanup_event (e : Event) : bool :=
  match e with
  | ConsoleError _ | BlobDeleteCalled _ | Unlinked _ => true
  | _ => false
  end.

Definition is_delete_call (e : Event) : bool :=
  match e with
  | BlobDeleteCalled _ => true
  | _ => false
  end.

Definition is_user_save (e : Event) : bool :=
  match e with
  | UserSaved _ _ => true
  | _ => false
  end.


(** The three collections of [w'] are those of [w]. *)
Definition same_records (w w' : World) : Prop :=
  passwords w' = passwords w /\ documents w' = documents w
  /\ users w' = users w.

(** [w] after more events, nothing else touched. *)
Definition logged (w : World) (evs : list Event) : World :=
  mkWorld (passwords w) (documents w) (users w) (disk w) (trace w ++ evs).











(** The two "not found" answers of the record routes. *)
Definition password_not_found : Response :=
  Json 404 (ErrorBody "Password not found").

Definition document_not_found : Response :=
  Json 404 (ErrorBody "Document not found").

(** ** [backend/routes/passwords.js] *)
Module PasswordRoutes.
Section WithEnv.
Context `{Env}.

(** [router.get('/:id')] *)
Definition get (uid : ObjectId) (id : string) : World -> Response * World :=
  route (
    password ← Password.findOne id uid;
    match password with
    | None => ret (Json 404 (ErrorBody "Password not found"))
    | Some p => ret (Json 200 (PasswordBody p))
    end).

(** [router.post('/')]; [oid] and [now] are the ObjectId and the clock
    value this request draws. *)
Definition post (uid : ObjectId) (body : gmap string string)
    (oid : ObjectId) (now : N) : World -> Response * World :=
  route (
    let title := body !! "title" in
    let username := body !! "username" in
    let password := body !! "password" in
    let website := body !! "website" in
    let category := body !! "category" in
    let notes := body !! "notes" in
    if negb (Js.truthy_opt title) || negb (Js.truthy_opt password) then
      ret (Json 400 (ErrorBody "Title and password are required"))
    else
      let newPassword :=
        Password.new_Password oid uid (default EmptyString title) username
          (default EmptyString password) website
          (if Js.truthy_opt category then default EmptyString category
           else "other")
          notes now in
      Password.save newPassword;;
      ret (Json 201 (PasswordBody newPassword))).

(** The update document [{ title, username, password, website,
    category: category || 'other', notes }] *)
Definition update_of_body (body : gmap string string) : Password.Update :=
  let category := body !! "category" in
  Password.mkUpdate (body !! "title") (body !! "username")
    (body !! "password") (body !! "website")
    (Some (if Js.truthy_opt category then default EmptyString category
           else "other"))
    (body !! "notes").

(** [router.put('/:id')] *)
Definition put (uid : ObjectId) (id : string) (body : gmap string string)
    (now : N) : World -> Response * World :=
  route (
    updatedPassword ←
      Password.findOneAndUpdate id uid (update_of_body body) now;
    match updatedPassword with
    | None => ret (Json 404 (ErrorBody "Password not found"))
    | Some p => ret (Json 200 (PasswordBody p))
    end).

(** [router.delete('/:id')] *)
Definition delete (uid : ObjectId) (id : string) : World -> Response * World :=
  route (
    deletedPassword ← Password.findOneAndDelete id uid;
    match deletedPassword with
    | None => ret (Json 404 (ErrorBody "Password not found"))
    | Some _ => ret (Json 200 (MessageBody "Password deleted successfully"))
    end).

End WithEnv.
End PasswordRoutes.

(** The block the document and avatar routes share, up to the folder
    and the console message:
    [try { const publicId = extractPublicId(locator);
           if (publicId) { await deleteFromCloudinary(`${folder}${publicId}`); } }
     catch (deleteError) { console.error(what, deleteError); }] *)
Definition best_effort_delete `{Env} (folder what : string)
    (locator : option string) : M unit :=
  try_catch
    (publicId ← Cloudinary.extractPublicId locator;
     if Js.truthy_opt publicId then
       Cloudinary.deleteFromCloudinary
         (folder +:+ default EmptyString publicId);;
       ret tt
     else ret tt)
    (fun deleteError => console_error what).

(** ** [backend/routes/documents.js] *)
Module DocumentRoutes.
Section WithEnv.
Context `{Env}.

(** [router.get('/:id')] *)
Definition get (uid : ObjectId) (id : string) : World -> Response * World :=
  route (
    document ← Document.findOne id uid;
    match document with
    | None => ret (Json 404 (ErrorBody "Document not found"))
    | Some d => ret (Json 200 (DocumentBody d))
    end).

(** [router.get('/:id/download')] *)
Definition download (uid : ObjectId) (id : string)
  : World -> Response * World :=
  route (
    document ← Document.findOne id uid;
    match document with
    | None => ret (Json 404 (ErrorBody "Document not found"))
    | Some d =>
        let filePath := DocumentDoc.filePath d in
        if Js.truthy filePath && Js.startsWith filePath "http" then
          let downloadUrl :=
            Js.replace filePath "/upload/" "/upload/fl_attachment/" in
          ret (Redirect downloadUrl)
        else ret (Json 404 (ErrorBody "File not found"))
    end).

(** [router.delete('/:id')] *)
Definition delete (uid : ObjectId) (id : string) : World -> Response * World :=
  route (
    document ← Document.findOne id uid;
    match document with
    | None => ret (Json 404 (ErrorBody "Document not found"))
    | Some d =>
        let filePath := DocumentDoc.filePath d in
        (if Js.truthy filePath && Js.startsWith filePath "http" then
           best_effort_delete "password-manager/documents/"
             "Error deleting document from Cloudinary:" (Some filePath)
         else ret tt);;
        Document.findByIdAndDelete (DocumentDoc._id d);;
        ret (Json 200 (MessageBody "Document deleted successfully"))
    end).

End WithEnv.
End DocumentRoutes.

(** ** [backend/routes/user.js]: the avatar endpoints *)
Module UserRoutes.
Section WithEnv.
Context `{Env}.

(** The second handler of [router.post('/avatar')], run after multer
    leaves [req.file]. *)
Definition post_avatar_handler (uid : ObjectId)
    (file : option Multer.StoredFile) : M Response :=
  match file with
  | None =>
      ret (Json 400 (ErrorBody "No file uploaded. Please select an image file."))
  | Some file =>
      user ← User.findById uid;
      match user with
      | None => ret (Json 404 (ErrorBody "User not found"))
      | Some user =>
          (if Js.truthy_opt (UserDoc.avatar user) then
             best_effort_delete "password-manager/avatars/"
               "Error deleting old avatar from Cloudinary:"
               (UserDoc.avatar user)
           else ret tt);;
          let avatar :=
            if Js.truthy (Multer.path file)
               && Js.startsWith (Multer.path file) "http"
            then Multer.path file
            else "/uploads/avatars/" +:+ Multer.filename file in
          User.save (UserDoc.mk (UserDoc._id user) (Some avatar));;
          ret (Json 200 (AvatarBody "Avatar uploaded successfully" avatar))
      end
  end.

(** [router.post('/avatar')]: the multer stage, then the handler. *)
Definition post_avatar (uid : ObjectId) (part : option Multer.Part)
    (now rnd : N) : World -> Response * World :=
  route (
    r ← Multer.single (Cloudinary.uploadAvatar uid now rnd) "avatar" part;
    match r with
    | inl err =>
        if Multer.is_MulterError err then
          match err with
          | Multer.LIMIT_FILE_SIZE =>
              ret (Json 400
                     (ErrorBody "File size too large. Maximum size is 5MB"))
          | _ => ret (Json 400 (ErrorBody (Multer.message err)))
          end
        else
          ret (Json 400
                 (ErrorBody (if Js.truthy (Multer.message err)
                             then Multer.message err
                             else "Invalid file type. Only images are allowed.")))
    | inr file => post_avatar_handler uid file
    end).

(** [router.delete('/avatar')] *)
Definition delete_avatar (uid : ObjectId) : World -> Response * World :=
  route (
    user ← User.findById uid;
    match user with
    | None => ret (Json 404 (ErrorBody "User not found"))
    | Some user =>
        (if Js.truthy_opt (UserDoc.avatar user) then
           best_effort_delete "password-manager/avatars/"
             "Error deleting avatar from Cloudinary:" (UserDoc.avatar user);;
           User.save (UserDoc.mk (UserDoc._id user) None)
         else ret tt);;
        ret (Json 200 (MessageBody "Avatar deleted successfully"))
    end).

End WithEnv.
End UserRoutes.

(** ** A concrete environment, for evaluating the routes *)
Module Sample.

Definition is_hex (c : ascii) : bool :=
  let n := nat_of_ascii c in
  ((48 <=? n) && (n <=? 57) || (97 <=? n) && (n <=? 102))%nat.

(** 24 lower-case hexadecimal digits. *)
Definition cast_hex24 (s : string) : option ObjectId :=
  if (String.length s =? 24)%nat && Js.all_chars is_hex s then Some s else None.

(** A reader of [scheme://host/path?query#fragment] for the http and
    https schemes: the path runs from the first slash after the host to
    the query or fragment, and is [/] when missing. *)
Definition parse_pathname (u : string) : option string :=
  let after :=
    if String.prefix "https://" u then Some (Js.slice_from 8 u)
    else if String.prefix "http://" u then Some (Js.slice_from 7 u)
    else None in
  match after with
  | None => None
  | Some rest =>
      let host := Js.take_until (fun c => Ascii.eqb c "/" || Ascii.eqb c "?"
                                       || Ascii.eqb c "#")%char rest in
      if negb (Js.truthy host) then None
      else
        let tail := Js.slice_from (String.length host) rest in
        let p := Js.take_until (fun c => Ascii.eqb c "?" || Ascii.eqb c "#")%char
                            tail in
        Some (if Js.truthy p then p else "/")
  end.

Definition env : Env :=
  Build_Env "/srv/backend/utils" parse_pathname cast_hex24.

Definition alice : ObjectId := "aaaaaaaaaaaaaaaaaaaaaaaa".
Definition bob : ObjectId := "bbbbbbbbbbbbbbbbbbbbbbbb".
Definition id1 : ObjectId := "000000000000000000000001".
Definition id2 : ObjectId := "000000000000000000000002".
Definition id3 : ObjectId := "000000000000000000000003".

Definition bank : PasswordDoc.t :=
  PasswordDoc.mk id1 alice "Bank" (Some "alice") "hunter2" None "banking"
                 None 10 10.

Definition remote_doc : DocumentDoc.t :=
  DocumentDoc.mk id2 alice "scan.pdf" "scan.pdf"
    "https://res.cloudinary.com/demo/raw/upload/v1712/password-manager/documents/scan.pdf"
    "application/pdf" 2048 11.

Definition local_doc : DocumentDoc.t :=
  DocumentDoc.mk id3 alice "12-34.pdf" "taxes.pdf"
    "/uploads/documents/12-34.pdf" "application/pdf" 4096 12.

Definition alice_user : UserDoc.t :=
  UserDoc.mk alice (Some "/uploads/avatars/aaaaaaaaaaaaaaaaaaaaaaaa-5-6.png").

Definition bob_user : UserDoc.t := UserDoc.mk bob None.

Definition files : gmap string FsNode :=
  {[ "/srv/backend/uploads/avatars/aaaaaaaaaaaaaaaaaaaaaaaa-5-6.png" := File "png-bytes" true;
     "/srv/backend/uploads/documents/12-34.pdf" := File "pdf-bytes" true ]}.

Definition world : World :=
  mkWorld [bank] [remote_doc; local_doc] [alice_user; bob_user] files [].

End Sample.

(** * The rest of the back end *)

(** What either avatar route may do to the collections: nothing to the
    password entries and documents, and to the users at most one save of
    the requester's own record, with no locator or a non-empty one. *)
Definition avatar_effect (uid : ObjectId) (w w' : World) : Prop :=
  passwords w' = passwords w /\ documents w' = documents w
  /\ (users w' = users w
      \/ exists a,
           users w' = replace_first (fun v => String.eqb (UserDoc._id v) uid)
                                    (UserDoc.mk uid a) (users w)
           /\ a <> Some EmptyString).

(** ** Path segments *)

(** A string without a separator. *)
Definition no_slash (s : string) : bool :=
  Js.all_chars (fun c => negb (Ascii.eqb c Path.slash)) s.

(** A path segment that [path.normalize] keeps as it is. *)
Definition proper_segment (s : string) : bool :=
  Js.truthy s && no_slash s && negb (String.eqb s ".")
  && negb (String.eqb s "..").

(** The segments [path.normalize] leaves of an absolute path. *)
Definition segments (p : string) : list string :=
  Path.normalize_segments (Js.split p Path.slash) [].

(** ** [.sort({ createdAt: -1 })] *)

(** Insertion before the first element with a key not above the new one:
    newest first, entries of equal time in the order of the input. *)
Fixpoint insert_desc {A} (key : A -> N) (x : A) (l : list A) : list A :=
  match l with
  | [] => [x]
  | y :: l' =>
      if (key y <=? key x)%N then x :: l else y :: insert_desc key x l'
  end.

Definition sort_desc {A} (key : A -> N) (l : list A) : list A :=
  foldr (insert_desc key) [] l.

(** Newest first: every item is at least as recent as all that follow. *)
Definition newest_first_order {A} (key : A -> N) (a b : A) : Prop :=
  (key b <= key a)%N.

(** The answer of a route that sends a JSON array. *)
Inductive ListResponse (A : Type) :=
| JsonArray (status : nat) (items : list A)
| JsonFailure (status : nat) (error : Exn).
Arguments JsonArray {A} status items.
Arguments JsonFailure {A} status error.

(** [try { ... res.json(items) } catch (error) { res.status(500).json(...) }] *)
Definition list_route {A} (handler : M (list A))
  : World -> ListResponse A * World :=
  fun w => match handler w with
           | (Normal l, w') => (JsonArray 200 l, w')
           | (Thrown e, w') => (JsonFailure 500 e, w')
           end.

Module ListRoutes.

(** [Password.find({ userId: uid }).sort({ createdAt: -1 })] *)
Definition Password_find (uid : ObjectId) : M (list PasswordDoc.t) :=
  w ← get_world;
  ret (sort_desc PasswordDoc.createdAt
         (List.filter (fun p => String.eqb (PasswordDoc.userId p) uid)
                      (passwords w))).

(** [Document.find({ userId: uid }).sort({ createdAt: -1 })] *)
Definition Document_find (uid : ObjectId) : M (list DocumentDoc.t) :=
  w ← get_world;
  ret (sort_desc DocumentDoc.createdAt
         (List.filter (fun d => String.eqb (DocumentDoc.userId d) uid)
                      (documents w))).

(** [router.get('/')] of [routes/passwords.js] *)
Definition passwords_get (uid : ObjectId)
  : World -> ListResponse PasswordDoc.t * World :=
  list_route (Password_find uid).

(** [router.get('/')] of [routes/documents.js] *)
Definition documents_get (uid : ObjectId)
  : World -> ListResponse DocumentDoc.t * World :=
  list_route (Document_find uid).

End ListRoutes.

(** ** [router.post('/upload')] of [routes/documents.js] *)
Module UploadRoute.

(** [document.save()] of a new document.  The validators of the schema in
    [models/Document.js], which the sources do not hold, are the
    parameter [validate] (the failing paths of a document). *)
Definition Document_save (validate : DocumentDoc.t -> list string)
    (d : DocumentDoc.t) : M unit :=
  match validate d with
  | (_ :: _) as errs => throw (ValidationError (Js.join errs ", "))
  | [] =>
      w ← get_world;
      if existsb (fun q => String.eqb (DocumentDoc._id q) (DocumentDoc._id d))
                 (documents w)
      then throw (DuplicateKey (DocumentDoc._id d))
      else set_documents (documents w ++ [d])
  end.

(** The locator the route records for a stored file. *)
Definition locator_of (file : Multer.StoredFile) : string :=
  if Js.truthy (Multer.path file) && Js.startsWith (Multer.path file) "http"
  then Multer.path file
  else "/uploads/documents/" +:+ Multer.filename file.

(** [new Document({ userId, filename: req.file.filename ||
    req.file.originalname, originalName, filePath, fileType, fileSize })] *)
Definition new_Document (oid uid : ObjectId) (file : Multer.StoredFile)
    (now : N) : DocumentDoc.t :=
  DocumentDoc.mk oid uid
    (if Js.truthy (Multer.filename file) then Multer.filename file
     else Multer.file_originalname file)
    (Multer.file_originalname file) (locator_of file)
    (Multer.file_mimetype file) (Multer.file_size file) now.

(** The second handler of the route, run after multer leaves [req.file]. *)
Definition post_upload_handler (validate : DocumentDoc.t -> list string)
    (uid : ObjectId) (file : option Multer.StoredFile) (oid : ObjectId)
    (now : N) : M Response :=
  match file with
  | None =>
      ret (Json 400 (ErrorBody "No file uploaded. Please select a file."))
  | Some file =>
      let document := new_Document oid uid file now in
      Document_save validate document;;
      ret (Json 201 (DocumentBody document))
  end.

(** The route: the multer stage, then the handler; [oid], [now] and [rnd]
    are the ObjectId, the clock value and the random number the request
    draws. *)
Definition post_upload `{Env} (validate : DocumentDoc.t -> list string)
    (uid : ObjectId) (part : option Multer.Part) (oid : ObjectId)
    (now rnd : N) : World -> Response * World :=
  route (
    r ← Multer.single (Cloudinary.uploadDocument now rnd) "file" part;
    match r with
    | inl err =>
        if Multer.is_MulterError err then
          match err with
          | Multer.LIMIT_FILE_SIZE =>
              ret (Json 400
                     (ErrorBody "File size too large. Maximum size is 50MB"))
          | _ => ret (Json 400 (ErrorBody (Multer.message err)))
          end
        else ret (Json 400 (ErrorBody (Multer.message err)))
    | inr file => post_upload_handler validate uid file oid now
    end).

End UploadRoute.

(** ** [backend/middleware/auth.js] *)
Module Auth.

(** [a || b] on optional header values: the first truthy one, else [b]. *)
Definition or_else (a b : option string) : option string :=
  if Js.truthy_opt a then a else b.

(** [parts[1]] *)
Definition second (parts : list string) : option string := parts !! 1.

(** [const authHeader = req.headers['authorization'] ||
    req.headers['Authorization'];
    const token = authHeader && authHeader.split(' ')[1];] *)
Definition token_of (headers : gmap string string) : option string :=
  let authHeader :=
    or_else (headers !! "authorization") (headers !! "Authorization") in
  if Js.truthy_opt authHeader
  then second (Js.split (default EmptyString authHeader) " "%char)
  else authHeader.

(** [process.env.JWT_SECRET || 'your-secret-key'] *)
Definition JWT_SECRET (env_secret : option string) : string :=
  if Js.truthy_opt env_secret then default EmptyString env_secret
  else "your-secret-key".

(** [authenticateToken(req, res, next)].  [verify token secret] is
    [jwt.verify]: [None] when it reports an error, else the [userId] of
    the decoded payload, which becomes [req.user.userId]; [next] is the
    rest of the route.  Output on the console is not traced. *)
Definition authenticateToken {R} (env_secret : option string)
    (verify : string -> string -> option ObjectId)
    (headers : gmap string string)
    (unauthorized : nat -> string -> R)
    (next : ObjectId -> World -> R * World) : World -> R * World :=
  fun w =>
    let token := token_of headers in
    if negb (Js.truthy_opt token) then
      (unauthorized 401 "Access token required", w)
    else
      match verify (default EmptyString token) (JWT_SECRET env_secret) with
      | None => (unauthorized 403 "Invalid or expired token", w)
      | Some userId => next userId w
      end.

(** A route of [Response] behind the middleware. *)
Definition guarded (env_secret : option string)
    (verify : string -> string -> option ObjectId)
    (headers : gmap string string)
    (next : ObjectId -> World -> Response * World)
  : World -> Response * World :=
  authenticateToken env_secret verify headers
    (fun status msg => Json status (ErrorBody msg)) next.

End Auth.

(** ** [backend/server.js]: the CORS origin callback *)
Module Cors.

Definition allowedOrigins (FRONTEND_URL : option string) : list string :=
  ["http://localhost:5173"; "http://localhost:3000"; "http://127.0.0.1:5173";
   "https://saveme-kvh1.onrender.com"]
  ++ (if Js.truthy_opt FRONTEND_URL then [default EmptyString FRONTEND_URL]
      else []).

(** [origin: function (origin, callback)]: the second argument handed to
    [callback(null, _)]. *)
Definition origin_allowed (FRONTEND_URL : option string)
    (origin : option string) : bool :=
  if negb (Js.truthy_opt origin) then true
  else
    match Js.arr_indexOf (allowedOrigins FRONTEND_URL)
                         (default EmptyString origin) with
    | Some _ => true
    | None => true
    end.

End Cors.

(** ** More of the sample environment *)
Module Scenario.

(** A schema without validators. *)
Definition no_validators (d : DocumentDoc.t) : list string := [].

(** A verifier that knows one token per user under one secret. *)
Definition verify (token secret : string) : option ObjectId :=
  if String.eqb secret "s3cret" then
    if String.eqb token "alice-token" then Some Sample.alice
    else if String.eqb token "bob-token" then Some Sample.bob
    else None
  else None.

Definition savings : PasswordDoc.t :=
  PasswordDoc.mk Sample.id2 Sample.alice "Savings" None "pw2" None "banking"
                 None 20 20.

Definition mail : PasswordDoc.t :=
  PasswordDoc.mk Sample.id3 Sample.bob "Mail" None "pw3" None "email"
                 None 15 15.

(** Three entries of two owners. *)
Definition vault : World :=
  mkWorld [Sample.bank; mail; savings] [Sample.remote_doc; Sample.local_doc]
          [Sample.alice_user; Sample.bob_user] Sample.files [].

Definition report : Multer.Part :=
  Multer.mkPart "file" "report.pdf" "application/pdf" 4096 "pdf-data".

Definition id4 : ObjectId := "000000000000000000000004".

(** A user id without a record. *)
Definition carol : ObjectId := "cccccccccccccccccccccccc".

Definition portrait : Multer.Part :=
  Multer.mkPart "avatar" "me.png" "image/png" 2048 "png-data".

(** A disk with a file of one name in both upload directories. *)
Definition twins : World :=
  mkWorld [] [] []
    {[ "/srv/backend/uploads/avatars/x.png" := File "avatar-bytes" true;
       "/srv/backend/uploads/documents/x.png" := File "document-bytes" true ]}
    [].

(** A user whose locator is the empty string. *)
Definition faded : World :=
  mkWorld [] [] [UserDoc.mk carol (Some EmptyString)] ∅ [].

End Scenario.

(** * Properties *)

(** Unfolding of the computation layer. *)
Ltac run :=
  unfold route, mbind, M_bind, bind, ret, throw, try_catch, get_world,
    console_error, emit, set_disk, set_passwords, set_documents,
    set_users in *;
  simpl in *.

(** ** Lists with unique keys *)

Lemma unique_key_inj {A} (key : A -> ObjectId) (l : list A) (x y : A) :
  NoDup (key <$> l) -> x ∈ l -> y ∈ l -> key x = key y -> x = y.
Proof.
  induction l as [|z l IH]; intros Hnd Hx Hy Hk.
  - inversion Hx.
  - rewrite fmap_cons in Hnd. apply NoDup_cons in Hnd as [Hz Hnd].
    apply elem_of_cons in Hx as [->|Hx]; apply elem_of_cons in Hy as [->|Hy];
      try reflexivity; try (apply IH; assumption).
    + exfalso. apply Hz. rewrite Hk. apply list_elem_of_fmap. eauto.
    + exfalso. apply Hz. rewrite <- Hk. apply list_elem_of_fmap. eauto.
Qed.

Lemma find_elem_of {A} (f : A -> bool) (l : list A) (x : A) :
  List.find f l = Some x -> x ∈ l /\ f x = true.
Proof.
  intros Hf. apply find_some in Hf as [Hin Hfx].
  split; [by apply list_elem_of_In | done].
Qed.

Lemma find_replace_first {A} (f : A -> bool) (y : A) (l : list A) (x : A) :
  List.find f l = Some x -> f y = true ->
  List.find f (replace_first f y l) = Some y.
Proof.
  induction l as [|z l IH]; simpl; intros Hf Hy; [discriminate|].
  destruct (f z) eqn:Hz; simpl.
  - by rewrite Hy.
  - rewrite Hz. by apply IH.
Qed.

Lemma fmap_replace_first {A B} (g : A -> B) (f : A -> bool) (y x : A)
    (l : list A) :
  List.find f l = Some x -> g y = g x ->
  g <$> replace_first f y l = g <$> l.
Proof.
  induction l as [|z l IH]; simpl; intros Hf Hg; [done|].
  destruct (f z).
  - injection Hf as ->. rewrite !fmap_cons. by rewrite Hg.
  - rewrite !fmap_cons. by rewrite IH.
Qed.

Lemma eqb_string_true (a b : string) : String.eqb a b = true <-> a = b.
Proof. apply String.eqb_eq. Qed.

(** ** The owner filter of the queries *)

Lemma password_filter_sound (id uid : ObjectId) (p : PasswordDoc.t) :
  Password.by_id_and_owner id uid p = true <->
  PasswordDoc._id p = id /\ PasswordDoc.userId p = uid.
Proof.
  unfold Password.by_id_and_owner.
  rewrite andb_true_iff, !eqb_string_true. tauto.
Qed.

Lemma document_filter_sound (id uid : ObjectId) (d : DocumentDoc.t) :
  Document.by_id_and_owner id uid d = true <->
  DocumentDoc._id d = id /\ DocumentDoc.userId d = uid.
Proof.
  unfold Document.by_id_and_owner.
  rewrite andb_true_iff, !eqb_string_true. tauto.
Qed.

(** A record of another owner is invisible to the query. *)
Lemma password_query_foreign (l : list PasswordDoc.t) (r : PasswordDoc.t)
    (uid : ObjectId) :
  NoDup (PasswordDoc._id <$> l) -> r ∈ l -> PasswordDoc.userId r <> uid ->
  List.find (Password.by_id_and_owner (PasswordDoc._id r) uid) l = None.
Proof.
  intros Hnd Hr Hne.
  destruct (List.find _ l) as [x|] eqn:Hf; [|done].
  apply find_elem_of in Hf as [Hx Hm].
  apply password_filter_sound in Hm as [Hid Hu].
  assert (x = r) as -> by (eapply unique_key_inj; eauto).
  contradiction.
Qed.

Lemma document_query_foreign (l : list DocumentDoc.t) (r : DocumentDoc.t)
    (uid : ObjectId) :
  NoDup (DocumentDoc._id <$> l) -> r ∈ l -> DocumentDoc.userId r <> uid ->
  List.find (Document.by_id_and_owner (DocumentDoc._id r) uid) l = None.
Proof.
  intros Hnd Hr Hne.
  destruct (List.find _ l) as [x|] eqn:Hf; [|done].
  apply find_elem_of in Hf as [Hx Hm].
  apply document_filter_sound in Hm as [Hid Hu].
  assert (x = r) as -> by (eapply unique_key_inj; eauto).
  contradiction.
Qed.

(** The query sees the collection only through the requester's records. *)
Lemma password_query_structural (l : list PasswordDoc.t) (id uid : ObjectId) :
  List.find (Password.by_id_and_owner id uid) l =
  List.find (Password.by_id_and_owner id uid)
    (List.filter (fun p => String.eqb (PasswordDoc.userId p) uid) l).
Proof.
  induction l as [|p l IH]; simpl; [done|].
  unfold Password.by_id_and_owner at 1.
  destruct (String.eqb (PasswordDoc.userId p) uid) eqn:Hu; simpl.
  - unfold Password.by_id_and_owner at 2. rewrite Hu.
    destruct (String.eqb (PasswordDoc._id p) id); simpl; [done|apply IH].
  - rewrite andb_false_r. apply IH.
Qed.

Lemma document_query_structural (l : list DocumentDoc.t) (id uid : ObjectId) :
  List.find (Document.by_id_and_owner id uid) l =
  List.find (Document.by_id_and_owner id uid)
    (List.filter (fun d => String.eqb (DocumentDoc.userId d) uid) l).
Proof.
  induction l as [|p l IH]; simpl; [done|].
  unfold Document.by_id_and_owner at 1.
  destruct (String.eqb (DocumentDoc.userId p) uid) eqn:Hu; simpl.
  - unfold Document.by_id_and_owner at 2. rewrite Hu.
    destruct (String.eqb (DocumentDoc._id p) id); simpl; [done|apply IH].
  - rewrite andb_false_r. apply IH.
Qed.

Section Routes.
Context `{Env}.

(** ** The password routes, as equations *)

Lemma password_get_eq (uid : ObjectId) (id : string) (w : World) :
  PasswordRoutes.get uid id w =
  match castObjectId id with
  | None => (Json 500 (ExnBody (CastError id)), w)
  | Some oid =>
      match List.find (Password.by_id_and_owner oid uid) (passwords w) with
      | None => (password_not_found, w)
      | Some p => (Json 200 (PasswordBody p), w)
      end
  end.
Proof.
  unfold PasswordRoutes.get, Password.findOne, cast_id. run.
  destruct (castObjectId id); simpl; [|done].
  by destruct (List.find _ _).
Qed.

Lemma password_delete_eq (uid : ObjectId) (id : string) (w : World) :
  PasswordRoutes.delete uid id w =
  match castObjectId id with
  | None => (Json 500 (ExnBody (CastError id)), w)
  | Some oid =>
      match List.find (Password.by_id_and_owner oid uid) (passwords w) with
      | None => (password_not_found, w)
      | Some p =>
          (Json 200 (MessageBody "Password deleted successfully"),
           mkWorld (remove_first (Password.by_id_and_owner oid uid) (passwords w))
                   (documents w) (users w) (disk w)
                   (trace w ++ [PasswordDeleted (PasswordDoc._id p)]))
      end
  end.
Proof.
  unfold PasswordRoutes.delete, Password.findOneAndDelete, cast_id. run.
  destruct (castObjectId id); simpl; [|done].
  by destruct (List.find _ _).
Qed.

Lemma password_put_eq (uid : ObjectId) (id : string)
    (body : gmap string string) (now : N) (w : World) :
  PasswordRoutes.put uid id body now w =
  match castObjectId id with
  | None => (Json 500 (ExnBody (CastError id)), w)
  | Some oid =>
      let u := Password.cast_update (PasswordRoutes.update_of_body body) in
      match Password.validate_update u with
      | (_ :: _) as errs =>
          (Json 500 (ExnBody (ValidationError (Js.join errs ", "))), w)
      | [] =>
          match List.find (Password.by_id_and_owner oid uid) (passwords w) with
          | None => (password_not_found, w)
          | Some p =>
              let p' := Password.apply_update u now p in
              (Json 200 (PasswordBody p'),
               mkWorld (replace_first (Password.by_id_and_owner oid uid) p'
                                      (passwords w))
                       (documents w) (users w) (disk w)
                       (trace w ++ [PasswordUpdated (PasswordDoc._id p)]))
          end
      end
  end.
Proof.
  unfold PasswordRoutes.put, Password.findOneAndUpdate, cast_id. run.
  destruct (castObjectId id); simpl; [|done].
  destruct (Password.validate_update _); simpl; [|done].
  by destruct (List.find _ _).
Qed.

Lemma password_post_eq (uid : ObjectId) (body : gmap string string)
    (oid : ObjectId) (now : N) (w : World) :
  PasswordRoutes.post uid body oid now w =
  if negb (Js.truthy_opt (body !! "title"))
     || negb (Js.truthy_opt (body !! "password"))
  then (Json 400 (ErrorBody "Title and password are required"), w)
  else
    let p :=
      Password.new_Password oid uid (default EmptyString (body !! "title"))
        (body !! "username") (default EmptyString (body !! "password"))
        (body !! "website")
        (if Js.truthy_opt (body !! "category")
         then default EmptyString (body !! "category") else "other")
        (body !! "notes") now in
    match Password.validate p with
    | (_ :: _) as errs =>
        (Json 500 (ExnBody (ValidationError (Js.join errs ", "))), w)
    | [] =>
        if existsb (fun q => String.eqb (PasswordDoc._id q) oid) (passwords w)
        then (Json 500 (ExnBody (DuplicateKey oid)), w)
        else (Json 201 (PasswordBody p),
              mkWorld (passwords w ++ [p]) (documents w) (users w) (disk w)
                      (trace w ++ [PasswordInserted oid]))
    end.
Proof.
  unfold PasswordRoutes.post, Password.save. run.
  destruct (negb _ || negb _); [done|].
  destruct (Password.validate _); simpl; [|done].
  by destruct (existsb _ _).
Qed.

(** ** The document read routes, as equations *)

Lemma document_get_eq (uid : ObjectId) (id : string) (w : World) :
  DocumentRoutes.get uid id w =
  match castObjectId id with
  | None => (Json 500 (ExnBody (CastError id)), w)
  | Some oid =>
      match List.find (Document.by_id_and_owner oid uid) (documents w) with
      | None => (document_not_found, w)
      | Some d => (Json 200 (DocumentBody d), w)
      end
  end.
Proof.
  unfold DocumentRoutes.get, Document.findOne, cast_id. run.
  destruct (castObjectId id); simpl; [|done].
  by destruct (List.find _ _).
Qed.

Lemma document_download_eq (uid : ObjectId) (id : string) (w : World) :
  DocumentRoutes.download uid id w =
  match castObjectId id with
  | None => (Json 500 (ExnBody (CastError id)), w)
  | Some oid =>
      match List.find (Document.by_id_and_owner oid uid) (documents w) with
      | None => (document_not_found, w)
      | Some d =>
          if Js.truthy (DocumentDoc.filePath d)
             && Js.startsWith (DocumentDoc.filePath d) "http"
          then (Redirect (Js.replace (DocumentDoc.filePath d) "/upload/"
                                     "/upload/fl_attachment/"), w)
          else (Json 404 (ErrorBody "File not found"), w)
      end
  end.
Proof.
  unfold DocumentRoutes.download, Document.findOne, cast_id. run.
  destruct (castObjectId id); simpl; [|done].
  destruct (List.find _ _); [|done].
  by destruct (Js.truthy _ && _).
Qed.

Lemma document_delete_missing (uid : ObjectId) (id : string) (oid : ObjectId)
    (w : World) :
  castObjectId id = Some oid ->
  List.find (Document.by_id_and_owner oid uid) (documents w) = None ->
  DocumentRoutes.delete uid id w = (document_not_found, w).
Proof.
  intros Hc Hf.
  unfold DocumentRoutes.delete, Document.findOne, cast_id. run.
  by rewrite Hc, Hf.
Qed.

End Routes.

(** ** Ids stay unique *)

Lemma elem_of_remove_first {A} (f : A -> bool) (l : list A) (x : A) :
  x ∈ remove_first f l -> x ∈ l.
Proof.
  induction l as [|z l IH]; simpl; [done|].
  destruct (f z); intros Hx; [by apply elem_of_cons; right|].
  apply elem_of_cons in Hx as [->|Hx]; apply elem_of_cons; auto.
Qed.

Lemma NoDup_remove_first {A} (key : A -> ObjectId) (f : A -> bool)
    (l : list A) :
  NoDup (key <$> l) -> NoDup (key <$> remove_first f l).
Proof.
  induction l as [|z l IH]; intros Hnd; [done|].
  rewrite fmap_cons in Hnd. apply NoDup_cons in Hnd as [Hz Hnd]. simpl.
  destruct (f z); [done|]. rewrite fmap_cons. apply NoDup_cons.
  split; [|by apply IH].
  intros (x & Hk & Hx)%list_elem_of_fmap. apply Hz. rewrite Hk.
  apply list_elem_of_fmap. exists x. split; [done|].
  by eapply elem_of_remove_first.
Qed.

Lemma fresh_id_not_elem (oid : ObjectId) (l : list PasswordDoc.t) :
  existsb (fun q => String.eqb (PasswordDoc._id q) oid) l = false ->
  oid ∉ PasswordDoc._id <$> l.
Proof.
  induction l as [|z l IH]; simpl; [intros _; apply not_elem_of_nil|].
  intros [Hz Hl]%orb_false_iff. apply not_elem_of_cons.
  apply String.eqb_neq in Hz. split; [congruence|by apply IH].
Qed.

Section Invariant.
Context `{Env}.

(** Every password route keeps the ids of the collection pairwise
    distinct, as MongoDB's primary key does. *)
Lemma password_ids_stay_unique (w : World) (uid : ObjectId) (id : string)
    (body : gmap string string) (oid : ObjectId) (now : N) :
  NoDup (PasswordDoc._id <$> passwords w) ->
  NoDup (PasswordDoc._id
           <$> passwords (snd (PasswordRoutes.post uid body oid now w)))
  /\ NoDup (PasswordDoc._id
              <$> passwords (snd (PasswordRoutes.put uid id body now w)))
  /\ NoDup (PasswordDoc._id
              <$> passwords (snd (PasswordRoutes.delete uid id w))).
Proof.
  intros Hnd. split; [|split].
  - rewrite password_post_eq. destruct (negb _ || negb _); [done|]. simpl.
    destruct (Password.validate _); [|done].
    destruct (existsb _ _) eqn:Hfresh; [done|]. simpl.
    rewrite fmap_app. apply NoDup_app. split; [done|]. split.
    + intros x Hx Hin. apply list_elem_of_singleton in Hin as ->.
      by apply fresh_id_not_elem in Hfresh.
    + apply NoDup_singleton.
  - rewrite password_put_eq. destruct (castObjectId id); [|done]. simpl.
    destruct (Password.validate_update _); [|done].
    destruct (List.find _ _) as [p|] eqn:Hf; [|done]. simpl.
    by rewrite (fmap_replace_first PasswordDoc._id _ _ p).
  - rewrite password_delete_eq. destruct (castObjectId id); [|done].
    destruct (List.find _ _); [|done]. simpl. by apply NoDup_remove_first.
Qed.

End Invariant.

Section Claims.
Context `{Env}.

(** C1 (amended): ownership isolation.  For a record owned by someone other
    than the requester [b] and requested by its id: Get and Delete answer
    404 and leave every store untouched, for password entries and for
    documents (Download included); Update answers 404 when its payload
    passes the schema validators and 500 (validation error, raised before
    the lookup) when it does not, and changes nothing either way.  In no
    case does the answer carry the record.  The owner is part of the query
    itself: whatever a Get returns is owned by the requester, and the
    answer to a read is the same when every record of other owners is
    taken out of the collections. *)
Theorem ownership_isolation (w : World) (b : ObjectId) (id : string) :
  (forall r : PasswordDoc.t,
      NoDup (PasswordDoc._id <$> passwords w) -> r ∈ passwords w ->
      castObjectId id = Some (PasswordDoc._id r) ->
      PasswordDoc.userId r <> b ->
      PasswordRoutes.get b id w = (password_not_found, w)
      /\ PasswordRoutes.delete b id w = (password_not_found, w)
      /\ forall body now,
           PasswordRoutes.put b id body now w =
           (match Password.validate_update
                    (Password.cast_update (PasswordRoutes.update_of_body body))
            with
            | [] => password_not_found
            | errs => Json 500 (ExnBody (ValidationError (Js.join errs ", ")))
            end, w))
  /\ (forall d : DocumentDoc.t,
         NoDup (DocumentDoc._id <$> documents w) -> d ∈ documents w ->
         castObjectId id = Some (DocumentDoc._id d) ->
         DocumentDoc.userId d <> b ->
         DocumentRoutes.get b id w = (document_not_found, w)
         /\ DocumentRoutes.download b id w = (document_not_found, w)
         /\ DocumentRoutes.delete b id w = (document_not_found, w))
  /\ (forall uid p,
         fst (PasswordRoutes.get uid id w) = Json 200 (PasswordBody p) ->
         PasswordDoc.userId p = uid)
  /\ (forall uid d,
         fst (DocumentRoutes.get uid id w) = Json 200 (DocumentBody d) ->
         DocumentDoc.userId d = uid)
  /\ (forall uid,
         fst (PasswordRoutes.get uid id w)
         = fst (PasswordRoutes.get uid id (owned_by uid w))
         /\ fst (DocumentRoutes.get uid id w)
            = fst (DocumentRoutes.get uid id (owned_by uid w))
         /\ fst (DocumentRoutes.download uid id w)
            = fst (DocumentRoutes.download uid id (owned_by uid w))).
Proof.
  split; [|split; [|split; [|split]]].
  - intros r Hnd Hr Hc Hne.
    assert (List.find (Password.by_id_and_owner (PasswordDoc._id r) b)
                      (passwords w) = None) as Hf
      by (by apply password_query_foreign).
    split; [|split].
    + by rewrite password_get_eq, Hc, Hf.
    + by rewrite password_delete_eq, Hc, Hf.
    + intros body now. rewrite password_put_eq, Hc. simpl.
      destruct (Password.validate_update _); [|done]. by rewrite Hf.
  - intros d Hnd Hd Hc Hne.
    assert (List.find (Document.by_id_and_owner (DocumentDoc._id d) b)
                      (documents w) = None) as Hf
      by (by apply document_query_foreign).
    split; [|split].
    + by rewrite document_get_eq, Hc, Hf.
    + by rewrite document_download_eq, Hc, Hf.
    + by eapply document_delete_missing.
  - intros uid p. rewrite password_get_eq.
    destruct (castObjectId id) as [oid|]; [|discriminate].
    destruct (List.find _ _) as [q|] eqn:Hf; [|discriminate].
    simpl. intros [= ->]. apply find_elem_of in Hf as [_ Hm].
    by apply password_filter_sound in Hm as [_ ?].
  - intros uid d. rewrite document_get_eq.
    destruct (castObjectId id) as [oid|]; [|discriminate].
    destruct (List.find _ _) as [q|] eqn:Hf; [|discriminate].
    simpl. intros [= ->]. apply find_elem_of in Hf as [_ Hm].
    by apply document_filter_sound in Hm as [_ ?].
  - intros uid. split; [|split].
    + rewrite !password_get_eq. destruct (castObjectId id) as [oid|]; [|done].
      rewrite password_query_structural. simpl.
      by destruct (List.find _ _).
    + rewrite !document_get_eq. destruct (castObjectId id) as [oid|]; [|done].
      rewrite document_query_structural. simpl.
      by destruct (List.find _ _).
    + rewrite !document_download_eq.
      destruct (castObjectId id) as [oid|]; [|done].
      rewrite document_query_structural. simpl.
      destruct (List.find _ _); [|done]. by destruct (_ && _).
Qed.

(** C2: the owner of a password entry is immutable.  Whatever the update
    payload holds (a [userId] key included), whoever sends it and whichever
    id it names, the collection lists the same entries with the same owners
    after the Update as before, in the same order. *)
Theorem owner_immutable (w : World) (uid : ObjectId) (id : string)
    (body : gmap string string) (now : N) :
  owner_of <$> passwords (snd (PasswordRoutes.put uid id body now w))
  = owner_of <$> passwords w.
Proof.
  rewrite password_put_eq.
  destruct (castObjectId id) as [oid|]; [|done]. simpl.
  destruct (Password.validate_update _); [|done].
  destruct (List.find _ _) as [p|] eqn:Hf; [|done]. simpl.
  eapply fmap_replace_first; [exact Hf|done].
Qed.




End Claims.

(** ** Splitting and joining paths *)

Lemma split_nonempty (s : string) (sep : ascii) : Js.split s sep <> [].
Proof.
  destruct s as [|c s]; simpl; [done|].
  destruct (Ascii.eqb c sep); [done|]. by destruct (Js.split s sep).
Qed.

Lemma join_cons (x : string) (l : list string) :
  l <> [] -> Js.join (x :: l) "/" = x +:+ String Path.slash (Js.join l "/").
Proof. by destruct l. Qed.


Lemma split_app_sep (a b : string) :
  Js.split (a +:+ String Path.slash b) Path.slash
  = (Js.split a Path.slash ++ Js.split b Path.slash)%list.
Proof.
  induction a as [|c a IH]; simpl; [done|].
  destruct (Ascii.eqb c Path.slash).
  - by rewrite IH.
  - rewrite IH. destruct (Js.split a Path.slash) as [|x xs] eqn:Ha; [|done].
    by apply split_nonempty in Ha.
Qed.










(** ** Cutting at the last dot and stripping the file extension *)

















(** ** Best-effort blob removal *)

Lemma logged_nil (w : World) : logged w [] = w.
Proof. destruct w. unfold logged. simpl. by rewrite app_nil_r. Qed.

Lemma find_elem_some {A} (f : A -> bool) (l : list A) (x : A) :
  x ∈ l -> f x = true -> exists y, List.find f l = Some y.
Proof.
  intros Hx Hf. destruct (List.find f l) as [y|] eqn:Hfind; [eauto|].
  apply list_elem_of_In in Hx.
  pose proof (find_none f l Hfind x Hx). congruence.
Qed.

Section Blobs.
Context `{Env}.

Lemma extractPublicId_eq (url : option string) (w : World) :
  Cloudinary.extractPublicId url w =
  match url with
  | None => (Normal None, w)
  | Some u =>
      if negb (Js.truthy u) then (Normal None, w)
      else if negb (Js.startsWith u "http") then
        (Normal (Some (Path.basename u (Path.extname u))), w)
      else match url_pathname u with
           | Some p => (Normal (Cloudinary.publicId_of_pathname p), w)
           | None =>
               (Normal None, logged w [ConsoleError "Error extracting public_id:"])
           end
  end.
Proof.
  unfold Cloudinary.extractPublicId, Cloudinary.URL_pathname.
  destruct url as [u|]; [|done].
  destruct (negb (Js.truthy u)); [done|].
  destruct (negb (Js.startsWith u "http")); [done|]. run.
  by destruct (url_pathname u).
Qed.


(** [extractPublicId] returns normally and at most writes to the console. *)
Lemma extractPublicId_total (url : option string) (w : World) :
  exists r evs,
    Cloudinary.extractPublicId url w = (Normal r, logged w evs)
    /\ (evs = []
        \/ evs = [ConsoleError "Error extracting public_id:"] /\ r = None).
Proof.
  rewrite extractPublicId_eq.
  destruct url as [u|]; [|exists None, []; rewrite logged_nil; eauto].
  destruct (negb (Js.truthy u)); [exists None, []; rewrite logged_nil; eauto|].
  destruct (negb (Js.startsWith u "http")).
  { eexists _, []. rewrite logged_nil. eauto. }
  destruct (url_pathname u).
  - eexists _, []. rewrite logged_nil. eauto.
  - eexists _, _. eauto.
Qed.

(** [deleteFromCloudinary] returns [{ result: 'ok' }] in every state of
    the disk, touches no collection, and logs its call first. *)
Lemma deleteFromCloudinary_ok (publicId : string) (w : World) :
  exists w' evs,
    Cloudinary.deleteFromCloudinary publicId w = (Normal Cloudinary.ok, w')
    /\ same_records w w'
    /\ trace w' = (trace w ++ BlobDeleteCalled publicId :: evs)%list
    /\ forallb cleanup_event evs = true
    /\ forallb (fun e => negb (is_user_save e)) evs = true.
Proof.
  unfold Cloudinary.deleteFromCloudinary, Fs.existsSync, Fs.unlinkSync. run.
  repeat case_match; simplify_eq; simpl;
    eexists _, _; (split; [reflexivity|]); (split; [done|]); simpl;
    rewrite <- ?app_assoc; simpl;
    (split; [reflexivity|]); done.
Qed.


End Blobs.

Section BestEffort.
Context `{Env}.

(** The shared block never throws, touches no collection, and calls
    [deleteFromCloudinary] exactly when an identifier was extracted. *)
Lemma best_effort_delete_ok (folder what : string) (locator : option string)
    (w : World) :
  exists w' evs,
    best_effort_delete folder what locator w = (Normal tt, w')
    /\ same_records w w'
    /\ trace w' = (trace w ++ evs)%list
    /\ forallb cleanup_event evs = true
    /\ (forall pid,
           fst (Cloudinary.extractPublicId locator w) = Normal (Some pid) ->
           Js.truthy pid = true ->
           exists evs', evs = BlobDeleteCalled (folder +:+ pid) :: evs')
    /\ (forall r,
           fst (Cloudinary.extractPublicId locator w) = Normal r ->
           Js.truthy_opt r = false ->
           disk w' = disk w
           /\ forallb (fun e => negb (is_delete_call e)) evs = true).
Proof.
  unfold best_effort_delete. run.
  destruct (extractPublicId_total locator w) as (r & evs0 & Heq & Hev).
  rewrite Heq. simpl. destruct (Js.truthy_opt r) eqn:Ht.
  - destruct r as [pid|]; [|done]. destruct Hev as [-> | [_ ?]]; [|done].
    rewrite logged_nil.
    destruct (deleteFromCloudinary_ok (folder +:+ pid) w)
      as (w' & evs & Hd & Hs & Htr & Hc & _).
    simpl. rewrite Hd. exists w', (BlobDeleteCalled (folder +:+ pid) :: evs).
    split; [done|]. split; [exact Hs|]. split; [done|]. split; [done|]. split.
    + intros pid' [= ->] _. eauto.
    + intros r' [= <-] Hr'. simpl in *. congruence.
  - exists (logged w evs0), evs0.
    split; [done|]. split; [done|]. split; [done|].
    split; [by destruct Hev as [-> | [-> _]]|]. split.
    + intros pid [= ->]. simpl in Ht. congruence.
    + intros _ _ _. split; [done|]. by destruct Hev as [-> | [-> _]].
Qed.


Lemma findByIdAndDelete_eq (d : DocumentDoc.t) (w : World) :
  d ∈ documents w ->
  Document.findByIdAndDelete (DocumentDoc._id d) w
  = (Normal tt,
     mkWorld (passwords w)
       (remove_first
          (fun x => String.eqb (DocumentDoc._id x) (DocumentDoc._id d))
          (documents w))
       (users w) (disk w) (trace w ++ [DocumentDeleted (DocumentDoc._id d)])).
Proof.
  intros Hd. unfold Document.findByIdAndDelete. run.
  destruct (find_elem_some
              (fun x => String.eqb (DocumentDoc._id x) (DocumentDoc._id d))
              (documents w) d Hd (String.eqb_refl _)) as [y ->].
  done.
Qed.

(** The Delete route on a document the requester owns. *)
Lemma document_delete_found (uid : ObjectId) (id : string) (oid : ObjectId)
    (d : DocumentDoc.t) (w : World) :
  castObjectId id = Some oid ->
  List.find (Document.by_id_and_owner oid uid) (documents w) = Some d ->
  exists w' evs,
    DocumentRoutes.delete uid id w
    = (Json 200 (MessageBody "Document deleted successfully"), w')
    /\ documents w'
       = remove_first
           (fun x => String.eqb (DocumentDoc._id x) (DocumentDoc._id d))
           (documents w)
    /\ passwords w' = passwords w /\ users w' = users w
    /\ trace w' = (trace w ++ evs ++ [DocumentDeleted (DocumentDoc._id d)])%list
    /\ forallb cleanup_event evs = true
    /\ (forall r,
           fst (Cloudinary.extractPublicId (Some (DocumentDoc.filePath d)) w)
           = Normal r ->
           Js.truthy_opt r = false ->
           disk w' = disk w
           /\ forallb (fun e => negb (is_delete_call e)) evs = true).
Proof.
  intros Hc Hf. pose proof (find_elem_of _ _ _ Hf) as [Hd _].
  unfold DocumentRoutes.delete, Document.findOne, cast_id, route.
  unfold mbind, M_bind, bind, get_world, ret. rewrite Hc. simpl. rewrite Hf.
  destruct (Js.truthy _ && Js.startsWith _ _) eqn:Hhttp.
  - destruct (best_effort_delete_ok "password-manager/documents/"
                "Error deleting document from Cloudinary:"
                (Some (DocumentDoc.filePath d)) w)
      as (w1 & evs & Hb & (Hp & Hdocs & Hu) & Htr & Hcl & _ & Hnone).
    rewrite Hb. rewrite findByIdAndDelete_eq by (by rewrite Hdocs).
    eexists _, evs. simpl. rewrite Hp, Hdocs, Hu, Htr, <- app_assoc.
    split; [done|]. split; [done|]. split; [done|]. split; [done|].
    split; [done|]. split; [done|].
    intros r Hr Hfalsy. by apply (Hnone r).
  - rewrite findByIdAndDelete_eq by done.
    eexists _, []. simpl.
    split; [done|]. split; [done|]. split; [done|]. split; [done|].
    split; [done|]. split; [done|]. done.
Qed.

End BestEffort.

Lemma remove_first_unique {A} (key : A -> ObjectId) (l : list A) (x : A) :
  NoDup (key <$> l) -> x ∈ l ->
  x ∉ remove_first (fun y => String.eqb (key y) (key x)) l.
Proof.
  induction l as [|z l IH]; intros Hnd Hx; [by inversion Hx|].
  rewrite fmap_cons in Hnd. apply NoDup_cons in Hnd as [Hz Hnd]. simpl.
  destruct (String.eqb (key z) (key x)) eqn:Hk.
  - apply String.eqb_eq in Hk. intros Hin. apply Hz. rewrite Hk.
    apply list_elem_of_fmap. eauto.
  - apply String.eqb_neq in Hk.
    apply elem_of_cons in Hx as [->|Hx]; [done|].
    apply not_elem_of_cons. split; [congruence|by apply IH].
Qed.

(** [replace] puts [r] where the first occurrence of [p] was. *)
Lemma replace_first_occurrence (s p r : string) :
  match Js.indexOf s p with
  | Some i =>
      Js.replace s p r
      = Js.substring0 i s +:+ r +:+ Js.slice_from (i + String.length p) s
  | None => Js.replace s p r = s
  end.
Proof.
  unfold Js.substring0. induction s as [|c s IH].
  - by destruct p.
  - cbn [Js.indexOf Js.replace].
    destruct (String.prefix p (String c s)) eqn:Hp.
    + simpl. done.
    + destruct (Js.indexOf s p) as [i|]; simpl.
      * by rewrite IH.
      * by rewrite IH.
Qed.

Section StorageClaims.
Context `{Env}.

(** C5: blob deletion during document deletion is best-effort.  For every
    document the requester owns, whatever its locator and whatever the
    disk holds (the blob missing, protected or a directory), the Delete
    route answers 200 "Document deleted successfully", removes the
    metadata record and leaves the other collections alone; between the
    request and the metadata removal only clean-up events occur.  And
    [deleteFromCloudinary] itself returns [{ result: 'ok' }] for every
    identifier in every state: it never throws. *)
Theorem document_delete_best_effort (w : World) (uid : ObjectId) (id : string)
    (oid : ObjectId) (d : DocumentDoc.t) :
  castObjectId id = Some oid ->
  List.find (Document.by_id_and_owner oid uid) (documents w) = Some d ->
  (exists w' evs,
      DocumentRoutes.delete uid id w
      = (Json 200 (MessageBody "Document deleted successfully"), w')
      /\ documents w'
         = remove_first
             (fun x => String.eqb (DocumentDoc._id x) (DocumentDoc._id d))
             (documents w)
      /\ (NoDup (DocumentDoc._id <$> documents w) -> d ∉ documents w')
      /\ passwords w' = passwords w /\ users w' = users w
      /\ trace w' = (trace w ++ evs ++ [DocumentDeleted (DocumentDoc._id d)])%list
      /\ forallb cleanup_event evs = true)
  /\ (forall publicId w0,
         exists w1 evs,
           Cloudinary.deleteFromCloudinary publicId w0
           = (Normal Cloudinary.ok, w1)
           /\ same_records w0 w1
           /\ trace w1 = (trace w0 ++ BlobDeleteCalled publicId :: evs)%list
           /\ forallb cleanup_event evs = true).
Proof.
  intros Hc Hf. split.
  - destruct (document_delete_found uid id oid d w Hc Hf)
      as (w' & evs & Hr & Hdocs & Hp & Hu & Htr & Hcl & _).
    exists w', evs. split; [done|]. split; [done|]. split.
    + intros Hnd. rewrite Hdocs. apply remove_first_unique; [done|].
      by apply find_elem_of in Hf as [? _].
    + done.
  - intros publicId w0.
    destruct (deleteFromCloudinary_ok publicId w0)
      as (w1 & evs & Hd & Hs & Htr & Hcl & _).
    by exists w1, evs.
Qed.


(** C8 (amended): download resolution.  For a castable id: without a
    record under the requester the answer is 404 "Document not found"; for
    a record whose locator starts with "http" it is a redirect to the
    locator with its first "/upload/" replaced by "/upload/fl_attachment/"
    (to the locator itself when it holds none); for every other locator it
    is 404 "File not found", a different message, whatever the disk holds:
    the route serves no bytes from local storage.  Nothing is changed. *)
Theorem download_resolution (w : World) (uid : ObjectId) (id : string)
    (oid : ObjectId) :
  castObjectId id = Some oid ->
  (List.find (Document.by_id_and_owner oid uid) (documents w) = None ->
   DocumentRoutes.download uid id w = (document_not_found, w))
  /\ (forall d,
         List.find (Document.by_id_and_owner oid uid) (documents w) = Some d ->
         let locator := DocumentDoc.filePath d in
         (Js.startsWith locator "http" = true ->
          exists target,
            DocumentRoutes.download uid id w = (Redirect target, w)
            /\ match Js.indexOf locator "/upload/" with
               | Some i =>
                   target = Js.substring0 i locator +:+ "/upload/fl_attachment/"
                              +:+ Js.slice_from (i + 8) locator
               | None => target = locator
               end)
         /\ (Js.startsWith locator "http" = false ->
             DocumentRoutes.download uid id w
             = (Json 404 (ErrorBody "File not found"), w)))
  /\ Json 404 (ErrorBody "File not found") <> document_not_found.
Proof.
  intros Hc. split; [|split].
  - intros Hf. by rewrite document_download_eq, Hc, Hf.
  - intros d Hf locator. split.
    + intros Hhttp.
      assert (Js.truthy locator = true) as Ht by (by destruct locator).
      eexists. rewrite document_download_eq, Hc, Hf. fold locator.
      rewrite Ht, Hhttp. simpl. split; [done|].
      apply (replace_first_occurrence locator "/upload/"
               "/upload/fl_attachment/").
    + intros Hl. rewrite document_download_eq, Hc, Hf. fold locator.
      by rewrite Hl, andb_false_r.
  - discriminate.
Qed.

End StorageClaims.

(** ** Sequencing *)

Lemma bind_normal {A B} (m : M A) (k : A -> M B) (w w' : World) (a : A) :
  m w = (Normal a, w') -> (m ≫= k) w = k a w'.
Proof. intros Hm. unfold mbind, M_bind, bind. by rewrite Hm. Qed.

Lemma findById_eq (uid : ObjectId) (w : World) :
  User.findById uid w
  = (Normal (List.find (fun u => String.eqb (UserDoc._id u) uid) (users w)), w).
Proof. done. Qed.

Lemma user_save_eq (u : UserDoc.t) (w : World) :
  User.save u w
  = (Normal tt,
     mkWorld (passwords w) (documents w)
       (replace_first (fun v => String.eqb (UserDoc._id v) (UserDoc._id u)) u
                      (users w))
       (disk w) (trace w ++ [UserSaved (UserDoc._id u) (UserDoc.avatar u)])).
Proof. done. Qed.

(** ** The avatar routes *)


Section AvatarClaims.
Context `{Env}.

(** A part the image filter accepts has a file name. *)
Lemma fileFilter_accepts_named (part : Multer.Part) :
  Cloudinary.fileFilter part = None ->
  Js.truthy (Multer.originalname part) = true.
Proof.
  unfold Cloudinary.fileFilter. destruct (Multer.originalname part); [|done].
  simpl. by rewrite andb_false_r.
Qed.

(** The multer stage on a part the filter accepts, below the size limit. *)
Lemma uploadAvatar_accepts (uid : ObjectId) (part : Multer.Part)
    (now rnd : N) (w : World) :
  Multer.fieldname part = "avatar" ->
  Cloudinary.fileFilter part = None ->
  (Multer.size part < 5 * 1024 * 1024)%N ->
  let name := Cloudinary.localAvatarStorage_filename uid now rnd part in
  let target := Path.join [Cloudinary.avatarsDir; name] in
  Multer.single (Cloudinary.uploadAvatar uid now rnd) "avatar" (Some part) w
  = (Normal (inr (Some (Multer.mkStored (Multer.originalname part)
                          (Multer.mimetype part) name target
                          (Multer.size part)))),
     mkWorld (passwords w) (documents w) (users w)
             (<[target := File (Multer.data part) true]> (disk w))
             (trace w ++ [BlobWritten target])).
Proof.
  intros Hfield Hfilter Hsize name target.
  unfold Multer.single. rewrite (fileFilter_accepts_named part Hfilter).
  rewrite Hfield. simpl. rewrite Hfilter.
  destruct (N.leb_spec (5 * 1024 * 1024) (Multer.size part)) as [Hle|_];
    [lia|].
  by run.
Qed.

(** The multer stage on a part the filter accepts that reaches the size
    limit: the blob is written and removed again. *)
Lemma uploadAvatar_too_large (uid : ObjectId) (part : Multer.Part)
    (now rnd : N) (w : World) :
  Multer.fieldname part = "avatar" ->
  Cloudinary.fileFilter part = None ->
  (5 * 1024 * 1024 <= Multer.size part)%N ->
  let name := Cloudinary.localAvatarStorage_filename uid now rnd part in
  let target := Path.join [Cloudinary.avatarsDir; name] in
  Multer.single (Cloudinary.uploadAvatar uid now rnd) "avatar" (Some part) w
  = (Normal (inl Multer.LIMIT_FILE_SIZE),
     mkWorld (passwords w) (documents w) (users w)
             (delete target
                (<[target := File (Multer.data part) true]> (disk w)))
             (trace w ++ [BlobWritten target; Unlinked target])).
Proof.
  intros Hfield Hfilter Hsize name target.
  unfold Multer.single. rewrite (fileFilter_accepts_named part Hfilter).
  rewrite Hfield. simpl. rewrite Hfilter.
  destruct (N.leb_spec (5 * 1024 * 1024) (Multer.size part)) as [_|Hlt];
    [|lia].
  run. by rewrite <- app_assoc.
Qed.

(** The multer stage on a named part the filter turns down: nothing is
    written. *)
Lemma uploadAvatar_rejects (uid : ObjectId) (part : Multer.Part)
    (now rnd : N) (w : World) (msg : string) :
  Js.truthy (Multer.originalname part) = true ->
  Cloudinary.fileFilter part = Some msg ->
  UserRoutes.post_avatar uid (Some part) now rnd w
  = (Json 400 (ErrorBody (if String.eqb (Multer.fieldname part) "avatar"
                          then "Only image files are allowed"
                          else "Unexpected field")), w).
Proof.
  intros Hname Hfilter. unfold UserRoutes.post_avatar, Multer.single.
  rewrite Hname. run.
  destruct (String.eqb (Multer.fieldname part) "avatar"); simpl; [|done].
  rewrite Hfilter. unfold Cloudinary.fileFilter in Hfilter.
  destruct (_ && _); [done|]. by injection Hfilter as <-.
Qed.

(** A part without file name is no file at all for the route. *)
Lemma post_avatar_unnamed (uid : ObjectId) (part : Multer.Part)
    (now rnd : N) (w : World) :
  Js.truthy (Multer.originalname part) = false ->
  UserRoutes.post_avatar uid (Some part) now rnd w
  = (Json 400 (ErrorBody "No file uploaded. Please select an image file."), w).
Proof.
  intros Hname. unfold UserRoutes.post_avatar, Multer.single.
  rewrite Hname. by run.
Qed.

(** An image the filter accepts that reaches the limit: written, removed,
    refused. *)
Lemma post_avatar_too_large (uid : ObjectId) (part : Multer.Part)
    (now rnd : N) (w : World) :
  Multer.fieldname part = "avatar" ->
  Cloudinary.fileFilter part = None ->
  (5 * 1024 * 1024 <= Multer.size part)%N ->
  UserRoutes.post_avatar uid (Some part) now rnd w
  = (Json 400 (ErrorBody "File size too large. Maximum size is 5MB"),
     mkWorld (passwords w) (documents w) (users w)
       (delete (Path.join [Cloudinary.avatarsDir;
                           Cloudinary.localAvatarStorage_filename uid now rnd
                                                                  part])
               (disk w))
       (trace w
        ++ [BlobWritten
              (Path.join [Cloudinary.avatarsDir;
                          Cloudinary.localAvatarStorage_filename uid now rnd
                                                                 part]);
            Unlinked
              (Path.join [Cloudinary.avatarsDir;
                          Cloudinary.localAvatarStorage_filename uid now rnd
                                                                 part])])).
Proof.
  intros Hfield Hfilter Hsize. unfold UserRoutes.post_avatar, route.
  erewrite bind_normal by (by apply uploadAvatar_too_large).
  simpl. unfold ret. by rewrite delete_insert_eq.
Qed.


(** C10 (amended): deleting the avatar is idempotent.  For every existing
    user the route answers 200 "Avatar deleted successfully"; when no
    locator is set (null, or the empty string) the state is left exactly
    as it was; afterwards the user has no locator set, and the locator is
    null whenever it was null or a non-empty string before; a second
    delete answers the same and changes nothing. *)
Theorem avatar_delete_idempotent (w : World) (uid : ObjectId)
    (user : UserDoc.t) :
  List.find (fun u => String.eqb (UserDoc._id u) uid) (users w) = Some user ->
  let success := Json 200 (MessageBody "Avatar deleted successfully") in
  exists w' user',
    UserRoutes.delete_avatar uid w = (success, w')
    /\ (Js.truthy_opt (UserDoc.avatar user) = false -> w' = w)
    /\ List.find (fun u => String.eqb (UserDoc._id u) uid) (users w')
       = Some user'
    /\ Js.truthy_opt (UserDoc.avatar user') = false
    /\ (UserDoc.avatar user <> Some EmptyString -> UserDoc.avatar user' = None)
    /\ UserRoutes.delete_avatar uid w' = (success, w').
Proof.
  intros Hfind success.
  pose proof (find_elem_of _ _ _ Hfind) as [_ Hid%String.eqb_eq].
  assert (forall w0 u0,
             List.find (fun u => String.eqb (UserDoc._id u) uid) (users w0)
             = Some u0 ->
             Js.truthy_opt (UserDoc.avatar u0) = false ->
             UserRoutes.delete_avatar uid w0 = (success, w0)) as Hnoop.
  { intros w0 u0 Hf0 Hfalsy.
    unfold UserRoutes.delete_avatar, User.findById. run.
    by rewrite Hf0, Hfalsy. }
  destruct (Js.truthy_opt (UserDoc.avatar user)) eqn:Hset.
  - unfold UserRoutes.delete_avatar, route.
    erewrite bind_normal by apply findById_eq. rewrite Hfind, Hset.
    destruct (best_effort_delete_ok "password-manager/avatars/"
                "Error deleting avatar from Cloudinary:" (UserDoc.avatar user) w)
      as (w1 & evs & Hb & (Hp & Hd & Hu) & Htr & Hcl & _).
    erewrite bind_normal;
      [|erewrite bind_normal by exact Hb; apply user_save_eq].
    cbn [UserDoc._id UserDoc.avatar]. unfold ret. rewrite Hu, Hid.
    assert (List.find (fun u => String.eqb (UserDoc._id u) uid)
              (replace_first (fun v => String.eqb (UserDoc._id v) uid)
                 (UserDoc.mk uid None) (users w))
            = Some (UserDoc.mk uid None)) as Hfind'.
    { eapply find_replace_first; [exact Hfind|]. simpl. apply String.eqb_refl. }
    eexists _, (UserDoc.mk uid None). split; [reflexivity|].
    split; [done|]. split; [exact Hfind'|]. split; [done|]. split; [done|].
    by apply (Hnoop _ (UserDoc.mk uid None)).
  - exists w, user. split; [by eapply Hnoop|]. split; [done|].
    split; [done|]. split; [done|]. split; [|by eapply Hnoop].
    intros Hne. destruct (UserDoc.avatar user) as [[|c s]|]; done.
Qed.

End AvatarClaims.

(** * The claims on the sample environment *)

Lemma sample_password_ids : NoDup (PasswordDoc._id <$> passwords Sample.world).
Proof. apply NoDup_singleton. Qed.

Lemma sample_document_ids : NoDup (DocumentDoc._id <$> documents Sample.world).
Proof.
  apply NoDup_cons. split; [|apply NoDup_singleton].
  intros Hin. apply elem_of_cons in Hin as [Hin|Hin]; [discriminate|].
  by apply elem_of_nil in Hin.
Qed.

(** Bob asks for Alice's entry and for Alice's document. *)
Lemma ownership_isolation_witness :
  @PasswordRoutes.get Sample.env Sample.bob Sample.id1 Sample.world
  = (password_not_found, Sample.world)
  /\ @DocumentRoutes.delete Sample.env Sample.bob Sample.id2 Sample.world
     = (document_not_found, Sample.world).
Proof.
  split.
  - destruct (@ownership_isolation Sample.env Sample.world Sample.bob Sample.id1)
      as [Hp _].
    apply (Hp Sample.bank);
      [apply sample_password_ids | apply list_elem_of_here | reflexivity
      | discriminate].
  - destruct (@ownership_isolation Sample.env Sample.world Sample.bob Sample.id2)
      as (_ & Hd & _).
    apply (Hd Sample.remote_doc);
      [apply sample_document_ids | apply list_elem_of_here | reflexivity
      | discriminate].
Defined.

(** C1, as stated, fails: Bob's Update of Alice's entry with a category
    outside the enumeration is answered 500, not 404 (and changes
    nothing). *)
Lemma ownership_isolation_counterexample :
  Sample.bank ∈ passwords Sample.world
  /\ PasswordDoc.userId Sample.bank = Sample.alice
  /\ Sample.alice <> Sample.bob
  /\ @PasswordRoutes.put Sample.env Sample.bob Sample.id1
       {[ "category" := "bogus" ]} 20 Sample.world
     = (Json 500 (ExnBody (ValidationError "category")), Sample.world)
  /\ Json 500 (ExnBody (ValidationError "category")) <> password_not_found.
Proof.
  split; [apply list_elem_of_here|]. split; [reflexivity|].
  split; [discriminate|]. split; [vm_compute; reflexivity|discriminate].
Qed.





(** Alice deletes her remote document; no such blob is on the disk. *)
Lemma document_delete_best_effort_witness :
  fst (@DocumentRoutes.delete Sample.env Sample.alice Sample.id2 Sample.world)
  = Json 200 (MessageBody "Document deleted successfully").
Proof.
  destruct (@document_delete_best_effort Sample.env Sample.world Sample.alice
              Sample.id2 Sample.id2 Sample.remote_doc eq_refl eq_refl)
    as [(w' & evs & Hr & _) _].
  by rewrite Hr.
Defined.



(** C7: the avatar filter accepts a file whose extension is not an image
    extension, because the pattern is searched in the whole original
    name: [jpeg-report.exe], declared [image/jpeg], is stored. *)
Theorem avatar_filter_accepts_foreign_extension :
  let part := Multer.mkPart "avatar" "jpeg-report.exe" "image/jpeg" 1024 "MZ" in
  Path.extname (Multer.originalname part) = ".exe"
  /\ Cloudinary.allowedTypes_test (Path.extname (Multer.originalname part))
     = false
  /\ Cloudinary.fileFilter part = None
  /\ fst (@UserRoutes.post_avatar Sample.env Sample.bob (Some part) 7 8
            Sample.world)
     = Json 200 (AvatarBody "Avatar uploaded successfully"
                   "/uploads/avatars/bbbbbbbbbbbbbbbbbbbbbbbb-7-8.exe")
  /\ disk (snd (@UserRoutes.post_avatar Sample.env Sample.bob (Some part) 7 8
                  Sample.world))
     !! "/srv/backend/uploads/avatars/bbbbbbbbbbbbbbbbbbbbbbbb-7-8.exe"
     = Some (File "MZ" true).
Proof. repeat split; vm_compute; reflexivity. Qed.

(** Alice downloads her remote document. *)
Lemma download_resolution_witness :
  @DocumentRoutes.download Sample.env Sample.alice Sample.id2 Sample.world
  = (Redirect
       "https://res.cloudinary.com/demo/raw/upload/fl_attachment/v1712/password-manager/documents/scan.pdf",
     Sample.world).
Proof.
  destruct (@download_resolution Sample.env Sample.world Sample.alice
              Sample.id2 Sample.id2 eq_refl) as (_ & Hfound & _).
  destruct (Hfound Sample.remote_doc eq_refl) as [Hremote _].
  destruct (Hremote eq_refl) as (target & -> & Htarget).
  vm_compute in Htarget. by rewrite Htarget.
Defined.

(** C8, as stated, fails: the blob of Alice's local document is on the
    disk, yet the download is answered 404 "File not found", not with the
    bytes. *)
Lemma download_resolution_counterexample :
  Js.startsWith (DocumentDoc.filePath Sample.local_doc) "http" = false
  /\ disk Sample.world !! "/srv/backend/uploads/documents/12-34.pdf"
     = Some (File "pdf-bytes" true)
  /\ @DocumentRoutes.download Sample.env Sample.alice Sample.id3 Sample.world
     = (Json 404 (ErrorBody "File not found"), Sample.world).
Proof. repeat split; vm_compute; reflexivity. Qed.



(** Alice deletes her avatar; deleting again changes nothing. *)
Lemma avatar_delete_idempotent_witness :
  exists w',
    @UserRoutes.delete_avatar Sample.env Sample.alice Sample.world
    = (Json 200 (MessageBody "Avatar deleted successfully"), w')
    /\ @UserRoutes.delete_avatar Sample.env Sample.alice w'
       = (Json 200 (MessageBody "Avatar deleted successfully"), w').
Proof.
  destruct (@avatar_delete_idempotent Sample.env Sample.world Sample.alice
              Sample.alice_user eq_refl)
    as (w' & user' & Hr & _ & _ & _ & _ & Hagain).
  exists w'. split; [exact Hr|exact Hagain].
Defined.

(** C10, as stated, fails: a locator that is the empty string counts as
    not set, so the route answers 200 and changes nothing, and the locator
    is the empty string afterwards, not null. *)
Lemma avatar_delete_idempotent_counterexample :
  @UserRoutes.delete_avatar Sample.env Scenario.carol Scenario.faded
  = (Json 200 (MessageBody "Avatar deleted successfully"), Scenario.faded)
  /\ UserDoc.avatar <$> List.find (fun u => String.eqb (UserDoc._id u)
                                                       Scenario.carol)
                                  (users Scenario.faded)
     = Some (Some EmptyString)
  /\ Some EmptyString <> @None string.
Proof. repeat split; try (vm_compute; reflexivity). discriminate. Qed.

(** * Further properties: the list routes *)

Lemma insert_desc_perm {A} (key : A -> N) (x : A) (l : list A) :
  insert_desc key x l ≡ₚ x :: l.
Proof.
  induction l as [|y l IH]; simpl; [done|].
  destruct (key y <=? key x)%N; [done|].
  rewrite IH. apply Permutation_swap.
Qed.

Lemma sort_desc_perm {A} (key : A -> N) (l : list A) : sort_desc key l ≡ₚ l.
Proof.
  induction l as [|x l IH]; simpl; [done|].
  rewrite insert_desc_perm. by rewrite IH.
Qed.

Lemma insert_desc_sorted {A} (key : A -> N) (x : A) (l : list A) :
  StronglySorted (newest_first_order key) l ->
  StronglySorted (newest_first_order key) (insert_desc key x l).
Proof.
  induction l as [|y l IH]; simpl; intros Hs.
  - repeat constructor.
  - apply StronglySorted_inv in Hs as [Hs Hy].
    destruct (N.leb_spec (key y) (key x)) as [Hle|Hlt].
    + constructor; [by constructor|]. constructor; [done|].
      eapply Forall_impl; [exact Hy|]. unfold newest_first_order.
      intros z Hz. simpl in Hz. lia.
    + constructor; [by apply IH|].
      rewrite insert_desc_perm. constructor; [|done].
      unfold newest_first_order. lia.
Qed.

Lemma sort_desc_sorted {A} (key : A -> N) (l : list A) :
  StronglySorted (newest_first_order key) (sort_desc key l).
Proof.
  induction l as [|x l IH]; simpl; [constructor|].
  by apply insert_desc_sorted.
Qed.

(** An item older than everything in the list goes to its end. *)
Lemma insert_desc_oldest {A} (key : A -> N) (x : A) (l : list A) :
  Forall (fun y => (key x < key y)%N) l ->
  insert_desc key x l = (l ++ [x])%list.
Proof.
  induction l as [|y l IH]; simpl; intros Hall; [done|].
  apply Forall_cons in Hall as [Hy Hall].
  destruct (N.leb_spec (key y) (key x)) as [Hle|_]; [lia|].
  by rewrite IH.
Qed.

Lemma sort_desc_increasing {A} (key : A -> N) (l : list A) :
  StronglySorted (fun a b => (key a < key b)%N) l ->
  sort_desc key l = reverse l.
Proof.
  induction l as [|x l IH]; simpl; intros Hs; [done|].
  apply StronglySorted_inv in Hs as [Hs Hx].
  rewrite IH by done. rewrite reverse_cons.
  apply insert_desc_oldest. by apply Forall_reverse.
Qed.

(** X1: the password list route answers 200 with exactly the requester's
    entries (each once, none of another owner), newest first, and changes
    nothing. *)
Theorem password_list_own_newest_first (w : World) (uid : ObjectId) :
  exists items,
    ListRoutes.passwords_get uid w = (JsonArray 200 items, w)
    /\ items ≡ₚ List.filter (fun p => String.eqb (PasswordDoc.userId p) uid)
                            (passwords w)
    /\ (forall p, p ∈ items <-> p ∈ passwords w /\ PasswordDoc.userId p = uid)
    /\ StronglySorted (newest_first_order PasswordDoc.createdAt) items.
Proof.
  eexists. split; [reflexivity|]. split; [apply sort_desc_perm|].
  split; [|apply sort_desc_sorted].
  intros p. rewrite sort_desc_perm, !list_elem_of_In, filter_In.
  by rewrite String.eqb_eq.
Qed.

(** X2: the document list route answers 200 with exactly the requester's
    documents (each once, none of another owner), newest first, and
    changes nothing. *)
Theorem document_list_own_newest_first (w : World) (uid : ObjectId) :
  exists items,
    ListRoutes.documents_get uid w = (JsonArray 200 items, w)
    /\ items ≡ₚ List.filter (fun d => String.eqb (DocumentDoc.userId d) uid)
                            (documents w)
    /\ (forall d, d ∈ items <-> d ∈ documents w /\ DocumentDoc.userId d = uid)
    /\ StronglySorted (newest_first_order DocumentDoc.createdAt) items.
Proof.
  eexists. split; [reflexivity|]. split; [apply sort_desc_perm|].
  split; [|apply sort_desc_sorted].
  intros d. rewrite sort_desc_perm, !list_elem_of_In, filter_In.
  by rewrite String.eqb_eq.
Qed.

(** X3: when the requester's entries were stored with strictly increasing
    creation times, the list route returns them in the reverse of their
    storage order: the last one created comes first. *)
Theorem password_list_reverses_creation_order (w : World) (uid : ObjectId) :
  let own := List.filter (fun p => String.eqb (PasswordDoc.userId p) uid)
                         (passwords w) in
  StronglySorted
    (fun a b => (PasswordDoc.createdAt a < PasswordDoc.createdAt b)%N) own ->
  ListRoutes.passwords_get uid w = (JsonArray 200 (reverse own), w).
Proof.
  intros own Hinc. unfold ListRoutes.passwords_get, list_route,
    ListRoutes.Password_find. run. fold own.
  by rewrite sort_desc_increasing.
Qed.

(** * Further properties: how the password routes compose *)

Lemma find_app_fresh {A} (f : A -> bool) (l : list A) (x : A) :
  List.find f l = None -> f x = true -> List.find f (l ++ [x]) = Some x.
Proof.
  induction l as [|y l IH]; simpl; intros Hl Hx; [by rewrite Hx|].
  destruct (f y); [done|]. by apply IH.
Qed.

Lemma find_app_none {A} (f : A -> bool) (l l' : list A) :
  List.find f l = None -> List.find f (l ++ l') = List.find f l'.
Proof.
  induction l as [|y l IH]; simpl; intros Hl; [done|].
  destruct (f y); [done|]. by apply IH.
Qed.

Lemma find_remove_first_unique {A} (key : A -> ObjectId) (f : A -> bool)
    (l : list A) (x : A) :
  NoDup (key <$> l) -> List.find f l = Some x ->
  (forall y, f y = true -> key y = key x) ->
  List.find f (remove_first f l) = None.
Proof.
  induction l as [|y l IH]; intros Hnd Hf Hkey; [done|].
  rewrite fmap_cons in Hnd. apply NoDup_cons in Hnd as [Hy Hnd].
  simpl in *. destruct (f y) eqn:Hfy.
  - injection Hf as ->.
    destruct (List.find f l) as [z|] eqn:Hz; [|done].
    apply find_elem_of in Hz as [Hin Hfz]. exfalso. apply Hy.
    rewrite <- (Hkey z Hfz). apply list_elem_of_fmap. eauto.
  - simpl. rewrite Hfy. by apply IH.
Qed.

Section PasswordLifecycle.
Context `{Env}.

(** X4: create, then read.  When a create request is answered 201 with
    an entry, a Get by its owner for the new id returns that same entry,
    and a Get by anyone else is answered 404. *)
Theorem password_create_then_get (w w' : World) (uid : ObjectId)
    (body : gmap string string) (oid : ObjectId) (now : N) (id : string)
    (p : PasswordDoc.t) :
  PasswordRoutes.post uid body oid now w = (Json 201 (PasswordBody p), w') ->
  castObjectId id = Some oid ->
  PasswordDoc._id p = oid /\ PasswordDoc.userId p = uid
  /\ PasswordRoutes.get uid id w' = (Json 200 (PasswordBody p), w')
  /\ (forall b, b <> uid ->
                PasswordRoutes.get b id w' = (password_not_found, w')).
Proof.
  rewrite password_post_eq. intros Hpost Hc.
  destruct (negb _ || negb _); [discriminate|]. simpl in Hpost.
  destruct (Password.validate _); [|discriminate].
  destruct (existsb _ _) eqn:Hfresh; [discriminate|].
  injection Hpost as <- <-. simpl.
  assert (forall q, List.find (Password.by_id_and_owner oid q) (passwords w)
                    = None) as Hnone.
  { intros q. destruct (List.find _ _) as [x|] eqn:Hf; [|done].
    apply find_elem_of in Hf as [Hx [Hid _]%password_filter_sound].
    apply fresh_id_not_elem in Hfresh. exfalso. apply Hfresh.
    rewrite <- Hid. apply list_elem_of_fmap. eauto. }
  split; [done|]. split; [done|]. split.
  - rewrite password_get_eq, Hc. simpl.
    rewrite (find_app_fresh _ _ _ (Hnone uid)); [done|].
    apply password_filter_sound. done.
  - intros b Hb. rewrite password_get_eq, Hc. simpl.
    rewrite (find_app_none _ _ _ (Hnone b)). simpl.
    unfold Password.by_id_and_owner. simpl.
    destruct (String.eqb_spec uid b) as [->|_]; [done|].
    by rewrite andb_false_r.
Qed.

(** X5: update, then read.  When an Update is answered 200 with an entry,
    a Get by the same user for the same id returns exactly that entry. *)
Theorem password_update_then_get (w w' : World) (uid : ObjectId) (id : string)
    (body : gmap string string) (now : N) (p' : PasswordDoc.t) :
  PasswordRoutes.put uid id body now w = (Json 200 (PasswordBody p'), w') ->
  PasswordRoutes.get uid id w' = (Json 200 (PasswordBody p'), w').
Proof.
  rewrite password_put_eq, password_get_eq.
  destruct (castObjectId id) as [oid|]; [|discriminate]. simpl.
  destruct (Password.validate_update _); [|discriminate].
  destruct (List.find _ _) as [p|] eqn:Hf; [|discriminate].
  intros [= <- <-]. simpl.
  erewrite find_replace_first; [done|exact Hf|].
  apply find_elem_of in Hf as [_ Hm]. exact Hm.
Qed.

(** X6: delete, then read.  With pairwise distinct ids, after a Delete
    answered 200 the entry is gone: a Get and a second Delete by the same
    user are answered 404, and every entry with another id is still
    stored. *)
Theorem password_delete_then_gone (w w' : World) (uid : ObjectId)
    (id : string) :
  NoDup (PasswordDoc._id <$> passwords w) ->
  PasswordRoutes.delete uid id w
  = (Json 200 (MessageBody "Password deleted successfully"), w') ->
  PasswordRoutes.get uid id w' = (password_not_found, w')
  /\ PasswordRoutes.delete uid id w' = (password_not_found, w')
  /\ (forall q oid, castObjectId id = Some oid -> q ∈ passwords w ->
                    PasswordDoc._id q <> oid -> q ∈ passwords w').
Proof.
  intros Hnd. rewrite password_delete_eq, password_get_eq.
  destruct (castObjectId id) as [oid|] eqn:Hc; [|discriminate].
  destruct (List.find _ (passwords w)) as [p|] eqn:Hf; [|discriminate].
  intros [= <-]. simpl.
  assert (List.find (Password.by_id_and_owner oid uid)
            (remove_first (Password.by_id_and_owner oid uid) (passwords w))
          = None) as Hgone.
  { eapply (find_remove_first_unique PasswordDoc._id); [done|exact Hf|].
    intros y [Hy _]%password_filter_sound.
    apply find_elem_of in Hf as [_ [Hp _]%password_filter_sound]. congruence. }
  split; [by rewrite Hgone|]. split.
  - rewrite password_delete_eq, Hc. simpl. by rewrite Hgone.
  - intros q oid' [= <-] Hq Hne. clear Hgone Hf Hnd.
    induction (passwords w) as [|z l IH]; simpl; [done|].
    apply elem_of_cons in Hq as [->|Hq].
    + destruct (Password.by_id_and_owner oid uid z) eqn:Hz.
      * apply password_filter_sound in Hz as [? _]. contradiction.
      * apply list_elem_of_here.
    + destruct (Password.by_id_and_owner oid uid z);
        [done|apply list_elem_of_further; auto].
Qed.

(** X7: a path id that cannot be cast to an ObjectId.  Every by-id route
    of the password entries and of the documents answers 500 with the cast
    error, not 404, and changes nothing. *)
Theorem malformed_id_is_500 (w : World) (uid : ObjectId) (id : string)
    (body : gmap string string) (now : N) :
  castObjectId id = None ->
  let failure := (Json 500 (ExnBody (CastError id)), w) in
  PasswordRoutes.get uid id w = failure
  /\ PasswordRoutes.put uid id body now w = failure
  /\ PasswordRoutes.delete uid id w = failure
  /\ DocumentRoutes.get uid id w = failure
  /\ DocumentRoutes.download uid id w = failure
  /\ DocumentRoutes.delete uid id w = failure.
Proof.
  intros Hc failure. subst failure.
  rewrite password_get_eq, password_put_eq, password_delete_eq,
    document_get_eq, document_download_eq, Hc.
  repeat (split; [done|]).
  unfold DocumentRoutes.delete, Document.findOne, cast_id. run.
  by rewrite Hc.
Qed.

(** X8: the password routes work on the password collection only: the
    documents, the users and the disk are the same after a create, a
    read, an update or a delete, whatever the request. *)
Theorem password_routes_frame (w : World) (uid : ObjectId) (id : string)
    (body : gmap string string) (oid : ObjectId) (now : N) :
  let untouched (w' : World) :=
    documents w' = documents w /\ users w' = users w /\ disk w' = disk w in
  untouched (snd (PasswordRoutes.post uid body oid now w))
  /\ untouched (snd (PasswordRoutes.get uid id w))
  /\ untouched (snd (PasswordRoutes.put uid id body now w))
  /\ untouched (snd (PasswordRoutes.delete uid id w)).
Proof.
  intros untouched. subst untouched. simpl.
  rewrite password_post_eq, password_get_eq, password_put_eq,
    password_delete_eq.
  split; [|split; [|split]].
  - destruct (negb _ || negb _); [done|]. simpl.
    destruct (Password.validate _); [|done]. by destruct (existsb _ _).
  - destruct (castObjectId id); [|done]. by destruct (List.find _ _).
  - destruct (castObjectId id); [|done]. simpl.
    destruct (Password.validate_update _); [|done].
    by destruct (List.find _ _).
  - destruct (castObjectId id); [|done]. by destruct (List.find _ _).
Qed.

(** X9: a title of white space only.  Such a title passes the route's
    own check, but the schema trims it and then requires it: the create
    is answered 500 with a validation error, not 400, and nothing is
    stored. *)
Theorem password_create_blank_title (w : World) (uid : ObjectId)
    (body : gmap string string) (oid : ObjectId) (now : N) (t s : string) :
  body !! "title" = Some t -> body !! "password" = Some s ->
  Js.truthy t = true -> Js.truthy s = true ->
  Js.trim t = EmptyString ->
  exists paths,
    PasswordRoutes.post uid body oid now w
    = (Json 500 (ExnBody (ValidationError paths)), w)
    /\ Js.startsWith paths "title" = true.
Proof.
  intros Ht Hs Htt Hss Hblank. rewrite password_post_eq, Ht, Hs. simpl.
  rewrite Htt, Hss. simpl.
  unfold Password.validate, Password.new_Password. simpl.
  rewrite Hblank, Hss. simpl.
  destruct (Password.in_enum _); simpl; eexists; (split; [reflexivity|done]).
Qed.

End PasswordLifecycle.

(** * Further properties: uploading and removing documents *)

(** A joined path is absolute: it is never empty and never a remote URL. *)
Lemma join_is_local (parts : list string) :
  Js.truthy (Path.join parts) = true
  /\ Js.startsWith (Path.join parts) "http" = false.
Proof.
  unfold Path.join, Path.normalize.
  by destruct (Path.normalize_segments _ _).
Qed.

Lemma uniqueSuffix_truthy (now rnd : N) (ext : string) :
  Js.truthy (Cloudinary.uniqueSuffix now rnd +:+ ext) = true.
Proof.
  unfold Cloudinary.uniqueSuffix. by destruct (Js.num_to_string now).
Qed.

Section Upload.
Context `{Env}.

(** The multer stage of the document upload on a named part below the
    limit. *)
Lemma uploadDocument_accepts (part : Multer.Part) (now rnd : N) (w : World) :
  Js.truthy (Multer.originalname part) = true ->
  Multer.fieldname part = "file" ->
  (Multer.size part < 50 * 1024 * 1024)%N ->
  let name := Cloudinary.localDocumentStorage_filename now rnd part in
  let target := Path.join [Cloudinary.documentsDir; name] in
  Multer.single (Cloudinary.uploadDocument now rnd) "file" (Some part) w
  = (Normal (inr (Some (Multer.mkStored (Multer.originalname part)
                          (Multer.mimetype part) name target
                          (Multer.size part)))),
     mkWorld (passwords w) (documents w) (users w)
             (<[target := File (Multer.data part) true]> (disk w))
             (trace w ++ [BlobWritten target])).
Proof.
  intros Hnamed Hfield Hsize name target.
  unfold Multer.single. rewrite Hnamed, Hfield. simpl.
  destruct (N.leb_spec (50 * 1024 * 1024) (Multer.size part)) as [Hle|_];
    [lia|].
  by run.
Qed.

(** The route on a part the multer stage accepts: the blob is written,
    then the record is built and saved. *)
Lemma post_upload_accepted (validate : DocumentDoc.t -> list string)
    (w : World) (uid : ObjectId) (part : Multer.Part) (oid : ObjectId)
    (now rnd : N) :
  Js.truthy (Multer.originalname part) = true ->
  Multer.fieldname part = "file" ->
  (Multer.size part < 50 * 1024 * 1024)%N ->
  let name := Cloudinary.uniqueSuffix now rnd
              +:+ Path.extname (Multer.originalname part) in
  let target := Path.join [Cloudinary.documentsDir; name] in
  let d := DocumentDoc.mk oid uid name (Multer.originalname part)
             ("/uploads/documents/" +:+ name) (Multer.mimetype part)
             (Multer.size part) now in
  UploadRoute.post_upload validate uid (Some part) oid now rnd w
  = route (UploadRoute.Document_save validate d;;
           ret (Json 201 (DocumentBody d)))
      (mkWorld (passwords w) (documents w) (users w)
               (<[target := File (Multer.data part) true]> (disk w))
               (trace w ++ [BlobWritten target])).
Proof.
  intros Hnamed Hfield Hsize name target d.
  unfold UploadRoute.post_upload, route.
  erewrite bind_normal by (by apply uploadDocument_accepts).
  unfold UploadRoute.post_upload_handler, UploadRoute.new_Document,
    UploadRoute.locator_of.
  cbn [Multer.path Multer.filename Multer.file_originalname
       Multer.file_mimetype Multer.file_size].
  unfold Cloudinary.localDocumentStorage_filename. fold name. fold target.
  destruct (join_is_local [Cloudinary.documentsDir; name]) as [_ Hlocal].
  fold target in Hlocal. rewrite Hlocal, andb_false_r.
  assert (Js.truthy name = true) as Hname by apply uniqueSuffix_truthy.
  by rewrite Hname.
Qed.

(** A part without file name is no file at all for the route. *)
Lemma post_upload_unnamed (validate : DocumentDoc.t -> list string)
    (w : World) (uid : ObjectId) (part : Multer.Part) (oid : ObjectId)
    (now rnd : N) :
  Js.truthy (Multer.originalname part) = false ->
  UploadRoute.post_upload validate uid (Some part) oid now rnd w
  = (Json 400 (ErrorBody "No file uploaded. Please select a file."), w).
Proof.
  intros Hnamed. unfold UploadRoute.post_upload, Multer.single.
  rewrite Hnamed. by run.
Qed.

(** A named part that reaches the limit: written, removed, refused. *)
Lemma post_upload_too_large (validate : DocumentDoc.t -> list string)
    (w : World) (uid : ObjectId) (part : Multer.Part) (oid : ObjectId)
    (now rnd : N) :
  Js.truthy (Multer.originalname part) = true ->
  Multer.fieldname part = "file" ->
  (50 * 1024 * 1024 <= Multer.size part)%N ->
  UploadRoute.post_upload validate uid (Some part) oid now rnd w
  = (Json 400 (ErrorBody "File size too large. Maximum size is 50MB"),
     mkWorld (passwords w) (documents w) (users w)
       (delete (Path.join [Cloudinary.documentsDir;
                           Cloudinary.localDocumentStorage_filename now rnd
                                                                    part])
               (disk w))
       (trace w
        ++ [BlobWritten
              (Path.join [Cloudinary.documentsDir;
                          Cloudinary.localDocumentStorage_filename now rnd
                                                                   part]);
            Unlinked
              (Path.join [Cloudinary.documentsDir;
                          Cloudinary.localDocumentStorage_filename now rnd
                                                                   part])])).
Proof.
  intros Hnamed Hfield Hsize. unfold UploadRoute.post_upload, Multer.single.
  rewrite Hnamed, Hfield. run.
  destruct (N.leb_spec (50 * 1024 * 1024) (Multer.size part)) as [_|Hlt];
    [|lia].
  simpl. by rewrite delete_insert_eq, <- app_assoc.
Qed.

(** X10: what the document upload turns down.  A request without a file
    part, or with a part that has no file name, is answered 400 "No file
    uploaded. Please select a file." and changes nothing; a named file
    sent under another field name is answered 400 "Unexpected field" and
    changes nothing; a named file that reaches 50 MB is answered 400 "File
    size too large. Maximum size is 50MB" after its blob was written and
    removed again: no record is created and nothing is left at the
    generated path. *)
Theorem upload_rejections (validate : DocumentDoc.t -> list string)
    (w : World) (uid oid : ObjectId) (now rnd : N) :
  let no_file :=
    Json 400 (ErrorBody "No file uploaded. Please select a file.") in
  UploadRoute.post_upload validate uid None oid now rnd w = (no_file, w)
  /\ (forall part,
         Js.truthy (Multer.originalname part) = false ->
         UploadRoute.post_upload validate uid (Some part) oid now rnd w
         = (no_file, w))
  /\ (forall part,
         Js.truthy (Multer.originalname part) = true ->
         Multer.fieldname part <> "file" ->
         UploadRoute.post_upload validate uid (Some part) oid now rnd w
         = (Json 400 (ErrorBody "Unexpected field"), w))
  /\ (forall part,
         Js.truthy (Multer.originalname part) = true ->
         Multer.fieldname part = "file" ->
         (50 * 1024 * 1024 <= Multer.size part)%N ->
         let target :=
           Path.join [Cloudinary.documentsDir;
                      Cloudinary.localDocumentStorage_filename now rnd part] in
         let w' := snd (UploadRoute.post_upload validate uid (Some part) oid
                          now rnd w) in
         fst (UploadRoute.post_upload validate uid (Some part) oid now rnd w)
         = Json 400 (ErrorBody "File size too large. Maximum size is 50MB")
         /\ documents w' = documents w
         /\ disk w' = delete target (disk w)
         /\ disk w' !! target = None
         /\ trace w' = (trace w ++ [BlobWritten target; Unlinked target])%list).
Proof.
  intros no_file. split; [done|]. split; [|split].
  - intros part Hnamed. by apply post_upload_unnamed.
  - intros part Hnamed Hfield.
    unfold UploadRoute.post_upload, Multer.single. rewrite Hnamed. run.
    apply String.eqb_neq in Hfield. by rewrite Hfield.
  - intros part Hnamed Hfield Hsize target w'. subst w'.
    rewrite (post_upload_too_large validate w uid part oid now rnd
               Hnamed Hfield Hsize).
    fold target. cbn [fst snd documents disk trace].
    split; [done|]. split; [done|]. split; [done|]. split; [|done].
    apply lookup_delete_eq.
Qed.

(** X11: what the document upload stores.  A named file smaller than
    50 MB sent under the field [file], with a fresh id and a
    record the schema accepts, is answered 201 with a record owned by the
    uploader; the blob is written under the documents directory with a
    generated name that keeps the original extension, the record is
    appended to the collection, and the locator recorded is always the
    relative path [/uploads/documents/<name>], never a remote URL. *)
Theorem upload_stores_local_document (validate : DocumentDoc.t -> list string)
    (w : World) (uid : ObjectId) (part : Multer.Part) (oid : ObjectId)
    (now rnd : N) :
  Js.truthy (Multer.originalname part) = true ->
  Multer.fieldname part = "file" ->
  (Multer.size part < 50 * 1024 * 1024)%N ->
  let name := Cloudinary.uniqueSuffix now rnd
              +:+ Path.extname (Multer.originalname part) in
  let target := Path.join [Cloudinary.documentsDir; name] in
  let d := DocumentDoc.mk oid uid name (Multer.originalname part)
             ("/uploads/documents/" +:+ name) (Multer.mimetype part)
             (Multer.size part) now in
  validate d = [] ->
  existsb (fun q => String.eqb (DocumentDoc._id q) oid) (documents w) = false ->
  UploadRoute.post_upload validate uid (Some part) oid now rnd w
  = (Json 201 (DocumentBody d),
     mkWorld (passwords w) (documents w ++ [d]) (users w)
             (<[target := File (Multer.data part) true]> (disk w))
             (trace w ++ [BlobWritten target])).
Proof.
  intros Hnamed Hfield Hsize name target d Hvalid Hfresh.
  unfold UploadRoute.post_upload, route.
  erewrite bind_normal by (by apply uploadDocument_accepts).
  unfold UploadRoute.post_upload_handler, UploadRoute.new_Document,
    UploadRoute.locator_of.
  cbn [Multer.path Multer.filename Multer.file_originalname
       Multer.file_mimetype Multer.file_size].
  unfold Cloudinary.localDocumentStorage_filename. fold name. fold target.
  destruct (join_is_local [Cloudinary.documentsDir; name]) as [_ Hlocal].
  fold target in Hlocal. rewrite Hlocal, andb_false_r.
  assert (Js.truthy name = true) as Hname by apply uniqueSuffix_truthy.
  rewrite Hname. fold d.
  unfold UploadRoute.Document_save. rewrite Hvalid. run.
  by rewrite Hfresh.
Qed.

(** X12: the blob outlives a failed save.  When the schema rejects the
    record of a named file smaller than 50 MB sent under the field [file],
    the request is answered 500 and no record is created, but the blob
    multer wrote stays on the disk. *)
Theorem upload_orphans_blob_on_invalid_record
    (validate : DocumentDoc.t -> list string) (w : World) (uid : ObjectId)
    (part : Multer.Part) (oid : ObjectId) (now rnd : N) :
  Js.truthy (Multer.originalname part) = true ->
  Multer.fieldname part = "file" ->
  (Multer.size part < 50 * 1024 * 1024)%N ->
  let name := Cloudinary.uniqueSuffix now rnd
              +:+ Path.extname (Multer.originalname part) in
  let target := Path.join [Cloudinary.documentsDir; name] in
  let d := DocumentDoc.mk oid uid name (Multer.originalname part)
             ("/uploads/documents/" +:+ name) (Multer.mimetype part)
             (Multer.size part) now in
  validate d <> [] ->
  exists paths w',
    UploadRoute.post_upload validate uid (Some part) oid now rnd w
    = (Json 500 (ExnBody (ValidationError paths)), w')
    /\ documents w' = documents w
    /\ disk w' !! target = Some (File (Multer.data part) true).
Proof.
  intros Hnamed Hfield Hsize name target d Hinvalid.
  unfold UploadRoute.post_upload, route.
  erewrite bind_normal by (by apply uploadDocument_accepts).
  unfold UploadRoute.post_upload_handler, UploadRoute.new_Document,
    UploadRoute.locator_of.
  cbn [Multer.path Multer.filename Multer.file_originalname
       Multer.file_mimetype Multer.file_size].
  unfold Cloudinary.localDocumentStorage_filename. fold name. fold target.
  destruct (join_is_local [Cloudinary.documentsDir; name]) as [_ Hlocal].
  fold target in Hlocal. rewrite Hlocal, andb_false_r.
  assert (Js.truthy name = true) as Hname by apply uniqueSuffix_truthy.
  rewrite Hname. fold d.
  unfold UploadRoute.Document_save.
  destruct (validate d) as [|e errs]; [done|]. run.
  eexists _, _. split; [reflexivity|]. split; [done|]. simpl.
  apply lookup_insert_eq.
Qed.

(** X13: an uploaded document cannot be downloaded through the download
    route.  After a successful upload, a Get by the uploader returns the
    record, but a Download by the uploader is answered 404 "File not
    found", although the blob is on the disk. *)
Theorem upload_then_download_not_found
    (validate : DocumentDoc.t -> list string) (w w' : World) (uid : ObjectId)
    (part : Multer.Part) (oid : ObjectId) (now rnd : N) (id : string)
    (d : DocumentDoc.t) :
  Multer.fieldname part = "file" ->
  (Multer.size part <= 50 * 1024 * 1024)%N ->
  UploadRoute.post_upload validate uid (Some part) oid now rnd w
  = (Json 201 (DocumentBody d), w') ->
  castObjectId id = Some oid ->
  DocumentRoutes.get uid id w' = (Json 200 (DocumentBody d), w')
  /\ DocumentRoutes.download uid id w'
     = (Json 404 (ErrorBody "File not found"), w')
  /\ disk w' !! Path.join [Cloudinary.documentsDir;
                           Cloudinary.localDocumentStorage_filename now rnd
                                                                    part]
     = Some (File (Multer.data part) true).
Proof.
  intros Hfield _ Hup Hc.
  destruct (Js.truthy (Multer.originalname part)) eqn:Hnamed;
    [|by rewrite post_upload_unnamed in Hup].
  destruct (N.leb_spec (50 * 1024 * 1024) (Multer.size part)) as [Hle|Hsize];
    [by rewrite post_upload_too_large in Hup|].
  rewrite (post_upload_accepted validate w uid part oid now rnd
             Hnamed Hfield Hsize) in Hup.
  set (name := Cloudinary.uniqueSuffix now rnd
               +:+ Path.extname (Multer.originalname part)) in *.
  set (d0 := DocumentDoc.mk oid uid name (Multer.originalname part)
               ("/uploads/documents/" +:+ name) (Multer.mimetype part)
               (Multer.size part) now) in *.
  unfold route, UploadRoute.Document_save, mbind, M_bind, bind, throw,
    get_world, set_documents, ret in Hup.
  destruct (validate d0) as [|e errs] eqn:Hv; [|discriminate].
  cbn [documents DocumentDoc._id d0] in Hup.
  destruct (existsb (fun q => String.eqb (DocumentDoc._id q) oid)
                    (documents w)) eqn:Hfresh; [discriminate|].
  injection Hup as <- <-.
  assert (List.find (Document.by_id_and_owner oid uid)
                    (documents w ++ [d0]) = Some d0) as Hfind.
  { apply find_app_fresh; [|by apply document_filter_sound].
    destruct (List.find _ _) as [x|] eqn:Hf; [|done].
    apply find_elem_of in Hf as [Hx [Hid _]%document_filter_sound].
    exfalso.
    assert (existsb (fun q => String.eqb (DocumentDoc._id q) oid)
                    (documents w) = true) as Habs; [|congruence].
    apply existsb_exists. exists x.
    split; [by apply list_elem_of_In|by apply String.eqb_eq]. }
  split; [|split].
  - rewrite document_get_eq, Hc. simpl. by rewrite Hfind.
  - rewrite document_download_eq, Hc. simpl. by rewrite Hfind.
  - simpl. apply lookup_insert_eq.
Qed.

(** X14: deleting a locally stored document never removes its blob.  For
    a document whose locator does not start with "http", the Delete route
    removes the record and answers 200 without calling the blob helper:
    the disk is exactly as before. *)
Theorem document_delete_local_keeps_blob (w : World) (uid : ObjectId)
    (id : string) (oid : ObjectId) (d : DocumentDoc.t) :
  castObjectId id = Some oid ->
  List.find (Document.by_id_and_owner oid uid) (documents w) = Some d ->
  Js.startsWith (DocumentDoc.filePath d) "http" = false ->
  DocumentRoutes.delete uid id w
  = (Json 200 (MessageBody "Document deleted successfully"),
     mkWorld (passwords w)
       (remove_first
          (fun x => String.eqb (DocumentDoc._id x) (DocumentDoc._id d))
          (documents w))
       (users w) (disk w) (trace w ++ [DocumentDeleted (DocumentDoc._id d)])).
Proof.
  intros Hc Hf Hlocal. pose proof (find_elem_of _ _ _ Hf) as [Hd _].
  unfold DocumentRoutes.delete, Document.findOne, cast_id, route.
  unfold mbind, M_bind, bind, get_world, ret. rewrite Hc. simpl. rewrite Hf.
  rewrite Hlocal, andb_false_r.
  by rewrite findByIdAndDelete_eq.
Qed.

End Upload.

(** * Further properties: the local delete helper *)

Section DeleteHelper.
Context `{Env}.

(** The disk after a call with an identifier that holds a slash. *)
Lemma deleteFromCloudinary_disk (publicId : string) (w : World) :
  Js.includes publicId "/" = true ->
  disk (snd (Cloudinary.deleteFromCloudinary publicId w))
  = match disk w !! (if Js.startsWith publicId "uploads/"
                     then Path.join [dirname; ".."; publicId]
                     else Path.join [dirname; ".."; "uploads"; publicId]) with
    | Some (File _ true) =>
        delete (if Js.startsWith publicId "uploads/"
                then Path.join [dirname; ".."; publicId]
                else Path.join [dirname; ".."; "uploads"; publicId]) (disk w)
    | _ => disk w
    end.
Proof.
  intros Hslash.
  unfold Cloudinary.deleteFromCloudinary, Fs.existsSync, Fs.unlinkSync. run.
  destruct (Js.startsWith publicId "uploads/"); [|rewrite Hslash]; simpl;
    match goal with
    | |- context [disk w !! ?t] =>
        destruct (disk w !! t) as [[data [|]|]|] eqn:Hlook
    end; simpl; rewrite ?Hlook; done.
Qed.

(** X15: what [deleteFromCloudinary] removes.  For an identifier that
    holds a slash the helper resolves one path (below the back-end root
    when the identifier starts with [uploads/], below its [uploads]
    directory otherwise); it removes that entry when it is a removable
    file and leaves the disk as it was in every other case (entry missing,
    protected, or a directory), always returning [{ result: 'ok' }]. *)
Theorem deleteFromCloudinary_removes_resolved_path (publicId : string)
    (w : World) :
  Js.includes publicId "/" = true ->
  let target :=
    if Js.startsWith publicId "uploads/"
    then Path.join [dirname; ".."; publicId]
    else Path.join [dirname; ".."; "uploads"; publicId] in
  fst (Cloudinary.deleteFromCloudinary publicId w) = Normal Cloudinary.ok
  /\ disk (snd (Cloudinary.deleteFromCloudinary publicId w))
     = match disk w !! target with
       | Some (File _ true) => delete target (disk w)
       | _ => disk w
       end.
Proof.
  intros Hslash target.
  unfold Cloudinary.deleteFromCloudinary, Fs.existsSync, Fs.unlinkSync. run.
  destruct (Js.startsWith publicId "uploads/"); [|rewrite Hslash]; simpl;
    fold target;
    destruct (disk w !! target) as [[data [|]|]|] eqn:Hlook; simpl;
    rewrite ?Hlook; done.
Qed.

(** X16: for an identifier that holds a slash, calling the helper a
    second time changes nothing: the disk after two calls is the disk
    after one. *)
Theorem deleteFromCloudinary_twice (publicId : string) (w : World) :
  Js.includes publicId "/" = true ->
  let w1 := snd (Cloudinary.deleteFromCloudinary publicId w) in
  disk (snd (Cloudinary.deleteFromCloudinary publicId w1)) = disk w1.
Proof.
  intros Hslash w1.
  rewrite (deleteFromCloudinary_disk publicId w1 Hslash).
  subst w1.
  rewrite (deleteFromCloudinary_disk publicId w Hslash).
  set (target := if Js.startsWith publicId "uploads/" then _ else _).
  destruct (disk w !! target) as [[data [|]|]|] eqn:Hlook.
  - by rewrite lookup_delete_eq.
  - by rewrite Hlook.
  - by rewrite Hlook.
  - by rewrite Hlook.
Qed.

(** X17: a bare identifier is looked up among the avatars first.  When a
    removable file of that name lies in both upload directories, one call
    removes the avatar and leaves the document in place. *)
Theorem deleteFromCloudinary_prefers_avatar (publicId : string) (w : World)
    (a d : string) :
  Js.startsWith publicId "uploads/" = false ->
  Js.includes publicId "/" = false ->
  let avatarPath := Path.join [Cloudinary.avatarsDir; publicId] in
  let docPath := Path.join [Cloudinary.documentsDir; publicId] in
  avatarPath <> docPath ->
  disk w !! avatarPath = Some (File a true) ->
  disk w !! docPath = Some (File d true) ->
  let w' := snd (Cloudinary.deleteFromCloudinary publicId w) in
  disk w' = delete avatarPath (disk w)
  /\ disk w' !! avatarPath = None
  /\ disk w' !! docPath = Some (File d true).
Proof.
  intros Hup Hslash avatarPath docPath Hne Ha Hd w'. subst w'.
  unfold Cloudinary.deleteFromCloudinary, Fs.existsSync, Fs.unlinkSync.
  unfold mbind, M_bind, bind, ret, throw, try_catch, get_world, emit,
    set_disk, console_error.
  rewrite Hup, Hslash. simpl. fold avatarPath.
  repeat (rewrite Ha; simpl). split; [done|]. split.
  - apply lookup_delete_eq.
  - by rewrite lookup_delete_ne.
Qed.

End DeleteHelper.

(** * Further properties: the avatar routes *)

Lemma append_assoc (a b c : string) : (a +:+ b) +:+ c = a +:+ (b +:+ c).
Proof.
  induction a as [|x a IH]; [done|].
  change (String x ((a +:+ b) +:+ c) = String x (a +:+ (b +:+ c))).
  by rewrite IH.
Qed.

Lemma find_replace_first_other {A} (f g : A -> bool) (y : A) (l : list A) :
  g y = false -> (forall x, f x = true -> g x = false) ->
  List.find g (replace_first f y l) = List.find g l.
Proof.
  intros Hy Hfg. induction l as [|x l IH]; simpl; [done|].
  destruct (f x) eqn:Hfx; simpl.
  - by rewrite Hy, (Hfg x Hfx).
  - by rewrite IH.
Qed.

Lemma replace_first_keeps_ids (uid : ObjectId) (a : option string)
    (l : list UserDoc.t) :
  UserDoc._id <$> replace_first (fun v => String.eqb (UserDoc._id v) uid)
                                (UserDoc.mk uid a) l
  = UserDoc._id <$> l.
Proof.
  induction l as [|x l IH]; simpl; [done|].
  destruct (String.eqb_spec (UserDoc._id x) uid) as [Hx|_].
  - rewrite !fmap_cons. simpl. by rewrite Hx.
  - rewrite !fmap_cons. by rewrite IH.
Qed.

(** No collection changed. *)
Ltac unchanged := split; [done|]; split; [done|]; by left.

Section Avatars.
Context `{Env}.

Lemma post_avatar_effect (w : World) (uid : ObjectId)
    (part : option Multer.Part) (now rnd : N) :
  avatar_effect uid w (snd (UserRoutes.post_avatar uid part now rnd w)).
Proof.
  unfold avatar_effect.
  destruct part as [part|]; [|unchanged].
  destruct (Js.truthy (Multer.originalname part)) eqn:Hnamed.
  2:{ rewrite post_avatar_unnamed by done. unchanged. }
  destruct (String.eqb_spec (Multer.fieldname part) "avatar") as [Hfield|Hne].
  2:{ unfold UserRoutes.post_avatar, Multer.single. rewrite Hnamed. run.
      apply String.eqb_neq in Hne. rewrite Hne. simpl. unchanged. }
  destruct (Cloudinary.fileFilter part) as [msg|] eqn:Hfilter.
  { rewrite (uploadAvatar_rejects _ _ _ _ _ msg Hnamed Hfilter). simpl.
    unchanged. }
  destruct (N.leb_spec (5 * 1024 * 1024) (Multer.size part)) as [Hbig|Hsize].
  { rewrite post_avatar_too_large by done. unchanged. }
  unfold UserRoutes.post_avatar, route.
  erewrite bind_normal by (by apply uploadAvatar_accepts).
  set (w1 := mkWorld _ _ _ _ _).
  unfold UserRoutes.post_avatar_handler.
  erewrite bind_normal by apply findById_eq.
  replace (users w1) with (users w) by done.
  destruct (List.find _ (users w)) as [user|] eqn:Hfind;
    [|unchanged].
  pose proof (find_elem_of _ _ _ Hfind) as [_ Hid%String.eqb_eq].
  assert (exists w2, ((if Js.truthy_opt (UserDoc.avatar user)
                       then best_effort_delete "password-manager/avatars/"
                              "Error deleting old avatar from Cloudinary:"
                              (UserDoc.avatar user)
                       else ret tt) : M unit) w1 = (Normal tt, w2)
                     /\ same_records w1 w2) as (w2 & Hstep & Hp & Hd & Hu).
  { destruct (Js.truthy_opt (UserDoc.avatar user)).
    - destruct (best_effort_delete_ok "password-manager/avatars/"
                  "Error deleting old avatar from Cloudinary:"
                  (UserDoc.avatar user) w1) as (w2 & evs & Hb & Hs & _).
      by exists w2.
    - by exists w1. }
  erewrite bind_normal by exact Hstep.
  erewrite bind_normal by apply user_save_eq.
  cbn [Multer.path Multer.filename UserDoc._id UserDoc.avatar].
  unfold ret. cbn [snd passwords documents users]. rewrite Hp, Hd, Hu, Hid.
  split; [done|]. split; [done|]. right. eexists. split; [reflexivity|].
  destruct (join_is_local
              [Cloudinary.avatarsDir;
               Cloudinary.localAvatarStorage_filename uid now rnd part])
    as [_ ->].
  rewrite andb_false_r. discriminate.
Qed.

Lemma delete_avatar_effect (w : World) (uid : ObjectId) :
  avatar_effect uid w (snd (UserRoutes.delete_avatar uid w)).
Proof.
  unfold avatar_effect, UserRoutes.delete_avatar, route.
  erewrite bind_normal by apply findById_eq.
  destruct (List.find _ (users w)) as [user|] eqn:Hfind;
    [|unchanged].
  pose proof (find_elem_of _ _ _ Hfind) as [_ Hid%String.eqb_eq].
  destruct (Js.truthy_opt (UserDoc.avatar user)).
  - destruct (best_effort_delete_ok "password-manager/avatars/"
                "Error deleting avatar from Cloudinary:" (UserDoc.avatar user) w)
      as (w1 & evs & Hb & (Hp & Hd & Hu) & _).
    erewrite bind_normal;
      [|erewrite bind_normal by exact Hb; apply user_save_eq].
    cbn [UserDoc._id UserDoc.avatar]. unfold ret.
    cbn [snd passwords documents users]. rewrite Hp, Hd, Hu, Hid.
    split; [done|]. split; [done|]. right. by exists None.
  - unchanged.
Qed.

(** X18: what the avatar upload turns down.  A request without a file
    part, or with a part that has no file name, is answered 400 "No file
    uploaded. Please select an image file." and changes nothing; a named
    part the image filter rejects is answered 400 "Only image files are
    allowed" and changes nothing; a part the filter accepts that reaches
    5 MB is answered 400 "File size too large. Maximum size is 5MB" after
    its blob was written and removed again: the user records are as
    before and nothing is left at the generated path. *)
Theorem avatar_upload_rejections (w : World) (uid : ObjectId) (now rnd : N) :
  let no_file :=
    Json 400 (ErrorBody "No file uploaded. Please select an image file.") in
  UserRoutes.post_avatar uid None now rnd w = (no_file, w)
  /\ (forall part,
         Js.truthy (Multer.originalname part) = false ->
         UserRoutes.post_avatar uid (Some part) now rnd w = (no_file, w))
  /\ (forall part msg,
         Js.truthy (Multer.originalname part) = true ->
         Multer.fieldname part = "avatar" ->
         Cloudinary.fileFilter part = Some msg ->
         UserRoutes.post_avatar uid (Some part) now rnd w
         = (Json 400 (ErrorBody "Only image files are allowed"), w))
  /\ (forall part,
         Multer.fieldname part = "avatar" ->
         Cloudinary.fileFilter part = None ->
         (5 * 1024 * 1024 <= Multer.size part)%N ->
         let target :=
           Path.join [Cloudinary.avatarsDir;
                      Cloudinary.localAvatarStorage_filename uid now rnd
                                                             part] in
         let w' := snd (UserRoutes.post_avatar uid (Some part) now rnd w) in
         fst (UserRoutes.post_avatar uid (Some part) now rnd w)
         = Json 400 (ErrorBody "File size too large. Maximum size is 5MB")
         /\ users w' = users w
         /\ disk w' = delete target (disk w)
         /\ disk w' !! target = None
         /\ trace w' = (trace w ++ [BlobWritten target; Unlinked target])%list).
Proof.
  intros no_file. split; [done|]. split; [|split].
  - intros part Hnamed. by apply post_avatar_unnamed.
  - intros part msg Hnamed Hfield Hfilter.
    rewrite (uploadAvatar_rejects _ _ _ _ _ msg Hnamed Hfilter).
    by rewrite Hfield.
  - intros part Hfield Hfilter Hbig target w'. subst w'.
    rewrite (post_avatar_too_large uid part now rnd w Hfield Hfilter Hbig).
    fold target. cbn [fst snd users disk trace].
    split; [done|]. split; [done|]. split; [done|]. split; [|done].
    apply lookup_delete_eq.
Qed.

(** X19: an avatar for a user that does not exist.  An image the filter
    accepts, smaller than 5 MB, is written to the avatars directory by the
    multer stage before the handler looks the user up: the request is
    answered 404 "User not found", yet the new blob stays on the disk. *)
Theorem avatar_upload_unknown_user (w : World) (uid : ObjectId)
    (part : Multer.Part) (now rnd : N) :
  Multer.fieldname part = "avatar" ->
  Cloudinary.fileFilter part = None ->
  (Multer.size part < 5 * 1024 * 1024)%N ->
  List.find (fun u => String.eqb (UserDoc._id u) uid) (users w) = None ->
  let target :=
    Path.join [Cloudinary.avatarsDir;
               Cloudinary.localAvatarStorage_filename uid now rnd part] in
  UserRoutes.post_avatar uid (Some part) now rnd w
  = (Json 404 (ErrorBody "User not found"),
     mkWorld (passwords w) (documents w) (users w)
             (<[target := File (Multer.data part) true]> (disk w))
             (trace w ++ [BlobWritten target])).
Proof.
  intros Hfield Hfilter Hsize Hfind target.
  unfold UserRoutes.post_avatar, route.
  erewrite bind_normal by (by apply uploadAvatar_accepts).
  unfold UserRoutes.post_avatar_handler.
  erewrite bind_normal by apply findById_eq.
  cbn [users]. by rewrite Hfind.
Qed.

(** X20: a first avatar.  For a user without a locator an image the
    filter accepts, smaller than 5 MB, is written, no blob removal is
    attempted, and the user is saved with the relative locator
    [/uploads/avatars/<name>], [name] being the user id, the clock value,
    the random number and the original extension. *)
Theorem avatar_first_upload (w : World) (uid : ObjectId)
    (part : Multer.Part) (now rnd : N) (user : UserDoc.t) :
  Multer.fieldname part = "avatar" ->
  Cloudinary.fileFilter part = None ->
  (Multer.size part < 5 * 1024 * 1024)%N ->
  List.find (fun u => String.eqb (UserDoc._id u) uid) (users w) = Some user ->
  Js.truthy_opt (UserDoc.avatar user) = false ->
  let name := (if Js.truthy uid then uid else "user") +:+ "-"
              +:+ Js.num_to_string now +:+ "-" +:+ Js.num_to_string rnd
              +:+ Path.extname (Multer.originalname part) in
  let target := Path.join [Cloudinary.avatarsDir; name] in
  let locator := "/uploads/avatars/" +:+ name in
  UserRoutes.post_avatar uid (Some part) now rnd w
  = (Json 200 (AvatarBody "Avatar uploaded successfully" locator),
     mkWorld (passwords w) (documents w)
       (replace_first (fun v => String.eqb (UserDoc._id v) uid)
                      (UserDoc.mk uid (Some locator)) (users w))
       (<[target := File (Multer.data part) true]> (disk w))
       (trace w ++ [BlobWritten target; UserSaved uid (Some locator)])).
Proof.
  intros Hfield Hfilter Hsize Hfind Hnone name target locator.
  pose proof (find_elem_of _ _ _ Hfind) as [_ Hid%String.eqb_eq].
  unfold UserRoutes.post_avatar, route.
  erewrite bind_normal by (by apply uploadAvatar_accepts).
  unfold UserRoutes.post_avatar_handler.
  erewrite bind_normal by apply findById_eq.
  cbn [users]. rewrite Hfind, Hnone.
  erewrite bind_normal by reflexivity.
  erewrite bind_normal by apply user_save_eq.
  cbn [Multer.path Multer.filename UserDoc._id UserDoc.avatar].
  assert (Cloudinary.localAvatarStorage_filename uid now rnd part = name)
    as -> by (unfold Cloudinary.localAvatarStorage_filename,
                Cloudinary.uniqueSuffix, name;
              by rewrite !append_assoc).
  fold target. destruct (join_is_local [Cloudinary.avatarsDir; name])
    as [_ Hlocal].
  fold target in Hlocal. rewrite Hlocal, andb_false_r. fold locator.
  unfold ret. cbn [passwords documents users disk trace]. rewrite Hid.
  by rewrite <- app_assoc.
Qed.

(** X21: the avatar routes touch the requester's record only.  Whatever
    the request, after an avatar upload or an avatar delete by [uid] the
    password entries and the documents are as before, no user appeared or
    disappeared, and the record of every other user is the same. *)
Theorem avatar_routes_touch_own_record_only (w : World) (uid other : ObjectId)
    (part : option Multer.Part) (now rnd : N) :
  other <> uid ->
  let preserved (w' : World) :=
    passwords w' = passwords w /\ documents w' = documents w
    /\ UserDoc._id <$> users w' = UserDoc._id <$> users w
    /\ List.find (fun u => String.eqb (UserDoc._id u) other) (users w')
       = List.find (fun u => String.eqb (UserDoc._id u) other) (users w) in
  preserved (snd (UserRoutes.post_avatar uid part now rnd w))
  /\ preserved (snd (UserRoutes.delete_avatar uid w)).
Proof.
  intros Hother preserved.
  assert (forall w', avatar_effect uid w w' -> preserved w') as Hframe.
  { intros w' (Hp & Hd & [Hu | (a & Hu & _)]); subst preserved; simpl;
      rewrite Hu; repeat split; try done.
    - apply replace_first_keeps_ids.
    - apply find_replace_first_other.
      + simpl. by apply String.eqb_neq.
      + intros x Hx%String.eqb_eq. apply String.eqb_neq. congruence. }
  split; apply Hframe; [apply post_avatar_effect|apply delete_avatar_effect].
Qed.

(** X22: the avatar routes never store an empty locator.  If no user has
    the empty string as avatar locator, none has after an avatar upload or
    an avatar delete, whatever the request. *)
Theorem avatar_locator_never_empty (w : World) (uid : ObjectId)
    (part : option Multer.Part) (now rnd : N) :
  Forall (fun u => UserDoc.avatar u <> Some EmptyString) (users w) ->
  Forall (fun u => UserDoc.avatar u <> Some EmptyString)
         (users (snd (UserRoutes.post_avatar uid part now rnd w)))
  /\ Forall (fun u => UserDoc.avatar u <> Some EmptyString)
            (users (snd (UserRoutes.delete_avatar uid w))).
Proof.
  intros Hall.
  assert (forall w', avatar_effect uid w w' ->
                     Forall (fun u => UserDoc.avatar u <> Some EmptyString)
                            (users w')) as Hkeep.
  { intros w' (_ & _ & [-> | (a & -> & Ha)]); [done|].
    induction Hall as [|x l Hx Hl IH]; simpl; [constructor|].
    destruct (String.eqb (UserDoc._id x) uid); constructor; done. }
  split; apply Hkeep; [apply post_avatar_effect|apply delete_avatar_effect].
Qed.

End Avatars.

(** * Further properties: the identifier of a local locator *)

Lemma length_slice_from (n : nat) (s : string) :
  String.length (Js.slice_from n s) = String.length s - n.
Proof.
  revert s. induction n as [|n IH]; intros [|c s]; simpl; try lia.
  apply IH.
Qed.

Lemma lastIndexOf_lt (s : string) (c : ascii) (i : nat) :
  Js.lastIndexOf s c = Some i -> i < String.length s.
Proof.
  revert i. induction s as [|a s IH]; simpl; intros i; [done|].
  destruct (Js.lastIndexOf s c) as [j|].
  - intros [= <-]. specialize (IH j eq_refl). lia.
  - destruct (Ascii.eqb a c); [|done]. intros [= <-]. lia.
Qed.

Lemma substring0_slice_from (i : nat) (s : string) :
  Js.substring0 i s +:+ Js.slice_from i s = s.
Proof.
  unfold Js.substring0. revert s.
  induction i as [|i IH]; intros [|c s]; simpl; try done.
  change (String c (substring 0 i s +:+ Js.slice_from i s) = String c s).
  by rewrite IH.
Qed.

Lemma append_empty_r (s : string) : s +:+ EmptyString = s.
Proof.
  induction s as [|c s IH]; [done|].
  change (String c (s +:+ EmptyString) = String c s). by rewrite IH.
Qed.

Lemma split_elem_length (s : string) (sep : ascii) (x : string) :
  x ∈ Js.split s sep -> String.length x <= String.length s.
Proof.
  revert x. induction s as [|c s IH]; simpl; intros x Hx.
  - apply list_elem_of_singleton in Hx as ->. done.
  - destruct (Ascii.eqb c sep).
    + apply elem_of_cons in Hx as [->|Hx]; [simpl; lia|].
      specialize (IH x Hx). lia.
    + destruct (Js.split s sep) as [|y ys] eqn:Hs.
      * apply list_elem_of_singleton in Hx as ->.
        by apply split_nonempty in Hs.
      * apply elem_of_cons in Hx as [->|Hx].
        -- specialize (IH y (list_elem_of_here _ _)). simpl. lia.
        -- specialize (IH x (list_elem_of_further _ _ _ Hx)). lia.
Qed.

Lemma last_elem_or_default {A} (l : list A) (d : A) :
  List.last l d = d \/ List.last l d ∈ l.
Proof.
  induction l as [|x l IH]; [by left|]. right.
  destruct l as [|y l]; [apply list_elem_of_here|].
  destruct IH as [Hd|Hin].
  - change (List.last (x :: y :: l) d) with (List.last (y :: l) d).
    apply list_elem_of_further.
    clear Hd. revert y. induction l as [|z l IHl]; intros y.
    + apply list_elem_of_here.
    + change (List.last (y :: z :: l) d) with (List.last (z :: l) d).
      apply list_elem_of_further, IHl.
  - change (List.last (x :: y :: l) d) with (List.last (y :: l) d).
    by apply list_elem_of_further.
Qed.

Lemma base_length (p : string) : String.length (Path.base p) <= String.length p.
Proof.
  unfold Path.base.
  destruct (last_elem_or_default
              (List.filter Js.truthy (Js.split p Path.slash)) EmptyString)
    as [-> | Hin]; [simpl; lia|].
  apply list_elem_of_In, filter_In in Hin as [Hin _].
  apply list_elem_of_In in Hin. by eapply split_elem_length.
Qed.

Lemma eqb_length_differs (a b : string) :
  String.length a <> String.length b -> String.eqb a b = false.
Proof. intros Hlen. apply String.eqb_neq. congruence. Qed.

(** [basename(p, extname(p))] and [extname(p)] split the last component. *)
Lemma basename_extname (p : string) :
  Path.basename p (Path.extname p) +:+ Path.extname p = Path.base p.
Proof.
  unfold Path.basename, Path.extname.
  pose proof (base_length p) as Hbp. set (b := Path.base p) in *.
  destruct (Js.lastIndexOf b Path.dot) as [[|i]|] eqn:Hdot;
    try (simpl; apply append_empty_r).
  destruct (String.eqb b ".."); [simpl; apply append_empty_r|].
  apply lastIndexOf_lt in Hdot.
  set (ext := Js.slice_from (S i) b).
  assert (String.length ext = String.length b - S i) as Hlen
    by apply length_slice_from.
  assert (Js.truthy ext = true) as -> by (destruct ext; simpl in *; [lia|done]).
  assert ((String.length ext <=? String.length p)%nat = true) as ->
    by (apply Nat.leb_le; lia).
  rewrite (eqb_length_differs ext p) by lia. simpl.
  assert (Js.endsWith b ext = true) as ->.
  { unfold Js.endsWith. rewrite Hlen.
    replace (String.length b - (String.length b - S i)) with (S i) by lia.
    fold ext. rewrite String.eqb_refl, andb_true_r. apply Nat.leb_le. lia. }
  rewrite (eqb_length_differs b ext) by lia.
  rewrite Hlen.
  replace (String.length b - (String.length b - S i)) with (S i) by lia.
  apply substring0_slice_from.
Qed.

Section LocalIdentifier.
Context `{Env}.

(** X23: the identifier of a local locator.  For every non-empty locator
    that does not start with "http", [extractPublicId] returns normally,
    logs nothing, and its identifier followed by the extension of the
    locator is exactly the last component of the path: the file name is
    split into identifier and extension, nothing is lost. *)
Theorem local_identifier_plus_extension (u : string) (w : World) :
  Js.truthy u = true -> Js.startsWith u "http" = false ->
  exists i,
    Cloudinary.extractPublicId (Some u) w = (Normal (Some i), w)
    /\ i +:+ Path.extname u = Path.base u.
Proof.
  intros Hu Hlocal. rewrite extractPublicId_eq, Hu, Hlocal. simpl.
  eexists. split; [reflexivity|apply basename_extname].
Qed.

End LocalIdentifier.

(** * Further properties: the authentication middleware *)

Lemma split_app_any (a b : string) (sep : ascii) :
  Js.split (a +:+ String sep b) sep
  = (Js.split a sep ++ Js.split b sep)%list.
Proof.
  induction a as [|c a IH].
  - simpl. by rewrite Ascii.eqb_refl.
  - change (String c a +:+ String sep b) with (String c (a +:+ String sep b)).
    simpl. destruct (Ascii.eqb c sep).
    + by rewrite IH.
    + rewrite IH. destruct (Js.split a sep) as [|x xs] eqn:Ha; [|done].
      by apply split_nonempty in Ha.
Qed.

Lemma split_without_sep (s : string) (sep : ascii) :
  Js.all_chars (fun c => negb (Ascii.eqb c sep)) s = true ->
  Js.split s sep = [s].
Proof.
  induction s as [|c s IH]; simpl; [done|].
  intros [Hc Hs]%andb_true_iff. apply negb_true_iff in Hc.
  by rewrite Hc, IH.
Qed.

Lemma truthy_append_char (a b : string) (c : ascii) :
  Js.truthy (a +:+ String c b) = true.
Proof. by destruct a. Qed.

(** X24: requests the middleware turns away with 401.  Without an
    Authorization header, with a header of one word only (a bare token
    or a bare scheme), or with two spaces after the scheme, the answer is
    401 "Access token required": the token is not verified, the route is
    not run and nothing changes. *)
Theorem auth_rejects_missing_token (env_secret : option string)
    (verify : string -> string -> option ObjectId)
    (headers : gmap string string)
    (next : ObjectId -> World -> Response * World) (w : World) :
  let denied := (Json 401 (ErrorBody "Access token required"), w) in
  (headers !! "authorization" = None -> headers !! "Authorization" = None ->
   Auth.guarded env_secret verify headers next w = denied)
  /\ (forall h,
         headers !! "authorization" = Some h -> Js.truthy h = true ->
         Js.all_chars (fun c => negb (Ascii.eqb c " ")) h = true ->
         Auth.guarded env_secret verify headers next w = denied)
  /\ (forall scheme rest,
         headers !! "authorization" = Some (scheme +:+ "  " +:+ rest) ->
         Js.all_chars (fun c => negb (Ascii.eqb c " ")) scheme = true ->
         Auth.guarded env_secret verify headers next w = denied).
Proof.
  intros denied. unfold Auth.guarded, Auth.authenticateToken, Auth.token_of,
    Auth.or_else.
  split; [|split].
  - by intros -> ->.
  - intros h -> Hh Hword. simpl. rewrite Hh. simpl.
    by rewrite (split_without_sep _ _ Hword), ?Hh.
  - intros scheme rest -> Hword.
    change (scheme +:+ "  " +:+ rest)
      with (scheme +:+ String " " (EmptyString +:+ String " " rest)).
    cbv beta iota delta [Js.truthy_opt from_option id].
    rewrite !truthy_append_char.
    rewrite !split_app_any, (split_without_sep _ _ Hword). done.
Qed.

(** X25: what the middleware accepts.  For a header made of one word, one
    space and a token without spaces, the token is verified under
    [JWT_SECRET] (or under 'your-secret-key' when that is unset or empty):
    when verification fails the answer is 403 "Invalid or expired token"
    and nothing changes; when it succeeds the route runs as the decoded
    user.  The first word is never looked at: any scheme will do. *)
Theorem auth_verifies_second_word (env_secret : option string)
    (verify : string -> string -> option ObjectId)
    (headers : gmap string string)
    (next : ObjectId -> World -> Response * World) (w : World)
    (scheme token : string) :
  headers !! "authorization" = Some (scheme +:+ " " +:+ token) ->
  Js.all_chars (fun c => negb (Ascii.eqb c " ")) scheme = true ->
  Js.all_chars (fun c => negb (Ascii.eqb c " ")) token = true ->
  Js.truthy token = true ->
  Auth.guarded env_secret verify headers next w
  = match verify token
            (match env_secret with
             | Some s => if Js.truthy s then s else "your-secret-key"
             | None => "your-secret-key"
             end) with
    | Some userId => next userId w
    | None => (Json 403 (ErrorBody "Invalid or expired token"), w)
    end.
Proof.
  intros Hh Hscheme Htoken Htruthy.
  unfold Auth.guarded, Auth.authenticateToken, Auth.token_of, Auth.or_else.
  rewrite Hh.
  change (scheme +:+ " " +:+ token) with (scheme +:+ String " " token).
  cbv beta iota delta [Js.truthy_opt from_option id].
  rewrite !truthy_append_char.
  rewrite split_app_any, (split_without_sep _ _ Hscheme),
    (split_without_sep _ _ Htoken).
  simpl. rewrite Htruthy. simpl.
  unfold Auth.JWT_SECRET. by destruct env_secret as [s|]; simpl;
    [destruct (Js.truthy s)|]; destruct (verify _ _).
Qed.

(** * Further properties: the CORS origin callback *)

(** X26: the origin callback never refuses.  Whatever [FRONTEND_URL] is,
    a request without origin, from a listed origin or from an origin that
    is not on the list is allowed all the same. *)
Theorem cors_allows_every_origin (FRONTEND_URL origin : option string) :
  Cors.origin_allowed FRONTEND_URL origin = true.
Proof.
  unfold Cors.origin_allowed.
  destruct (negb _); [done|]. by destruct (Js.arr_indexOf _ _).
Qed.

(** * Further properties: where the avatar blob lies and what is unlinked *)

Lemma all_chars_app (f : ascii -> bool) (a b : string) :
  Js.all_chars f (a +:+ b) = Js.all_chars f a && Js.all_chars f b.
Proof.
  induction a as [|c a IH]; [done|].
  change (String c a +:+ b) with (String c (a +:+ b)). simpl.
  by rewrite IH, andb_assoc.
Qed.

Lemma all_chars_slice_from (f : ascii -> bool) (n : nat) (s : string) :
  Js.all_chars f s = true -> Js.all_chars f (Js.slice_from n s) = true.
Proof.
  revert s. induction n as [|n IH]; intros [|c s]; simpl; try done.
  intros [_ Hs]%andb_true_iff. by apply IH.
Qed.

Lemma all_chars_digit (f : ascii -> bool) :
  (forall d, f (pretty_N_char d) = true) ->
  forall x s, Js.all_chars f s = true -> Js.all_chars f (pretty_N_go x s) = true.
Proof.
  intros Hdigit x. induction (N.lt_wf_0 x) as [x _ IH]. intros s Hs.
  destruct (decide (x = 0)%N) as [->|Hx]; [by rewrite pretty_N_go_0|].
  rewrite pretty_N_go_step by lia. apply IH.
  - apply N.div_lt; lia.
  - simpl. by rewrite Hdigit, Hs.
Qed.

Lemma num_to_string_chars (f : ascii -> bool) (n : N) :
  (forall d, f (pretty_N_char d) = true) ->
  Js.all_chars f (Js.num_to_string n) = true.
Proof.
  intros Hdigit. unfold Js.num_to_string, pretty, pretty_N.
  destruct (decide (n = 0)%N).
  - simpl. rewrite andb_true_r. apply (Hdigit 0%N).
  - by apply all_chars_digit.
Qed.

Lemma digit_no_slash (d : N) :
  negb (Ascii.eqb (pretty_N_char d) Path.slash) = true.
Proof. unfold pretty_N_char. by repeat case_match. Qed.

Lemma split_segments_no_slash (s : string) :
  Forall (fun x => no_slash x = true) (Js.split s Path.slash).
Proof.
  induction s as [|c s IH]; simpl; [by repeat constructor|].
  destruct (Ascii.eqb c Path.slash) eqn:Hc; [by constructor|].
  destruct (Js.split s Path.slash) as [|x xs].
  - constructor; [|constructor]. unfold no_slash. simpl. by rewrite Hc.
  - apply Forall_cons in IH as [Hx Hxs]. constructor; [|done].
    unfold no_slash in *. simpl. by rewrite Hc, Hx.
Qed.

Lemma base_no_slash (p : string) : no_slash (Path.base p) = true.
Proof.
  unfold Path.base.
  destruct (last_elem_or_default
              (List.filter Js.truthy (Js.split p Path.slash)) EmptyString)
    as [-> | Hin]; [done|].
  apply list_elem_of_In, filter_In in Hin as [Hin _].
  apply list_elem_of_In in Hin.
  pose proof (split_segments_no_slash p) as Hall.
  rewrite Forall_forall in Hall. by apply Hall.
Qed.

Lemma extname_no_slash (p : string) : no_slash (Path.extname p) = true.
Proof.
  unfold Path.extname.
  destruct (Js.lastIndexOf _ _) as [[|i]|]; try done.
  destruct (String.eqb _ _); [done|].
  apply all_chars_slice_from, base_no_slash.
Qed.

Lemma split_join_no_slash (l : list string) :
  l <> [] -> Forall (fun x => no_slash x = true) l ->
  Js.split (Js.join l "/") Path.slash = l.
Proof.
  induction l as [|x l IH]; [done|]. intros _ Hall.
  apply Forall_cons in Hall as [Hx Hl].
  destruct l as [|y l].
  - simpl. by apply split_without_sep.
  - rewrite join_cons by done. rewrite split_app_sep.
    rewrite (split_without_sep x) by done. by rewrite IH.
Qed.

Lemma normalize_segments_app (l1 l2 acc : list string) :
  Path.normalize_segments (l1 ++ l2) acc
  = Path.normalize_segments l2 (rev (Path.normalize_segments l1 acc)).
Proof.
  revert acc. induction l1 as [|s l1 IH]; intros acc; simpl.
  - by rewrite rev_involutive.
  - destruct (_ || _); [apply IH|]. destruct (String.eqb s ".."); apply IH.
Qed.

Lemma normalize_segments_proper (l acc : list string) :
  Forall (fun x => proper_segment x = true) l ->
  Path.normalize_segments l acc = (rev acc ++ l)%list.
Proof.
  revert acc. induction l as [|s l IH]; intros acc Hall; simpl.
  - by rewrite app_nil_r.
  - apply Forall_cons in Hall as [Hs Hl]. unfold proper_segment in Hs.
    apply andb_true_iff in Hs as [[[Ht _]%andb_true_iff Hd]%andb_true_iff Hdd].
    unfold Js.truthy in Ht.
    apply negb_true_iff in Ht, Hd, Hdd. rewrite Ht, Hd, Hdd. simpl.
    rewrite IH by done. simpl. by rewrite <- app_assoc.
Qed.

Lemma normalize_segments_keep_proper (l acc : list string) :
  Forall (fun x => proper_segment x = true) acc ->
  Forall (fun x => no_slash x = true) l ->
  Forall (fun x => proper_segment x = true) (Path.normalize_segments l acc).
Proof.
  revert acc. induction l as [|s l IH]; intros acc Hacc Hl; simpl.
  - by apply Forall_rev.
  - apply Forall_cons in Hl as [Hs Hl].
    destruct (String.eqb s EmptyString) eqn:He; simpl; [by apply IH|].
    destruct (String.eqb s ".") eqn:Hd; simpl; [by apply IH|].
    destruct (String.eqb s "..") eqn:Hdd.
    + apply IH; [|done]. destruct acc; [done|].
      by apply Forall_cons in Hacc as [_ ?].
    + apply IH; [|done]. constructor; [|done].
      unfold proper_segment, Js.truthy. by rewrite He, Hs, Hd, Hdd.
Qed.

Lemma proper_no_slash (l : list string) :
  Forall (fun x => proper_segment x = true) l ->
  Forall (fun x => no_slash x = true) l.
Proof.
  intros Hall. eapply Forall_impl; [exact Hall|].
  intros x Hx. simpl in Hx. unfold proper_segment in Hx.
  by apply andb_true_iff in Hx as [[[_ ?]%andb_true_iff _]%andb_true_iff _].
Qed.

(** No separator at the end of a path that ends in a proper segment. *)
Lemma endsWith_slash_cons (c : ascii) (s : string) :
  s <> EmptyString ->
  Js.endsWith (String c s) "/" = Js.endsWith s "/".
Proof.
  intros Hs. unfold Js.endsWith. destruct s as [|d s]; [done|].
  simpl. by rewrite Nat.sub_0_r.
Qed.

Lemma endsWith_slash_segment (x : string) :
  no_slash x = true -> Js.endsWith x "/" = false.
Proof.
  induction x as [|c x IHx]; [done|]. intros Hn.
  unfold no_slash in Hn. simpl in Hn.
  apply andb_true_iff in Hn as [Hc Hx]. apply negb_true_iff in Hc.
  destruct x as [|d x].
  - unfold Js.endsWith. simpl. unfold Path.slash in Hc. by rewrite Hc.
  - rewrite endsWith_slash_cons by done. by apply IHx.
Qed.

Lemma endsWith_slash_proper (a x : string) :
  Js.truthy x = true -> no_slash x = true ->
  Js.endsWith (a +:+ x) "/" = false.
Proof.
  intros Ht Hn. induction a as [|c a IH].
  - by apply endsWith_slash_segment.
  - change (String c a +:+ x) with (String c (a +:+ x)).
    rewrite endsWith_slash_cons; [done|]. by destruct a, x.
Qed.

Lemma join_snoc (l : list string) (x : string) :
  l <> [] ->
  Js.join (l ++ [x]) "/" = Js.join l "/" +:+ String Path.slash x.
Proof.
  induction l as [|y l IH]; [done|]. intros _.
  destruct l as [|z l].
  - simpl app. by rewrite join_cons.
  - change ((y :: z :: l) ++ [x])%list with (y :: ((z :: l) ++ [x]))%list.
    rewrite join_cons by done. rewrite IH by done.
    rewrite (join_cons y (z :: l)) by done.
    rewrite append_assoc. done.
Qed.

Lemma join_last_slash (l : list string) (a b : string) :
  l <> [] ->
  Js.join (l ++ [a +:+ String Path.slash b]) "/" = Js.join (l ++ [a; b]) "/".
Proof.
  intros Hl. rewrite join_snoc by done.
  change (l ++ [a; b])%list with (l ++ [a] ++ [b])%list.
  rewrite app_assoc, join_snoc by (by destruct l).
  rewrite join_snoc by done. by rewrite !append_assoc.
Qed.

Lemma segments_proper (d : string) :
  Forall (fun x => proper_segment x = true) (segments d).
Proof.
  apply normalize_segments_keep_proper; [constructor|].
  apply split_segments_no_slash.
Qed.

(** The segments of the back-end root: those of [d/..]. *)
Lemma root_proper (d : string) :
  Forall (fun x => proper_segment x = true) (rev (tl (rev (segments d)))).
Proof.
  apply Forall_rev.
  pose proof (Forall_rev (segments_proper d)) as Hrev.
  destruct (rev (segments d)); [done|]. by apply Forall_cons in Hrev as [_ ?].
Qed.

(** [path.join(d, '..', xs..., x)] for proper segments [xs] and [x]. *)
Lemma normalize_under_root (d : string) (xs : list string) (x : string) :
  Forall (fun s => proper_segment s = true) (xs ++ [x]) ->
  Path.normalize
    (Js.join (List.filter Js.truthy [d; ".."] ++ xs ++ [x]) "/")
  = "/" +:+ Js.join (rev (tl (rev (segments d))) ++ xs ++ [x]) "/".
Proof.
  intros Hall. set (root := rev (tl (rev (segments d)))).
  pose proof (proper_no_slash _ Hall) as Hns.
  assert (Path.normalize_segments
            (Js.split (Js.join (List.filter Js.truthy [d; ".."] ++ xs ++ [x])
                               "/") Path.slash) []
          = root ++ xs ++ [x])%list as Hsegs.
  { destruct d as [|c d'] eqn:Hd.
    - simpl List.filter. simpl app.
      rewrite split_join_no_slash by (by try constructor).
      simpl. by rewrite normalize_segments_proper.
    - simpl List.filter. rewrite <- Hd.
      change ([d; ".."] ++ xs ++ [x])%list with (d :: ".." :: xs ++ [x])%list.
      rewrite join_cons by done. rewrite split_app_sep.
      rewrite split_join_no_slash by (by try constructor).
      rewrite normalize_segments_app. simpl.
      rewrite normalize_segments_proper by done. by subst d. }
  unfold Path.normalize. rewrite Hsegs.
  destruct (root ++ xs ++ [x])%list as [|s0 l0] eqn:Hne.
  { apply app_eq_nil in Hne as [_ Hne]. by apply app_eq_nil in Hne as [_ ?]. }
  assert (Js.endsWith
            (Js.join (List.filter Js.truthy [d; ".."] ++ xs ++ [x]) "/") "/"
          = false) as ->.
  { rewrite app_assoc, join_snoc by (by destruct d).
    change (?a +:+ String Path.slash x)
      with (a +:+ (String Path.slash EmptyString +:+ x)).
    rewrite <- append_assoc.
    apply Forall_app in Hall as [_ Hx]. apply Forall_cons in Hx as [Hx _].
    unfold proper_segment in Hx.
    apply andb_true_iff in Hx as [[[Ht Hn]%andb_true_iff _]%andb_true_iff _].
    by apply endsWith_slash_proper. }
  by rewrite append_empty_r.
Qed.

Section BlobPaths.
Context `{Env}.

Lemma avatarsDir_eq :
  Cloudinary.avatarsDir
  = "/" +:+ Js.join (rev (tl (rev (segments dirname)))
                     ++ ["uploads"; "avatars"]) "/".
Proof.
  unfold Cloudinary.avatarsDir, Path.join.
  rewrite <- (normalize_under_root dirname ["uploads"] "avatars")
    by (by repeat constructor).
  f_equal. f_equal. simpl. by destruct (Js.truthy dirname).
Qed.

(** Where the multer stage writes an avatar of a proper name. *)
Lemma avatar_blob_path (name : string) :
  proper_segment name = true ->
  Path.join [Cloudinary.avatarsDir; name]
  = "/" +:+ Js.join (rev (tl (rev (segments dirname)))
                     ++ ["uploads"; "avatars"; name]) "/".
Proof.
  intros Hname. set (root := rev (tl (rev (segments dirname)))).
  pose proof (root_proper dirname) as Hroot. fold root in Hroot.
  assert (Hproper := Hname). unfold proper_segment in Hname.
  apply andb_true_iff in Hname as [[[Ht Hn]%andb_true_iff _]%andb_true_iff _].
  unfold Path.join. simpl List.filter.
  destruct (join_is_local [dirname; ".."; "uploads"; "avatars"]) as [Hdt _].
  fold Cloudinary.avatarsDir in Hdt. rewrite Hdt, Ht.
  rewrite join_cons by done. simpl Js.join. rewrite avatarsDir_eq. fold root.
  set (dir := Js.join (root ++ ["uploads"; "avatars"]) "/").
  assert (Forall (fun s => proper_segment s = true)
                 (root ++ ["uploads"; "avatars"])) as Hdir.
  { apply Forall_app. split; [done|]. by repeat constructor. }
  unfold Path.normalize.
  change (("/" +:+ dir) +:+ String Path.slash name)
    with (String Path.slash (dir +:+ String Path.slash name)).
  assert (Js.split (String Path.slash (dir +:+ String Path.slash name))
                   Path.slash
          = EmptyString :: (root ++ ["uploads"; "avatars"]) ++ [name])%list
    as ->.
  { simpl. rewrite split_app_sep. subst dir.
    rewrite split_join_no_slash;
      [|by destruct root|by apply proper_no_slash].
    by rewrite (split_without_sep name). }
  simpl Path.normalize_segments.
  rewrite normalize_segments_proper
    by (apply Forall_app; split; [done|by repeat constructor]).
  simpl rev. simpl app.
  destruct ((root ++ ["uploads"; "avatars"]) ++ [name])%list
    as [|s0 l0] eqn:Hne.
  { by apply app_eq_nil in Hne as [_ ?]. }
  rewrite <- Hne.
  change (String Path.slash (dir +:+ String Path.slash name))
    with (String Path.slash EmptyString
          +:+ (dir +:+ (String Path.slash EmptyString +:+ name))).
  rewrite <- !append_assoc.
  rewrite endsWith_slash_proper by done.
  rewrite append_empty_r. by rewrite <- app_assoc.
Qed.

(** The path the delete helper resolves for an avatar identifier. *)
Lemma avatar_delete_path (id : string) :
  proper_segment id = true ->
  Path.join [dirname; ".."; "uploads"; "password-manager/avatars/" +:+ id]
  = "/" +:+ Js.join (rev (tl (rev (segments dirname)))
                     ++ ["uploads"; "password-manager"; "avatars"; id]) "/".
Proof.
  intros Hid. unfold Path.join.
  rewrite <- (normalize_under_root dirname
                ["uploads"; "password-manager"; "avatars"] id)
    by (by repeat constructor).
  f_equal.
  assert (List.filter Js.truthy
            [dirname; ".."; "uploads"; "password-manager/avatars/" +:+ id]
          = (List.filter Js.truthy [dirname; ".."] ++ ["uploads"])
            ++ ["password-manager"
                +:+ String Path.slash ("avatars" +:+ String Path.slash id)])%list
    as -> by (simpl; by destruct (Js.truthy dirname)).
  set (F := List.filter Js.truthy [dirname; ".."]).
  assert (F <> []) as HF by (subst F; simpl; by destruct (Js.truthy dirname)).
  rewrite (join_last_slash (F ++ ["uploads"]) "password-manager"
             ("avatars" +:+ String Path.slash id)) by (by destruct F).
  replace ((F ++ ["uploads"]) ++ ["password-manager";
                                  "avatars" +:+ String Path.slash id])%list
    with ((F ++ ["uploads"; "password-manager"])
          ++ ["avatars" +:+ String Path.slash id])%list
    by (by rewrite <- !app_assoc).
  rewrite (join_last_slash (F ++ ["uploads"; "password-manager"]) "avatars" id)
    by (by destruct F).
  by rewrite <- !app_assoc.
Qed.

(** The helper never resolves the path of a blob in the avatars
    directory. *)
Lemma avatar_paths_differ (name id : string) :
  proper_segment name = true -> proper_segment id = true ->
  Path.join [Cloudinary.avatarsDir; name]
  <> Path.join [dirname; ".."; "uploads"; "password-manager/avatars/" +:+ id].
Proof.
  intros Hname Hid. rewrite avatar_blob_path, avatar_delete_path by done.
  set (root := rev (tl (rev (segments dirname)))).
  pose proof (root_proper dirname) as Hroot. fold root in Hroot.
  change ("/" +:+ ?s) with (String Path.slash s).
  intros Heq. injection Heq as Heq.
  apply (f_equal (fun s => Js.split s Path.slash)) in Heq.
  rewrite !split_join_no_slash in Heq;
    try (by destruct root);
    try (apply proper_no_slash, Forall_app; split;
         [done|by repeat constructor]).
  apply app_inv_head in Heq. discriminate.
Qed.

End BlobPaths.

(** ** What the avatar routes unlink *)

Lemma prefix_char_cons (c x : ascii) (r : string) :
  String.prefix (String c EmptyString) (String x r)
  = if ascii_dec c x then true else false.
Proof.
  change (String.prefix (String c EmptyString) (String x r))
    with (match ascii_dec c x with
          | left _ => String.prefix EmptyString r
          | right _ => false
          end).
  destruct (ascii_dec c x); [by destruct r|done].
Qed.

Lemma startsWith_dot_cons (c : ascii) (s : string) :
  Js.startsWith (String c s) "." = Ascii.eqb "."%char c.
Proof.
  unfold Js.startsWith. rewrite prefix_char_cons.
  destruct (ascii_dec "." c) as [<-|Hne]; [done|].
  symmetry. by apply Ascii.eqb_neq.
Qed.

Lemma includes_app_char (a b : string) (c : ascii) :
  Js.includes (a +:+ String c b) (String c EmptyString) = true.
Proof.
  unfold Js.includes. induction a as [|x a IH].
  - change (EmptyString +:+ String c b) with (String c b).
    change (Js.indexOf (String c b) (String c EmptyString))
      with (if String.prefix (String c EmptyString) (String c b)
            then Some 0
            else S <$> Js.indexOf b (String c EmptyString)).
    rewrite prefix_char_cons. by destruct (ascii_dec c c).
  - change (String x a +:+ String c b) with (String x (a +:+ String c b)).
    change (Js.indexOf (String x (a +:+ String c b)) (String c EmptyString))
      with (if String.prefix (String c EmptyString)
                             (String x (a +:+ String c b))
            then Some 0
            else S <$> Js.indexOf (a +:+ String c b) (String c EmptyString)).
    destruct (String.prefix _ _); [done|].
    by destruct (Js.indexOf _ _).
Qed.

(** A segment that does not open with a dot is proper as soon as it is
    non-empty and free of slashes. *)
Lemma proper_without_leading_dot (s : string) :
  Js.truthy s = true -> no_slash s = true -> Js.startsWith s "." = false ->
  proper_segment s = true.
Proof.
  intros Ht Hn Hd. unfold proper_segment. rewrite Ht, Hn.
  destruct s as [|c s]; [done|]. rewrite startsWith_dot_cons in Hd.
  simpl. rewrite Ascii.eqb_sym in Hd. by rewrite Hd.
Qed.

(** The identifier of a local locator whose file name does not open with a
    dot. *)
Lemma local_identifier_proper (u : string) :
  Js.startsWith (Path.base u) "." = false ->
  Js.truthy (Path.basename u (Path.extname u)) = true ->
  proper_segment (Path.basename u (Path.extname u)) = true.
Proof.
  intros Hdot Ht. pose proof (basename_extname u) as Hsplit.
  pose proof (base_no_slash u) as Hns. rewrite <- Hsplit in Hns, Hdot.
  unfold no_slash in Hns. rewrite all_chars_app in Hns.
  apply andb_true_iff in Hns as [Hns _].
  apply proper_without_leading_dot; [done|done|].
  destruct (Path.basename u (Path.extname u)) as [|c i]; [done|].
  change (String c i +:+ Path.extname u)
    with (String c (i +:+ Path.extname u)) in Hdot.
  by rewrite startsWith_dot_cons in *.
Qed.

(** The last component of the locator the avatar route stores. *)
Lemma base_of_avatar_locator (name : string) :
  Js.truthy name = true -> no_slash name = true ->
  Path.base ("/uploads/avatars/" +:+ name) = name.
Proof.
  intros Ht Hn. unfold Path.base.
  change ("/uploads/avatars/" +:+ name)
    with ("/uploads/avatars" +:+ String Path.slash name).
  rewrite split_app_sep, (split_without_sep name) by done.
  rewrite List.filter_app. simpl. by rewrite Ht.
Qed.

Lemma generated_name_proper (c : ascii) (U : string) (now rnd : N)
    (ext : string) :
  no_slash (String c U) = true -> Ascii.eqb "."%char c = false ->
  no_slash ext = true ->
  let name := String c U +:+ "-"
              +:+ (Js.num_to_string now +:+ "-" +:+ Js.num_to_string rnd)
              +:+ ext in
  Js.truthy name = true /\ no_slash name = true
  /\ Js.startsWith name "." = false.
Proof.
  intros HU Hc Hext name. split; [reflexivity|]. split.
  - subst name. unfold no_slash in *. rewrite !all_chars_app, HU, Hext.
    by rewrite !(num_to_string_chars _ _ digit_no_slash).
  - subst name. change (String c U +:+ ?r) with (String c (U +:+ r)).
    by rewrite startsWith_dot_cons.
Qed.

(** The name the avatar storage generates for an id without slash that
    does not open with a dot. *)
Lemma avatar_name_proper (uid : ObjectId) (now rnd : N) (part : Multer.Part) :
  no_slash uid = true -> Js.startsWith uid "." = false ->
  let name := Cloudinary.localAvatarStorage_filename uid now rnd part in
  Js.truthy name = true /\ no_slash name = true
  /\ Js.startsWith name "." = false.
Proof.
  intros Hns Hdot name. subst name.
  unfold Cloudinary.localAvatarStorage_filename, Cloudinary.uniqueSuffix.
  destruct uid as [|c s].
  - apply (generated_name_proper "u" "ser"); [done|done|].
    apply extname_no_slash.
  - rewrite startsWith_dot_cons in Hdot.
    apply (generated_name_proper c s); [done|done|].
    apply extname_no_slash.
Qed.

Section Unlinked.
Context `{Env}.

(** For an identifier below a folder, the helper leaves every path other
    than the resolved one as it was. *)
Lemma deleteFromCloudinary_elsewhere (publicId p : string) (w : World) :
  Js.startsWith publicId "uploads/" = false ->
  Js.includes publicId "/" = true ->
  p <> Path.join [dirname; ".."; "uploads"; publicId] ->
  disk (snd (Cloudinary.deleteFromCloudinary publicId w)) !! p = disk w !! p.
Proof.
  intros Hs Hi Hp.
  unfold Cloudinary.deleteFromCloudinary, Fs.existsSync, Fs.unlinkSync. run.
  rewrite Hs, Hi. simpl.
  destruct (disk w !! Path.join [dirname; ".."; "uploads"; publicId])
    as [[data [|]|]|] eqn:Hlook; simpl; rewrite ?Hlook; simpl; try done.
  by rewrite lookup_delete_ne.
Qed.

(** The clean-up block of the avatar routes on a local locator: whatever
    it unlinks is no file of the avatars directory. *)
Lemma best_effort_delete_spares_avatars (what u : string) (w : World) :
  Js.truthy u = true -> Js.startsWith u "http" = false ->
  Js.startsWith (Path.base u) "." = false ->
  exists w',
    best_effort_delete "password-manager/avatars/" what (Some u) w
    = (Normal tt, w')
    /\ same_records w w'
    /\ forall name, proper_segment name = true ->
         disk w' !! Path.join [Cloudinary.avatarsDir; name]
         = disk w !! Path.join [Cloudinary.avatarsDir; name].
Proof.
  intros Hu Hlocal Hdot. unfold best_effort_delete, try_catch.
  erewrite bind_normal
    by (rewrite extractPublicId_eq, Hu, Hlocal; reflexivity).
  set (i := Path.basename u (Path.extname u)).
  change (Js.truthy_opt (Some i)) with (Js.truthy i).
  destruct (Js.truthy i) eqn:Hi.
  - destruct (deleteFromCloudinary_ok
                ("password-manager/avatars/" +:+ default EmptyString (Some i)) w)
      as (w' & evs & Hd & Hs & _).
    erewrite bind_normal by exact Hd. unfold ret.
    exists w'. split; [done|]. split; [done|]. intros name Hname.
    replace w' with
      (snd (Cloudinary.deleteFromCloudinary
              ("password-manager/avatars/" +:+ default EmptyString (Some i)) w))
      by (by rewrite Hd).
    apply deleteFromCloudinary_elsewhere.
    + reflexivity.
    + apply (includes_app_char "password-manager/avatars" i Path.slash).
    + apply avatar_paths_differ; [done|]. by apply local_identifier_proper.
  - exists w. by unfold ret.
Qed.

(** X27: deleting a locally stored avatar unlinks nothing of the avatars
    directory.  For a user whose locator is a local path with a file name
    that does not open with a dot, the route answers 200, the user is left
    without locator, and every file directly in the avatars directory, the
    blob the upload wrote included, is on the disk as before. *)
Theorem avatar_delete_leaves_avatar_files (w : World) (uid : ObjectId)
    (user : UserDoc.t) (u : string) :
  List.find (fun v => String.eqb (UserDoc._id v) uid) (users w) = Some user ->
  UserDoc.avatar user = Some u ->
  Js.truthy u = true -> Js.startsWith u "http" = false ->
  Js.startsWith (Path.base u) "." = false ->
  exists w',
    UserRoutes.delete_avatar uid w
    = (Json 200 (MessageBody "Avatar deleted successfully"), w')
    /\ List.find (fun v => String.eqb (UserDoc._id v) uid) (users w')
       = Some (UserDoc.mk uid None)
    /\ forall name, proper_segment name = true ->
         disk w' !! Path.join [Cloudinary.avatarsDir; name]
         = disk w !! Path.join [Cloudinary.avatarsDir; name].
Proof.
  intros Hfind Hav Hu Hlocal Hdot.
  pose proof (find_elem_of _ _ _ Hfind) as [_ Hid%String.eqb_eq].
  unfold UserRoutes.delete_avatar, route.
  erewrite bind_normal by apply findById_eq. rewrite Hfind, Hav.
  simpl Js.truthy_opt. rewrite Hu.
  destruct (best_effort_delete_spares_avatars
              "Error deleting avatar from Cloudinary:" u w Hu Hlocal Hdot)
    as (w1 & Hb & (Hp & Hd & Hus) & Hdisk).
  erewrite bind_normal;
    [|erewrite bind_normal by exact Hb; apply user_save_eq].
  cbn [UserDoc._id UserDoc.avatar]. unfold ret. rewrite Hus, Hid.
  eexists. split; [reflexivity|]. split; [|exact Hdisk].
  cbn [users]. eapply find_replace_first; [exact Hfind|].
  simpl. apply String.eqb_refl.
Qed.

(** X28: an avatar blob outlives its avatar.  A first upload (an image
    the filter accepts, smaller than 5 MB) followed by the delete route,
    for a user id without slash that does not open with a dot: both
    requests answer 200, the user ends without locator, and the uploaded
    bytes are still on the disk at the path the upload wrote them to. *)
Theorem avatar_upload_then_delete_keeps_blob (w : World) (uid : ObjectId)
    (part : Multer.Part) (now rnd : N) (user : UserDoc.t) :
  Multer.fieldname part = "avatar" ->
  Cloudinary.fileFilter part = None ->
  (Multer.size part < 5 * 1024 * 1024)%N ->
  List.find (fun u => String.eqb (UserDoc._id u) uid) (users w) = Some user ->
  Js.truthy_opt (UserDoc.avatar user) = false ->
  no_slash uid = true -> Js.startsWith uid "." = false ->
  let name := Cloudinary.localAvatarStorage_filename uid now rnd part in
  let target := Path.join [Cloudinary.avatarsDir; name] in
  let uploaded := UserRoutes.post_avatar uid (Some part) now rnd w in
  let deleted := UserRoutes.delete_avatar uid (snd uploaded) in
  fst uploaded
  = Json 200 (AvatarBody "Avatar uploaded successfully"
                         ("/uploads/avatars/" +:+ name))
  /\ fst deleted = Json 200 (MessageBody "Avatar deleted successfully")
  /\ List.find (fun u => String.eqb (UserDoc._id u) uid) (users (snd deleted))
     = Some (UserDoc.mk uid None)
  /\ disk (snd deleted) !! target = Some (File (Multer.data part) true).
Proof.
  intros Hfield Hfilter Hsize Hfind Hnone Hns Hdot name target uploaded deleted.
  pose proof (find_elem_of _ _ _ Hfind) as [_ Hid%String.eqb_eq].
  destruct (avatar_name_proper uid now rnd part Hns Hdot)
    as (Hname_t & Hname_s & Hname_d). fold name in Hname_t, Hname_s, Hname_d.
  assert (uploaded
          = (Json 200 (AvatarBody "Avatar uploaded successfully"
                                  ("/uploads/avatars/" +:+ name)),
             mkWorld (passwords w) (documents w)
               (replace_first (fun v => String.eqb (UserDoc._id v) uid)
                  (UserDoc.mk uid (Some ("/uploads/avatars/" +:+ name)))
                  (users w))
               (<[target := File (Multer.data part) true]> (disk w))
               (trace w ++ [BlobWritten target;
                            UserSaved uid
                              (Some ("/uploads/avatars/" +:+ name))])))
    as Hup.
  { subst uploaded. unfold UserRoutes.post_avatar, route.
    erewrite bind_normal by (by apply uploadAvatar_accepts).
    unfold UserRoutes.post_avatar_handler.
    erewrite bind_normal by apply findById_eq.
    cbn [users]. rewrite Hfind, Hnone.
    erewrite bind_normal by reflexivity.
    erewrite bind_normal by apply user_save_eq.
    cbn [Multer.path Multer.filename UserDoc._id UserDoc.avatar].
    fold name. fold target.
    destruct (join_is_local [Cloudinary.avatarsDir; name]) as [_ Hl].
    fold target in Hl. rewrite Hl, andb_false_r.
    unfold ret. cbn [passwords documents users disk trace]. rewrite Hid.
    by rewrite <- app_assoc. }
  split; [by rewrite Hup|]. subst deleted. rewrite Hup. cbn [snd].
  set (w1 := mkWorld _ _ _ _ _).
  assert (List.find (fun v => String.eqb (UserDoc._id v) uid) (users w1)
          = Some (UserDoc.mk uid (Some ("/uploads/avatars/" +:+ name))))
    as Hfind1.
  { subst w1. cbn [users]. eapply find_replace_first; [exact Hfind|].
    simpl. apply String.eqb_refl. }
  assert (Js.startsWith ("/uploads/avatars/" +:+ name) "http" = false)
    as Hlocal by reflexivity.
  destruct (best_effort_delete_spares_avatars
              "Error deleting avatar from Cloudinary:"
              ("/uploads/avatars/" +:+ name) w1)
    as (w2 & Hb & (Hp & Hd & Hus) & Hdisk).
  { done. }
  { done. }
  { by rewrite base_of_avatar_locator. }
  unfold UserRoutes.delete_avatar, route.
  erewrite bind_normal by apply findById_eq. rewrite Hfind1.
  cbn [UserDoc.avatar UserDoc._id]. simpl Js.truthy_opt.
  change (Js.truthy ("/uploads/avatars/" +:+ name)) with true.
  erewrite bind_normal;
    [|erewrite bind_normal by exact Hb; apply user_save_eq].
  cbn [UserDoc._id UserDoc.avatar]. unfold ret. cbn [fst snd users disk].
  split; [done|]. split.
  - rewrite Hus. eapply find_replace_first; [exact Hfind1|].
    simpl. apply String.eqb_refl.
  - unfold target. rewrite Hdisk
      by (by apply proper_without_leading_dot).
    subst w1. cbn [disk]. by rewrite lookup_insert_eq.
Qed.

(** X29: replacing a local avatar removes no avatar file.  When the user
    (an id without slash that does not open with a dot) already has a
    local locator whose file name does not open with a dot, the upload of
    an image the filter accepts, smaller than 5 MB, answers 200 with the
    new locator, writes the new blob, and leaves every other file directly
    in the avatars directory, the replaced blob included, on the disk. *)
Theorem avatar_replacement_keeps_old_blob (w : World) (uid : ObjectId)
    (part : Multer.Part) (now rnd : N) (user : UserDoc.t) (u : string) :
  Multer.fieldname part = "avatar" ->
  Cloudinary.fileFilter part = None ->
  (Multer.size part < 5 * 1024 * 1024)%N ->
  List.find (fun v => String.eqb (UserDoc._id v) uid) (users w) = Some user ->
  UserDoc.avatar user = Some u ->
  Js.truthy u = true -> Js.startsWith u "http" = false ->
  Js.startsWith (Path.base u) "." = false ->
  no_slash uid = true -> Js.startsWith uid "." = false ->
  let name := Cloudinary.localAvatarStorage_filename uid now rnd part in
  let target := Path.join [Cloudinary.avatarsDir; name] in
  exists w',
    UserRoutes.post_avatar uid (Some part) now rnd w
    = (Json 200 (AvatarBody "Avatar uploaded successfully"
                            ("/uploads/avatars/" +:+ name)), w')
    /\ disk w' !! target = Some (File (Multer.data part) true)
    /\ forall old, proper_segment old = true ->
         Path.join [Cloudinary.avatarsDir; old] <> target ->
         disk w' !! Path.join [Cloudinary.avatarsDir; old]
         = disk w !! Path.join [Cloudinary.avatarsDir; old].
Proof.
  intros Hfield Hfilter Hsize Hfind Hav Hu Hlocal Hdot Hns Hud name target.
  destruct (avatar_name_proper uid now rnd part Hns Hud)
    as (Hname_t & Hname_s & Hname_d). fold name in Hname_t, Hname_s, Hname_d.
  unfold UserRoutes.post_avatar, route.
  erewrite bind_normal by (by apply uploadAvatar_accepts).
  fold name. fold target. set (w1 := mkWorld _ _ _ _ _).
  unfold UserRoutes.post_avatar_handler.
  erewrite bind_normal by apply findById_eq.
  change (users w1) with (users w). rewrite Hfind, Hav.
  simpl Js.truthy_opt. rewrite Hu.
  destruct (best_effort_delete_spares_avatars
              "Error deleting old avatar from Cloudinary:" u w1 Hu Hlocal Hdot)
    as (w2 & Hb & (Hp & Hd & Hus) & Hdisk).
  erewrite bind_normal by exact Hb.
  erewrite bind_normal by apply user_save_eq.
  cbn [Multer.path Multer.filename UserDoc._id UserDoc.avatar].
  destruct (join_is_local [Cloudinary.avatarsDir; name]) as [_ Hl].
  fold target in Hl. rewrite Hl, andb_false_r. unfold ret.
  eexists. split; [reflexivity|]. cbn [disk].
  split.
  - unfold target. rewrite Hdisk by (by apply proper_without_leading_dot).
    subst w1. cbn [disk]. by rewrite lookup_insert_eq.
  - intros old Hold Hne. rewrite Hdisk by done.
    subst w1. cbn [disk]. by rewrite lookup_insert_ne.
Qed.

End Unlinked.

(** * The further properties on the sample environment *)

(** Alice's two entries come back newest first. *)
Lemma password_list_reverses_creation_order_witness :
  ListRoutes.passwords_get Sample.alice Scenario.vault
  = (JsonArray 200 [Scenario.savings; Sample.bank], Scenario.vault).
Proof.
  apply (password_list_reverses_creation_order Scenario.vault Sample.alice).
  vm_compute. repeat constructor.
Defined.

(** Bob creates an entry and reads it back; Alice cannot. *)
Lemma password_create_then_get_witness :
  let body : gmap string string := {[ "title" := "Bank"; "password" := "x" ]} in
  let w' := snd (PasswordRoutes.post Sample.bob body Sample.id3 30
                   Sample.world) in
  let p := PasswordDoc.mk Sample.id3 Sample.bob "Bank" None "x" None "other"
                          None 30 30 in
  @PasswordRoutes.get Sample.env Sample.bob Sample.id3 w'
  = (Json 200 (PasswordBody p), w')
  /\ @PasswordRoutes.get Sample.env Sample.alice Sample.id3 w'
     = (password_not_found, w').
Proof.
  intros body w' p.
  destruct (@password_create_then_get Sample.env Sample.world w' Sample.bob
              body Sample.id3 30 Sample.id3 p)
    as (_ & _ & Hget & Hother); [vm_compute; reflexivity|reflexivity|].
  split; [exact Hget|]. apply Hother. discriminate.
Defined.

(** Alice renames her entry and reads it back. *)
Lemma password_update_then_get_witness :
  let body : gmap string string := {[ "title" := "Savings" ]} in
  let w' := snd (@PasswordRoutes.put Sample.env Sample.alice Sample.id1 body 40
                   Sample.world) in
  exists p',
    PasswordDoc.title p' = "Savings"
    /\ @PasswordRoutes.get Sample.env Sample.alice Sample.id1 w'
       = (Json 200 (PasswordBody p'), w').
Proof.
  intros body w'. eexists. split; [|
    apply (@password_update_then_get Sample.env Sample.world w' Sample.alice
             Sample.id1 body 40); vm_compute; reflexivity].
  reflexivity.
Defined.

(** Alice deletes her entry; it is gone. *)
Lemma password_delete_then_gone_witness :
  let w' := snd (@PasswordRoutes.delete Sample.env Sample.alice Sample.id1
                   Sample.world) in
  @PasswordRoutes.get Sample.env Sample.alice Sample.id1 w'
  = (password_not_found, w')
  /\ @PasswordRoutes.delete Sample.env Sample.alice Sample.id1 w'
     = (password_not_found, w').
Proof.
  intros w'.
  destruct (@password_delete_then_gone Sample.env Sample.world w' Sample.alice
              Sample.id1 sample_password_ids)
    as (Hget & Hdel & _); [vm_compute; reflexivity|].
  split; [exact Hget|exact Hdel].
Defined.

(** An id that is no ObjectId. *)
Lemma malformed_id_is_500_witness :
  @PasswordRoutes.get Sample.env Sample.alice "latest" Sample.world
  = (Json 500 (ExnBody (CastError "latest")), Sample.world)
  /\ @DocumentRoutes.delete Sample.env Sample.alice "latest" Sample.world
     = (Json 500 (ExnBody (CastError "latest")), Sample.world).
Proof.
  destruct (@malformed_id_is_500 Sample.env Sample.world Sample.alice "latest"
              ∅ 0 eq_refl) as (Hget & _ & _ & _ & _ & Hdel).
  split; [exact Hget|exact Hdel].
Defined.

(** A title of two spaces. *)
Lemma password_create_blank_title_witness :
  exists paths,
    PasswordRoutes.post Sample.bob {[ "title" := "  "; "password" := "x" ]}
      Sample.id3 30 Sample.world
    = (Json 500 (ExnBody (ValidationError paths)), Sample.world)
    /\ Js.startsWith paths "title" = true.
Proof.
  apply (password_create_blank_title Sample.world Sample.bob
           {[ "title" := "  "; "password" := "x" ]} Sample.id3 30 "  " "x");
    vm_compute; reflexivity.
Defined.

(** A part without file name, a file under the wrong field, and one of
    exactly 50 MB. *)
Lemma upload_rejections_witness :
  @UploadRoute.post_upload Sample.env Scenario.no_validators Sample.bob
    (Some (Multer.mkPart "file" EmptyString "application/pdf" 10 "bytes"))
    Scenario.id4 50 7 Sample.world
  = (Json 400 (ErrorBody "No file uploaded. Please select a file."),
     Sample.world)
  /\ @UploadRoute.post_upload Sample.env Scenario.no_validators Sample.bob
       (Some Scenario.portrait) Scenario.id4 50 7 Sample.world
     = (Json 400 (ErrorBody "Unexpected field"), Sample.world)
  /\ fst (@UploadRoute.post_upload Sample.env Scenario.no_validators
            Sample.bob
            (Some (Multer.mkPart "file" "film.mp4" "video/mp4"
                                 (50 * 1024 * 1024) "frames"))
            Scenario.id4 50 7 Sample.world)
     = Json 400 (ErrorBody "File size too large. Maximum size is 50MB").
Proof.
  destruct (@upload_rejections Sample.env Scenario.no_validators Sample.world
              Sample.bob Scenario.id4 50 7) as (_ & Hunnamed & Hfield & Hsize).
  split; [|split].
  - apply Hunnamed. reflexivity.
  - apply Hfield; [reflexivity|discriminate].
  - apply Hsize; [reflexivity|reflexivity|vm_compute; discriminate].
Defined.

(** Bob uploads a report. *)
Lemma upload_stores_local_document_witness :
  fst (@UploadRoute.post_upload Sample.env Scenario.no_validators Sample.bob
         (Some Scenario.report) Scenario.id4 50 7 Sample.world)
  = Json 201 (DocumentBody
                (DocumentDoc.mk Scenario.id4 Sample.bob "50-7.pdf" "report.pdf"
                   "/uploads/documents/50-7.pdf" "application/pdf" 4096 50)).
Proof.
  rewrite (@upload_stores_local_document Sample.env Scenario.no_validators
             Sample.world Sample.bob Scenario.report Scenario.id4 50 7);
    [vm_compute; reflexivity|reflexivity|reflexivity|reflexivity
    |reflexivity|reflexivity].
Defined.

(** The same upload under a schema that rejects the file type. *)
Lemma upload_orphans_blob_on_invalid_record_witness :
  exists paths w',
    @UploadRoute.post_upload Sample.env (fun _ => ["fileType"]) Sample.bob
      (Some Scenario.report) Scenario.id4 50 7 Sample.world
    = (Json 500 (ExnBody (ValidationError paths)), w')
    /\ documents w' = documents Sample.world
    /\ disk w' !! "/srv/backend/uploads/documents/50-7.pdf"
       = Some (File "pdf-data" true).
Proof.
  apply (@upload_orphans_blob_on_invalid_record Sample.env
           (fun _ => ["fileType"]) Sample.world Sample.bob Scenario.report
           Scenario.id4 50 7);
    [reflexivity|reflexivity|reflexivity|discriminate].
Defined.

(** Bob uploads a report and asks for it back. *)
Lemma upload_then_download_not_found_witness :
  let w' := snd (@UploadRoute.post_upload Sample.env Scenario.no_validators
                   Sample.bob (Some Scenario.report) Scenario.id4 50 7
                   Sample.world) in
  @DocumentRoutes.download Sample.env Sample.bob Scenario.id4 w'
  = (Json 404 (ErrorBody "File not found"), w')
  /\ disk w' !! "/srv/backend/uploads/documents/50-7.pdf"
     = Some (File "pdf-data" true).
Proof.
  intros w'.
  destruct (@upload_then_download_not_found Sample.env Scenario.no_validators
              Sample.world w' Sample.bob Scenario.report Scenario.id4 50 7
              Scenario.id4
              (DocumentDoc.mk Scenario.id4 Sample.bob "50-7.pdf" "report.pdf"
                 "/uploads/documents/50-7.pdf" "application/pdf" 4096 50))
    as (_ & Hdown & Hdisk);
    [reflexivity|vm_compute; discriminate|vm_compute; reflexivity
    |reflexivity|].
  split; [exact Hdown|exact Hdisk].
Defined.

(** Alice deletes her local document: the disk is as before. *)
Lemma document_delete_local_keeps_blob_witness :
  fst (@DocumentRoutes.delete Sample.env Sample.alice Sample.id3 Sample.world)
  = Json 200 (MessageBody "Document deleted successfully")
  /\ disk (snd (@DocumentRoutes.delete Sample.env Sample.alice Sample.id3
                  Sample.world))
     = Sample.files.
Proof.
  rewrite (@document_delete_local_keeps_blob Sample.env Sample.world
             Sample.alice Sample.id3 Sample.id3 Sample.local_doc);
    [split; reflexivity|reflexivity|reflexivity|reflexivity].
Defined.

(** An identifier below [documents/] removes the file it resolves to. *)
Lemma deleteFromCloudinary_removes_resolved_path_witness :
  disk (snd (@Cloudinary.deleteFromCloudinary Sample.env
               "documents/12-34.pdf" Sample.world))
  = delete "/srv/backend/uploads/documents/12-34.pdf" Sample.files.
Proof.
  rewrite (proj2 (@deleteFromCloudinary_removes_resolved_path Sample.env
                    "documents/12-34.pdf" Sample.world eq_refl)).
  vm_compute. reflexivity.
Defined.

Lemma deleteFromCloudinary_twice_witness :
  let w1 := snd (@Cloudinary.deleteFromCloudinary Sample.env
                   "documents/12-34.pdf" Sample.world) in
  disk (snd (@Cloudinary.deleteFromCloudinary Sample.env
               "documents/12-34.pdf" w1))
  = disk w1.
Proof.
  apply (@deleteFromCloudinary_twice Sample.env "documents/12-34.pdf"
           Sample.world eq_refl).
Defined.

(** [x.png] lies in both directories: the avatar goes, the document
    stays. *)
Lemma deleteFromCloudinary_prefers_avatar_witness :
  let w' := snd (@Cloudinary.deleteFromCloudinary Sample.env "x.png"
                   Scenario.twins) in
  disk w' !! "/srv/backend/uploads/avatars/x.png" = None
  /\ disk w' !! "/srv/backend/uploads/documents/x.png"
     = Some (File "document-bytes" true).
Proof.
  intros w'.
  destruct (@deleteFromCloudinary_prefers_avatar Sample.env "x.png"
              Scenario.twins "avatar-bytes" "document-bytes")
    as (_ & Ha & Hd);
    [reflexivity|reflexivity|vm_compute; discriminate
    |vm_compute; reflexivity|vm_compute; reflexivity|].
  split; [exact Ha|exact Hd].
Defined.

(** A part without file name, a text file named like an image, and an
    image of exactly 5 MB. *)
Lemma avatar_upload_rejections_witness :
  @UserRoutes.post_avatar Sample.env Sample.bob
    (Some (Multer.mkPart "avatar" EmptyString "image/png" 10 "pixels"))
    50 7 Sample.world
  = (Json 400 (ErrorBody "No file uploaded. Please select an image file."),
     Sample.world)
  /\ @UserRoutes.post_avatar Sample.env Sample.bob
       (Some (Multer.mkPart "avatar" "notes.png" "text/plain" 10 "text"))
       50 7 Sample.world
     = (Json 400 (ErrorBody "Only image files are allowed"), Sample.world)
  /\ fst (@UserRoutes.post_avatar Sample.env Sample.bob
            (Some (Multer.mkPart "avatar" "me.png" "image/png"
                                 (5 * 1024 * 1024) "pixels"))
            50 7 Sample.world)
     = Json 400 (ErrorBody "File size too large. Maximum size is 5MB").
Proof.
  destruct (@avatar_upload_rejections Sample.env Sample.world Sample.bob 50 7)
    as (_ & Hunnamed & Hfilter & Hsize).
  split; [|split].
  - apply Hunnamed. reflexivity.
  - apply (Hfilter _ "Only image files are allowed"); reflexivity.
  - apply Hsize; [reflexivity|reflexivity|vm_compute; discriminate].
Defined.

(** An avatar for Carol, who has no record. *)
Lemma avatar_upload_unknown_user_witness :
  let r := @UserRoutes.post_avatar Sample.env Scenario.carol
             (Some Scenario.portrait) 50 7 Sample.world in
  fst r = Json 404 (ErrorBody "User not found")
  /\ disk (snd r)
       !! "/srv/backend/uploads/avatars/cccccccccccccccccccccccc-50-7.png"
     = Some (File "png-data" true).
Proof.
  intros r. subst r.
  rewrite (@avatar_upload_unknown_user Sample.env Sample.world Scenario.carol
             Scenario.portrait 50 7);
    [split; vm_compute; reflexivity
    |reflexivity|reflexivity|reflexivity|reflexivity].
Defined.

(** Bob's first avatar. *)
Lemma avatar_first_upload_witness :
  fst (@UserRoutes.post_avatar Sample.env Sample.bob (Some Scenario.portrait)
         50 7 Sample.world)
  = Json 200 (AvatarBody "Avatar uploaded successfully"
                "/uploads/avatars/bbbbbbbbbbbbbbbbbbbbbbbb-50-7.png").
Proof.
  rewrite (@avatar_first_upload Sample.env Sample.world Sample.bob
             Scenario.portrait 50 7 Sample.bob_user);
    [vm_compute; reflexivity
    |reflexivity|reflexivity|reflexivity|reflexivity|reflexivity].
Defined.

(** Alice's avatar requests leave Bob's record alone. *)
Lemma avatar_routes_touch_own_record_only_witness :
  List.find (fun u => String.eqb (UserDoc._id u) Sample.bob)
    (users (snd (@UserRoutes.delete_avatar Sample.env Sample.alice
                   Sample.world)))
  = Some Sample.bob_user.
Proof.
  destruct (@avatar_routes_touch_own_record_only Sample.env Sample.world
              Sample.alice Sample.bob None 0 0)
    as (_ & _ & _ & _ & Hfind); [discriminate|].
  rewrite Hfind. reflexivity.
Defined.

Lemma avatar_locator_never_empty_witness :
  Forall (fun u => UserDoc.avatar u <> Some EmptyString)
    (users (snd (@UserRoutes.delete_avatar Sample.env Sample.alice
                   Sample.world))).
Proof.
  apply (@avatar_locator_never_empty Sample.env Sample.world Sample.alice
           None 0 0).
  repeat constructor; discriminate.
Defined.

(** The locator of Alice's avatar splits into identifier and extension. *)
Lemma local_identifier_plus_extension_witness :
  exists i,
    @Cloudinary.extractPublicId Sample.env
      (Some "/uploads/avatars/aaaaaaaaaaaaaaaaaaaaaaaa-5-6.png") Sample.world
    = (Normal (Some i), Sample.world)
    /\ i +:+ ".png" = "aaaaaaaaaaaaaaaaaaaaaaaa-5-6.png".
Proof.
  apply (@local_identifier_plus_extension Sample.env
           "/uploads/avatars/aaaaaaaaaaaaaaaaaaaaaaaa-5-6.png" Sample.world);
    reflexivity.
Defined.

(** No header at all, and a bare token without scheme. *)
Lemma auth_rejects_missing_token_witness :
  Auth.guarded (Some "s3cret") Scenario.verify ∅
    (fun uid => @PasswordRoutes.get Sample.env uid Sample.id1) Sample.world
  = (Json 401 (ErrorBody "Access token required"), Sample.world)
  /\ Auth.guarded (Some "s3cret") Scenario.verify
       {[ "authorization" := "alice-token" ]}
       (fun uid => @PasswordRoutes.get Sample.env uid Sample.id1) Sample.world
     = (Json 401 (ErrorBody "Access token required"), Sample.world).
Proof.
  split.
  - apply (proj1 (auth_rejects_missing_token (Some "s3cret") Scenario.verify ∅
                    (fun uid => @PasswordRoutes.get Sample.env uid Sample.id1)
                    Sample.world)); reflexivity.
  - apply (proj1 (proj2 (auth_rejects_missing_token (Some "s3cret")
                           Scenario.verify
                           {[ "authorization" := "alice-token" ]}
                           (fun uid => @PasswordRoutes.get Sample.env uid
                                         Sample.id1)
                           Sample.world)) "alice-token");
      vm_compute; reflexivity.
Defined.

(** Alice's token under any scheme, and a token nobody issued. *)
Lemma auth_verifies_second_word_witness :
  Auth.guarded (Some "s3cret") Scenario.verify
    {[ "authorization" := "Basic alice-token" ]}
    (fun uid => @PasswordRoutes.get Sample.env uid Sample.id1) Sample.world
  = (Json 200 (PasswordBody Sample.bank), Sample.world)
  /\ Auth.guarded (Some "s3cret") Scenario.verify
       {[ "authorization" := "Bearer forged" ]}
       (fun uid => @PasswordRoutes.get Sample.env uid Sample.id1) Sample.world
     = (Json 403 (ErrorBody "Invalid or expired token"), Sample.world).
Proof.
  split.
  - rewrite (auth_verifies_second_word (Some "s3cret") Scenario.verify
               {[ "authorization" := "Basic alice-token" ]}
               (fun uid => @PasswordRoutes.get Sample.env uid Sample.id1)
               Sample.world "Basic" "alice-token");
      vm_compute; reflexivity.
  - rewrite (auth_verifies_second_word (Some "s3cret") Scenario.verify
               {[ "authorization" := "Bearer forged" ]}
               (fun uid => @PasswordRoutes.get Sample.env uid Sample.id1)
               Sample.world "Bearer" "forged");
      vm_compute; reflexivity.
Defined.

(** Alice deletes her avatar: the record loses the locator, the image
    stays on the disk. *)
Lemma avatar_delete_leaves_avatar_files_witness :
  exists w',
    @UserRoutes.delete_avatar Sample.env Sample.alice Sample.world
    = (Json 200 (MessageBody "Avatar deleted successfully"), w')
    /\ List.find (fun v => String.eqb (UserDoc._id v) Sample.alice) (users w')
       = Some (UserDoc.mk Sample.alice None)
    /\ disk w' !! "/srv/backend/uploads/avatars/aaaaaaaaaaaaaaaaaaaaaaaa-5-6.png"
       = Some (File "png-bytes" true).
Proof.
  destruct (@avatar_delete_leaves_avatar_files Sample.env Sample.world
              Sample.alice Sample.alice_user
              "/uploads/avatars/aaaaaaaaaaaaaaaaaaaaaaaa-5-6.png"
              eq_refl eq_refl eq_refl eq_refl eq_refl)
    as (w' & Hr & Hf & Hd).
  exists w'. split; [exact Hr|]. split; [exact Hf|].
  etransitivity;
    [exact (Hd "aaaaaaaaaaaaaaaaaaaaaaaa-5-6.png" eq_refl)|].
  vm_compute. reflexivity.
Defined.

(** Bob uploads a first avatar and deletes it: the image is still there. *)
Lemma avatar_upload_then_delete_keeps_blob_witness :
  let uploaded := @UserRoutes.post_avatar Sample.env Sample.bob
                    (Some Scenario.portrait) 50 7 Sample.world in
  let deleted := @UserRoutes.delete_avatar Sample.env Sample.bob
                   (snd uploaded) in
  fst deleted = Json 200 (MessageBody "Avatar deleted successfully")
  /\ disk (snd deleted)
       !! "/srv/backend/uploads/avatars/bbbbbbbbbbbbbbbbbbbbbbbb-50-7.png"
     = Some (File "png-data" true).
Proof.
  intros uploaded deleted.
  destruct (@avatar_upload_then_delete_keeps_blob Sample.env Sample.world
              Sample.bob Scenario.portrait 50 7 Sample.bob_user)
    as (_ & Hdel & _ & Hdisk);
    [reflexivity|reflexivity|reflexivity|reflexivity|reflexivity
    |reflexivity|reflexivity|].
  split; [exact Hdel|exact Hdisk].
Defined.

(** Alice replaces her avatar: the old image is still there. *)
Lemma avatar_replacement_keeps_old_blob_witness :
  exists w',
    @UserRoutes.post_avatar Sample.env Sample.alice (Some Scenario.portrait)
      50 7 Sample.world
    = (Json 200 (AvatarBody "Avatar uploaded successfully"
                   "/uploads/avatars/aaaaaaaaaaaaaaaaaaaaaaaa-50-7.png"), w')
    /\ disk w' !! "/srv/backend/uploads/avatars/aaaaaaaaaaaaaaaaaaaaaaaa-5-6.png"
       = Some (File "png-bytes" true).
Proof.
  destruct (@avatar_replacement_keeps_old_blob Sample.env Sample.world
              Sample.alice Scenario.portrait 50 7 Sample.alice_user
              "/uploads/avatars/aaaaaaaaaaaaaaaaaaaaaaaa-5-6.png")
    as (w' & Hr & _ & Hold);
    [reflexivity|reflexivity|reflexivity|reflexivity|reflexivity
    |reflexivity|reflexivity|reflexivity|reflexivity|reflexivity|].
  exists w'. split; [exact Hr|].
  etransitivity;
    [apply (Hold "aaaaaaaaaaaaaaaaaaaaaaaa-5-6.png");
       [reflexivity|vm_compute; discriminate]|].
  vm_compute. reflexivity.
Defined.
